(** * SWOT documentation generator and its authenticating proxy

    A shallow embedding of
      - [scripts/generate-docs.js]: the batch job that turns the rows of the
        SWOT record store into [.mdx] pages and removes stale pages, and
      - [server.js]: the Basic-Auth reverse proxy in front of the page server.

    JavaScript strings are modelled as [string] (the UTF-8 bytes of the
    text), JavaScript integers as [Z] (exact on the safe integers, below
    2^53 in magnitude; statements that depend on the digits or the
    arithmetic of an identifier say so), a directory as a finite map from
    the names of its regular files to their contents, and the script itself
    as a computation in a small state-and-exception monad over the
    directories and an event trace.

    Built-ins whose behaviour is fixed by the JavaScript host and not by this
    repository ([JSON.parse], [JSON.stringify], the [Date] string parser, the
    local time zone, [path.resolve]) are fields of a [jsHost] record, and the
    base64 decoder is an argument of the proxy: every theorem holds for
    every host and every decoder. *)

From Stdlib Require Import ZArith Ascii DecimalString DecimalPos DecimalZ.
From stdpp Require Import base option list strings gmap fin_maps.

Local Open Scope Z_scope.

(** ** JavaScript string primitives *)

Module Js.

(** The double quote and the line feed, which a string literal cannot hold. *)
Definition dq : string := String "034"%char EmptyString.
Definition nl : string := String "010"%char EmptyString.

(** [s.startsWith(p)] *)
Definition startsWith (s p : string) : bool := String.prefix p s.

(** [s.endsWith(p)]: some tail of [s] is [p]. *)
Fixpoint endsWith (s p : string) : bool :=
  String.eqb s p ||
  match s with
  | String _ s' => endsWith s' p
  | EmptyString => false
  end.

(** [s.includes(c)] for a one-character needle. *)
Fixpoint has_char (c : ascii) (s : string) : bool :=
  match s with
  | EmptyString => false
  | String a s' => Ascii.eqb a c || has_char c s'
  end.

(** [s.split(c)] for a one-character separator: the pieces between the
    separators; never the empty array ([''.split(c)] is [['']]). *)
Fixpoint split (c : ascii) (s : string) : list string :=
  match s with
  | EmptyString => [EmptyString]
  | String a s' =>
      if Ascii.eqb a c then EmptyString :: split c s'
      else match split c s' with
           | p :: ps => String a p :: ps
           | [] => [String a EmptyString]
           end
  end.

(** [pieces.join(sep)] *)
Fixpoint join (sep : string) (pieces : list string) : string :=
  match pieces with
  | [] => ""
  | [p] => p
  | p :: ps => p +:+ sep +:+ join sep ps
  end.

(** [s.slice(0, n)] *)
Definition slice0 (n : nat) (s : string) : string := String.substring 0 n s.

(** The character class [\d]. *)
Definition is_digit (c : ascii) : bool :=
  (48 <=? nat_of_ascii c)%nat && (nat_of_ascii c <=? 57)%nat.

Fixpoint all_digits (s : string) : bool :=
  match s with
  | EmptyString => true
  | String a s' => is_digit a && all_digits s'
  end.

(** Numbers.  The identifiers the script handles are integers held in
    doubles; a number is embedded as the integer it holds.  On the safe
    integers ([Number.isSafeInteger]) every integer is a double, [String]
    prints it digit for digit and [parseInt] reads it back exactly: there
    [string_of_Z], [parseInt] and the arithmetic of [Z] are those of
    JavaScript.  Beyond them a result is rounded to the nearest double and
    [String] prints the shortest digits that read back as that double,
    which [string_of_Z] and [parseInt] do not follow: statements that spell
    out the digits of a number are made for safe integers. *)
Definition safe (n : Z) : Prop := - 2 ^ 53 < n < 2 ^ 53.

(** The double nearest to the integer [n], ties going to the even
    significand: the value of an arithmetic result whose exact value is [n]
    (for magnitudes below 2^1024). *)
Definition to_double (n : Z) : Z :=
  let a := Z.abs n in
  if a <? 2 ^ 53 then n
  else
    let e := Z.log2 a - 52 in
    let q := a / 2 ^ e in
    let r := a mod 2 ^ e in
    let half := 2 ^ (e - 1) in
    let q' := if r <? half then q
              else if half <? r then q + 1
              else if Z.even q then q else q + 1 in
    Z.sgn n * (q' * 2 ^ e).

(** Template-literal rendering [`${n}`] of an integer: its decimal digits,
    which is what JavaScript prints for a safe integer. *)
Definition string_of_Z (n : Z) : string := NilZero.string_of_int (Z.to_int n).

(** [parseInt(ds)] on a string of decimal digits (the only use in the
    program): most significant digit first, the exact value.  JavaScript
    rounds the value to a double; the two agree below 2^53. *)
Fixpoint parseInt_acc (acc : Z) (ds : string) : Z :=
  match ds with
  | EmptyString => acc
  | String a ds' =>
      if is_digit a then parseInt_acc (10 * acc + (Z.of_nat (nat_of_ascii a) - 48)) ds'
      else acc
  end.

Definition parseInt (ds : string) : Z := parseInt_acc 0 ds.

(** [String(n).padStart(w, '0')] for a non-negative [n]. *)
Fixpoint zeros (k : nat) : string :=
  match k with
  | O => EmptyString
  | S k' => String "0" (zeros k')
  end.

Definition pad0 (w : nat) (n : Z) : string :=
  let s := string_of_Z n in
  zeros (w - String.length s) +:+ s.

(** *** The pattern [/-(\d+)\.mdx$/]

    [match_here s] anchors the pattern at the first character of [s]: a dash,
    the longest run of digits (the quantifier is greedy, and giving a digit
    back cannot help because a digit would then stand where the dot is
    required), then exactly [.mdx] up to the end of the input.  The result is
    capture group 1. *)
Fixpoint span_digits (s : string) : string * string :=
  match s with
  | EmptyString => (EmptyString, EmptyString)
  | String a s' =>
      if is_digit a
      then let '(ds, rest) := span_digits s' in (String a ds, rest)
      else (EmptyString, s)
  end.

Definition match_here (s : string) : option string :=
  match s with
  | String a r =>
      if Ascii.eqb a "-"
      then let '(ds, rest) := span_digits r in
           if negb (String.eqb ds "") && String.eqb rest ".mdx"
           then Some ds else None
      else None
  | EmptyString => None
  end.

(** [file.match(/-(\d+)\.mdx$/)]: the leftmost position at which the
    pattern matches; [None] is JavaScript's [null]. *)
Fixpoint match_id_suffix (file : string) : option string :=
  match match_here file with
  | Some ds => Some ds
  | None =>
      match file with
      | String _ file' => match_id_suffix file'
      | EmptyString => None
      end
  end.

End Js.

(** ** Dates

    A [Date] object is its time value: milliseconds since the epoch, or
    [None] for an Invalid Date.  The fields of a time value follow
    ECMA-262 (Day, TimeWithinDay, YearFromTime, MonthFromTime, DateFromTime,
    HourFromTime, ...); year, month and day are computed with the usual
    era-based conversion of a day number to a proleptic Gregorian date. *)

Module JsDate.

Definition msPerDay : Z := 86400000.

Definition Day (t : Z) : Z := t / msPerDay.
Definition TimeWithinDay (t : Z) : Z := t mod msPerDay.

(** Year, month (1..12) and day of month (1..31) of day number [d]. *)
Definition civil (d : Z) : Z * Z * Z :=
  let z := d + 719468 in
  let era := z / 146097 in
  let doe := z - era * 146097 in
  let yoe := (doe - doe / 1460 + doe / 36524 - doe / 146096) / 365 in
  let doy := doe - (365 * yoe + yoe / 4 - yoe / 100) in
  let mp := (5 * doy + 2) / 153 in
  let day := doy - (153 * mp + 2) / 5 + 1 in
  let m := if mp <? 10 then mp + 3 else mp - 9 in
  let y := yoe + era * 400 + (if m <=? 2 then 1 else 0) in
  (y, m, day).

Definition YearFromTime (t : Z) : Z := (civil (Day t)).1.1.
Definition MonthFromTime (t : Z) : Z := (civil (Day t)).1.2.
Definition DateFromTime (t : Z) : Z := (civil (Day t)).2.
Definition HourFromTime (t : Z) : Z := TimeWithinDay t / 3600000.
Definition MinFromTime (t : Z) : Z := (TimeWithinDay t / 60000) mod 60.
Definition SecFromTime (t : Z) : Z := (TimeWithinDay t / 1000) mod 60.
Definition msFromTime (t : Z) : Z := t mod 1000.

(** The year of an ISO string: four digits for 0..9999, otherwise a sign and
    six digits. *)
Definition iso_year (y : Z) : string :=
  if (0 <=? y) && (y <=? 9999) then Js.pad0 4 y
  else (if y <? 0 then "-" else "+") +:+ Js.pad0 6 (Z.abs y).

(** [YYYY-MM-DD] *)
Definition iso_date (t : Z) : string :=
  iso_year (YearFromTime t) +:+ "-" +:+ Js.pad0 2 (MonthFromTime t)
  +:+ "-" +:+ Js.pad0 2 (DateFromTime t).

(** [HH:mm:ss] *)
Definition hms (t : Z) : string :=
  Js.pad0 2 (HourFromTime t) +:+ ":" +:+ Js.pad0 2 (MinFromTime t)
  +:+ ":" +:+ Js.pad0 2 (SecFromTime t).

(** [date.toISOString()] of a valid date: [YYYY-MM-DDTHH:mm:ss.sssZ]. *)
Definition toISOString (t : Z) : string :=
  iso_date t +:+ "T" +:+ hms t +:+ "." +:+ Js.pad0 3 (msFromTime t) +:+ "Z".

End JsDate.

(** ** The generator: data *)

Module Gen.

(** A value produced by [JSON.parse].  A number is carried as the text that
    [String(n)] prints for it; an object as its members in source order. *)
#[local] Unset Elimination Schemes.
Inductive json :=
| JNull
| JBool (b : bool)
| JNum (shown : string)
| JStr (s : string)
| JArr (elems : list json)
| JObj (members : list (string * json)).
#[local] Set Elimination Schemes.

(** What can end the script early. *)
Inductive exn :=
| SyntaxError   (* JSON.parse on malformed text *)
| TypeError     (* property of null, call of a non-function, object to primitive *)
| RangeError    (* toISOString of an Invalid Date, a negative repeat count, a bad port *)
| FsError.      (* a failing file-system or database call *)

(** The outcome of a computation: a value, [process.exit(code)], or an
    uncaught exception. *)
Inductive result (A : Type) :=
| Ok (a : A)
| Exit (code : Z)
| Throw (e : exn).
Arguments Ok {A} a.
Arguments Exit {A} code.
Arguments Throw {A} e.

#[export] Instance result_ret : MRet result := fun A a => Ok a.
#[export] Instance result_bind : MBind result := fun A B f r =>
  match r with
  | Ok a => f a
  | Exit c => Exit c
  | Throw e => Throw e
  end.

(** The host functions the script calls. *)
Record jsHost := {
  JSON_parse : string -> option json;   (* [None]: the call throws SyntaxError *)
  JSON_stringify : json -> string;
  Date_parse : string -> option Z;      (* time value of [new Date(text)]; [None]: Invalid Date *)
  LocalTZA : Z -> Z;                    (* local time minus UTC at a time value, in ms *)
  tz_label : Z -> string;               (* what toTimeString prints after the clock time *)
  path_resolve : string -> string;      (* [path.resolve(process.cwd(), p)] *)
  docsDir : string;                     (* [path.resolve(__dirname, '../docs')] *)
}.

(** One row of [swot_analyses] (joined with its context); a text column
    holding SQL NULL is [None]. *)
Module SwotRow.
Record t := {
  id : Z;
  created_at : string;
  source_file : string;
  strengths_json : option string;
  weaknesses_json : option string;
  opportunities_json : option string;
  threats_json : option string;
  strategic_so_json : option string;
  strategic_wo_json : option string;
  strategic_st_json : option string;
  strategic_wt_json : option string;
}.
End SwotRow.

(** One row of [comparisons]. *)
Module CompRow.
Record t := {
  id : Z;
  created_at : string;
  old_swot_id : Z;
  new_swot_id : Z;
  items_json : option string;
  summary : option string;
}.
End CompRow.

(** A record store: what the two [SELECT ... ORDER BY created_at DESC]
    statements return, in the order they return it. *)
Record database := {
  swotRows : list SwotRow.t;
  compRows : list CompRow.t;
}.

(** The two output directories, [docs/swot] and [docs/comparisons]. *)
Inductive outdir := swotDir | compDir.

#[export] Instance outdir_eq_dec : EqDecision outdir.
Proof. solve_decision. Defined.

Inductive event :=
| Log (line : string)                          (* console.log *)
| LogError (line : string)                     (* console.error *)
| OpenDb (path : string)                       (* new Database(path, readonly) *)
| CloseDb                                      (* db.close() *)
| MkDir (dir : outdir)                         (* fs.mkdirSync(dir, recursive) *)
| WriteFile (dir : outdir) (name content : string)
| Unlink (dir : outdir) (name : string).

(** The world the script runs in: the record stores that exist (by resolved
    path), the regular files of the two output directories, and what the
    script has done so far, oldest first. *)
Record world := {
  stores : gmap string database;
  swot_files : gmap string string;
  comp_files : gmap string string;
  trace : list event;
}.

Definition files (dir : outdir) (w : world) : gmap string string :=
  match dir with
  | swotDir => swot_files w
  | compDir => comp_files w
  end.

Definition set_files (dir : outdir) (m : gmap string string) (w : world) : world :=
  match dir with
  | swotDir => {| stores := stores w; swot_files := m;
                  comp_files := comp_files w; trace := trace w |}
  | compDir => {| stores := stores w; swot_files := swot_files w;
                  comp_files := m; trace := trace w |}
  end.

Definition record (e : event) (w : world) : world :=
  {| stores := stores w; swot_files := swot_files w;
     comp_files := comp_files w; trace := trace w ++ [e] |}.

(** ** The generator: the monad of the script *)

Definition M (A : Type) : Type := world -> result A * world.

#[export] Instance M_ret : MRet M := fun A a w => (Ok a, w).
#[export] Instance M_bind : MBind M := fun A B f m w =>
  match m w with
  | (Ok a, w') => f a w'
  | (Exit c, w') => (Exit c, w')
  | (Throw e, w') => (Throw e, w')
  end.

Definition lift {A} (r : result A) : M A := fun w => (r, w).

Definition console_log (line : string) : M unit :=
  fun w => (Ok tt, record (Log line) w).

Definition console_error (line : string) : M unit :=
  fun w => (Ok tt, record (LogError line) w).

Definition process_exit (code : Z) : M unit := fun w => (Exit code, w).

Definition existsSync (path : string) : M bool :=
  fun w => (Ok (bool_decide (is_Some (stores w !! path))), w).

Definition Database (path : string) : M database :=
  fun w =>
    match stores w !! path with
    | Some db => (Ok db, record (OpenDb path) w)
    | None => (Throw FsError, w)
    end.

Definition db_close : M unit := fun w => (Ok tt, record CloseDb w).

Definition mkdirSync (dir : outdir) : M unit :=
  fun w => (Ok tt, record (MkDir dir) w).

(** [fs.readdirSync(dir)]: the names in the directory, in the order the
    file system lists them.  The two output directories are modelled as
    holding regular files only, as the script itself leaves them. *)
Definition readdirSync (dir : outdir) : M (list string) :=
  fun w => (Ok (map_to_list (files dir w)).*1, w).

(** [fs.writeFileSync(path.join(dir, name), content)]: creates or
    overwrites. *)
Definition writeFileSync (dir : outdir) (name content : string) : M unit :=
  fun w =>
    (Ok tt, record (WriteFile dir name content)
              (set_files dir (<[name := content]> (files dir w)) w)).

(** [fs.unlinkSync(path.join(dir, name))]: fails on a missing file.  On the
    regular files of the model nothing else fails; an entry that is a
    subdirectory, which the model does not have, would make the call
    throw. *)
Definition unlinkSync (dir : outdir) (name : string) : M unit :=
  fun w =>
    match files dir w !! name with
    | Some _ => (Ok tt, record (Unlink dir name)
                          (set_files dir (delete name (files dir w)) w))
    | None => (Throw FsError, w)
    end.

(** [list.forEach((x, index) => f(x, index))], from [index] on. *)
Fixpoint forEach {A} (f : A -> nat -> M unit) (l : list A) (index : nat) : M unit :=
  match l with
  | [] => mret tt
  | x :: l' => f x index ;; forEach f l' (S index)
  end.

(** ** The generator: JavaScript values in the templates *)

(** [a || d] on a nullable text column: NULL and the empty string are falsy. *)
Definition or_else (a : option string) (d : string) : string :=
  match a with
  | Some s => if String.eqb s "" then d else s
  | None => d
  end.

(** [a || b] where both sides may be undefined. *)
Definition js_or (a b : option string) : option string :=
  match a with
  | Some s => if String.eqb s "" then b else Some s
  | None => b
  end.

(** [JSON.parse(text)] *)
Definition parse (h : jsHost) (text : string) : result json :=
  match JSON_parse h text with
  | Some v => Ok v
  | None => Throw SyntaxError
  end.

(** [JSON.parse(field || '[]')] *)
Definition parse_field (h : jsHost) (field : option string) : result json :=
  parse h (or_else field "[]").

(** The own property [key] of an object; a repeated key keeps its last
    value. *)
Fixpoint own_property (key : string) (members : list (string * json)) : option json :=
  match members with
  | [] => None
  | (k, v) :: rest =>
      match own_property key rest with
      | Some v' => Some v'
      | None => if String.eqb k key then Some v else None
      end
  end.

(** [v.key] for [key] one of [text], [reasoning]: a TypeError on [null],
    the own property of an object, [undefined] ([None]) on everything
    else. *)
Definition get (v : json) (key : string) : result (option json) :=
  match v with
  | JNull => Throw TypeError
  | JObj members => Ok (own_property key members)
  | _ => Ok None
  end.

(** [String(v)] as a template literal applies it.  An array prints its
    elements separated by commas, [null] elements as nothing; an object
    prints [[object Object]] unless an own (hence non-callable) [toString]
    member shadows the inherited method, in which case the conversion
    throws. *)
Fixpoint ToString (v : json) : result string :=
  match v with
  | JNull => Ok "null"
  | JBool true => Ok "true"
  | JBool false => Ok "false"
  | JNum shown => Ok shown
  | JStr s => Ok s
  | JArr elems =>
      pieces ← mapM (fun e => match e with JNull => Ok "" | _ => ToString e end) elems;
      Ok (Js.join "," pieces)
  | JObj members =>
      match own_property "toString" members with
      | Some _ => Throw TypeError
      | None => Ok "[object Object]"
      end
  end.

(** [`${v.key}`] *)
Definition show_property (v : json) (key : string) : result string :=
  p ← get v key;
  match p with
  | Some x => ToString x
  | None => Ok "undefined"
  end.

(** The elements of [v] where the template evaluates [v.length] and then
    [v.map(...)]: on anything but an array one of the two throws a
    TypeError ([null] has no properties, other values have no [map]). *)
Definition items_of (v : json) : result (list json) :=
  match v with
  | JArr elems => Ok elems
  | _ => Throw TypeError
  end.

(** [`${items.length}`] *)
Definition js_length (items : list json) : string :=
  Js.string_of_Z (Z.of_nat (length items)).

(** One entry of a details block:
    [`\n### ${i + 1}. ${s.text}\n\n> ${s.reasoning}\n`]. *)
Definition detail_item (s : json) (i : nat) : result string :=
  text ← show_property s "text";
  reasoning ← show_property s "reasoning";
  Ok (Js.nl +:+ "### " +:+ Js.string_of_Z (Z.of_nat i + 1) +:+ ". " +:+ text
      +:+ Js.nl +:+ Js.nl +:+ "> " +:+ reasoning +:+ Js.nl).

Fixpoint detail_items (items : list json) (i : nat) : result (list string) :=
  match items with
  | [] => Ok []
  | s :: rest =>
      d ← detail_item s i;
      ds ← detail_items rest (S i);
      Ok (d :: ds)
  end.

(** [items.map((s, i) => ...).join('\n')] *)
Definition details (items : list json) : result string :=
  ds ← detail_items items 0;
  Ok (Js.join Js.nl ds).

(** ** The generator: derived display values *)

(** [date.toISOString()] *)
Definition toISOString (date : option Z) : result string :=
  match date with
  | Some t => Ok (JsDate.toISOString t)
  | None => Throw RangeError
  end.

(** [date.toTimeString()]: the local clock time, a space, the zone. *)
Definition toTimeString (h : jsHost) (date : option Z) : string :=
  match date with
  | Some t => JsDate.hms (t + LocalTZA h t) +:+ " " +:+ tz_label h t
  | None => "Invalid Date"
  end.

(** [date.toISOString().split('T')[0]] *)
Definition dateStr_of (date : option Z) : result string :=
  iso ← toISOString date;
  Ok (default "" (head (Js.split "T" iso))).

(** [date.toTimeString().split(' ')[0].slice(0, 5)] *)
Definition timeStr_of (h : jsHost) (date : option Z) : string :=
  Js.slice0 5 (default "" (head (Js.split " " (toTimeString h date)))).

(** [`${dateStr}-${row.id}`] *)
Definition slug (dateStr : string) (id : Z) : string :=
  dateStr +:+ "-" +:+ Js.string_of_Z id.

(** [index === 0] *)
Definition isLatest (index : nat) : bool := Nat.eqb index 0.

(** [1000 - row.id]: the difference as a double. *)
Definition sidebar_position (id : Z) : Z := Js.to_double (1000 - id).

(** [isLatest ? '🆕 ' : ''] *)
Definition latest_mark (isLatest : bool) : string :=
  if isLatest then "🆕 " else "".

(** ** The generator: the two page templates *)

Definition swot_mdx (h : jsHost) (row : SwotRow.t) (dateStr timeStr : string)
    (isLatest : bool)
    (strengths weaknesses opportunities threats : json)
    (strategicSO strategicWO strategicST strategicWT : json) : result string :=
  sItems ← items_of strengths;
  sDetails ← details sItems;
  wItems ← items_of weaknesses;
  wDetails ← details wItems;
  oItems ← items_of opportunities;
  oDetails ← details oItems;
  tItems ← items_of threats;
  tDetails ← details tItems;
  Ok (
      Js.join Js.nl
        [ "---"
        ; "sidebar_position: " +:+ Js.string_of_Z (sidebar_position (SwotRow.id row))
        ; "title: " +:+ Js.dq +:+ latest_mark isLatest +:+ dateStr +:+ " — " +:+ SwotRow.source_file row +:+ Js.dq
        ; "description: " +:+ Js.dq +:+ "SWOT-анализ от " +:+ dateStr +:+ " " +:+ timeStr +:+ Js.dq
        ; "---"
        ; ""
        ; "import SwotMatrix, { SwotStats } from '@site/src/components/SwotMatrix';"
        ; "import StrategicPairs from '@site/src/components/StrategicPairs';"
        ; ""
        ; "# SWOT-анализ: " +:+ SwotRow.source_file row
        ; ""
        ; "📅 **Дата:** " +:+ dateStr +:+ " " +:+ timeStr +:+ "  "
        ; "📄 **Источник:** `" +:+ SwotRow.source_file row +:+ "`  "
        ; "🆔 **ID:** " +:+ Js.string_of_Z (SwotRow.id row)
        ; ""
        ; "---"
        ; ""
        ; "## 📊 Обзор"
        ; ""
        ; "<SwotStats "
        ; "  strengths={" +:+ JSON_stringify h strengths +:+ "}"
        ; "  weaknesses={" +:+ JSON_stringify h weaknesses +:+ "}"
        ; "  opportunities={" +:+ JSON_stringify h opportunities +:+ "}"
        ; "  threats={" +:+ JSON_stringify h threats +:+ "}"
        ; "/>"
        ; ""
        ; "---"
        ; ""
        ; "## 🎯 SWOT-матрица"
        ; ""
        ; "<SwotMatrix "
        ; "  strengths={" +:+ JSON_stringify h strengths +:+ "}"
        ; "  weaknesses={" +:+ JSON_stringify h weaknesses +:+ "}"
        ; "  opportunities={" +:+ JSON_stringify h opportunities +:+ "}"
        ; "  threats={" +:+ JSON_stringify h threats +:+ "}"
        ; "/>"
        ; ""
        ; ":::tip Подсказка"
        ; "Наведите на пункт, чтобы увидеть обоснование"
        ; ":::"
        ; ""
        ; "---"
        ; ""
        ; "## 🧭 Стратегическое сопоставление"
        ; ""
        ; "<StrategicPairs "
        ; "  so={" +:+ JSON_stringify h strategicSO +:+ "}"
        ; "  wo={" +:+ JSON_stringify h strategicWO +:+ "}"
        ; "  st={" +:+ JSON_stringify h strategicST +:+ "}"
        ; "  wt={" +:+ JSON_stringify h strategicWT +:+ "}"
        ; "/>"
        ; ""
        ; "---"
        ; ""
        ; "## 📝 Детали"
        ; ""
        ; "<details>"
        ; "<summary>Сильные стороны (" +:+ js_length sItems +:+ ")</summary>"
        ; ""
        ; sDetails
        ; ""
        ; "</details>"
        ; ""
        ; "<details>"
        ; "<summary>Слабые стороны (" +:+ js_length wItems +:+ ")</summary>"
        ; ""
        ; wDetails
        ; ""
        ; "</details>"
        ; ""
        ; "<details>"
        ; "<summary>Возможности (" +:+ js_length oItems +:+ ")</summary>"
        ; ""
        ; oDetails
        ; ""
        ; "</details>"
        ; ""
        ; "<details>"
        ; "<summary>Угрозы (" +:+ js_length tItems +:+ ")</summary>"
        ; ""
        ; tDetails
        ; ""
        ; "</details>"
        ; ""
        ]).

Definition comp_mdx (h : jsHost) (row : CompRow.t) (dateStr timeStr : string)
    (isLatest : bool) (items : json) : string :=
  Js.join Js.nl
    [ "---"
    ; "sidebar_position: " +:+ Js.string_of_Z (sidebar_position (CompRow.id row))
    ; "title: " +:+ Js.dq +:+ latest_mark isLatest +:+ "Сравнение " +:+ dateStr +:+ Js.dq
    ; "description: " +:+ Js.dq +:+ "Сравнение SWOT #" +:+ Js.string_of_Z (CompRow.old_swot_id row) +:+ " → #" +:+ Js.string_of_Z (CompRow.new_swot_id row) +:+ Js.dq
    ; "---"
    ; ""
    ; "import ComparisonTimeline, { ComparisonStats } from '@site/src/components/ComparisonTimeline';"
    ; ""
    ; "# Сравнение SWOT-анализов"
    ; ""
    ; "📅 **Дата:** " +:+ dateStr +:+ " " +:+ timeStr +:+ "  "
    ; "🔄 **Версии:** #" +:+ Js.string_of_Z (CompRow.old_swot_id row) +:+ " → #" +:+ Js.string_of_Z (CompRow.new_swot_id row)
    ; ""
    ; "---"
    ; ""
    ; "<ComparisonTimeline "
    ; "  items={" +:+ JSON_stringify h items +:+ "}"
    ; "  summary={" +:+ JSON_stringify h (JStr (or_else (CompRow.summary row) "")) +:+ "}"
    ; "/>"
    ; ""
    ].

(** ** The generator: the script *)

(** The command line: [--db=<path>], else the argument after [--db] (the
    first argument when there is no [--db], because [indexOf] is then -1),
    else the default. *)
Fixpoint indexOf (x : string) (l : list string) : option nat :=
  match l with
  | [] => None
  | y :: l' => if String.eqb y x then Some 0%nat else S <$> indexOf x l'
  end.

Definition dbPathArg (args : list string) : string :=
  let eq_form :=
    a ← List.find (fun a => Js.startsWith a "--db=") args; Js.split "=" a !! 1%nat in
  let next_form :=
    args !! (match indexOf "--db" args with Some i => S i | None => 0%nat end) in
  default "../swot.db" (js_or (js_or eq_form next_form) None).

(** The files [cleanupOldFiles] looks at: [.mdx] files not starting with an
    underscore. *)
Definition candidate (f : string) : bool :=
  Js.endsWith f ".mdx" && negb (Js.startsWith f "_").

(** The identifier embedded in a file name, when the name has one. *)
Definition fileId (file : string) : option Z :=
  Js.parseInt <$> Js.match_id_suffix file.

(** The body of [files.forEach] in [cleanupOldFiles], with the counter
    [removed] passed along. *)
Fixpoint cleanup_each (dir : outdir) (validIds : list Z) (files : list string)
    (removed : nat) : M nat :=
  match files with
  | [] => mret removed
  | file :: files' =>
      match fileId file with
      | Some n =>
          if negb (bool_decide (n ∈ validIds))
          then
            unlinkSync dir file ;;
            console_log ("   🗑️  Удалён устаревший: " +:+ file) ;;
            cleanup_each dir validIds files' (S removed)
          else cleanup_each dir validIds files' removed
      | None => cleanup_each dir validIds files' removed
      end
  end.

Definition cleanupOldFiles (dir : outdir) (validIds : list Z) : M nat :=
  names ← readdirSync dir;
  let files := List.filter candidate names in
  cleanup_each dir validIds files 0%nat.

(** The body of [swotRows.forEach]. *)
Definition emit_swot (h : jsHost) (row : SwotRow.t) (index : nat) : M unit :=
  let date := Date_parse h (SwotRow.created_at row) in
  dateStr ← lift (dateStr_of date);
  let timeStr := timeStr_of h date in
  let slug := slug dateStr (SwotRow.id row) in
  let isLatest := isLatest index in
  strengths ← lift (parse_field h (SwotRow.strengths_json row));
  weaknesses ← lift (parse_field h (SwotRow.weaknesses_json row));
  opportunities ← lift (parse_field h (SwotRow.opportunities_json row));
  threats ← lift (parse_field h (SwotRow.threats_json row));
  strategicSO ← lift (parse_field h (SwotRow.strategic_so_json row));
  strategicWO ← lift (parse_field h (SwotRow.strategic_wo_json row));
  strategicST ← lift (parse_field h (SwotRow.strategic_st_json row));
  strategicWT ← lift (parse_field h (SwotRow.strategic_wt_json row));
  mdx ← lift (swot_mdx h row dateStr timeStr isLatest
                strengths weaknesses opportunities threats
                strategicSO strategicWO strategicST strategicWT);
  writeFileSync swotDir (slug +:+ ".mdx") mdx ;;
  console_log ("   ✅ " +:+ slug +:+ ".mdx").

(** The body of [compRows.forEach]. *)
Definition emit_comp (h : jsHost) (row : CompRow.t) (index : nat) : M unit :=
  let date := Date_parse h (CompRow.created_at row) in
  dateStr ← lift (dateStr_of date);
  let timeStr := timeStr_of h date in
  let slug := slug dateStr (CompRow.id row) in
  let isLatest := isLatest index in
  items ← lift (parse_field h (CompRow.items_json row));
  let mdx := comp_mdx h row dateStr timeStr isLatest items in
  writeFileSync compDir (slug +:+ ".mdx") mdx ;;
  console_log ("   ✅ " +:+ slug +:+ ".mdx").

(** The pass over the analyses: emit every row, then reconcile. *)
Definition swot_pass (h : jsHost) (db : database) : M unit :=
  let swotRows := swotRows db in
  console_log (Js.nl +:+ "📊 Найдено SWOT-анализов: "
               +:+ Js.string_of_Z (Z.of_nat (length swotRows))) ;;
  forEach (emit_swot h) swotRows 0 ;;
  let validSwotIds := SwotRow.id <$> swotRows in
  removedSwot ← cleanupOldFiles swotDir validSwotIds;
  if (0 <? removedSwot)%nat
  then console_log ("   🧹 Удалено устаревших SWOT: "
                    +:+ Js.string_of_Z (Z.of_nat removedSwot))
  else mret tt.

(** The pass over the comparisons. *)
Definition comp_pass (h : jsHost) (db : database) : M unit :=
  let compRows := compRows db in
  console_log (Js.nl +:+ "🔄 Найдено сравнений: "
               +:+ Js.string_of_Z (Z.of_nat (length compRows))) ;;
  forEach (emit_comp h) compRows 0 ;;
  let validCompIds := CompRow.id <$> compRows in
  removedComp ← cleanupOldFiles compDir validCompIds;
  if (0 <? removedComp)%nat
  then console_log ("   🧹 Удалено устаревших сравнений: "
                    +:+ Js.string_of_Z (Z.of_nat removedComp))
  else mret tt.

(** The whole script, top to bottom. *)
Definition main (h : jsHost) (args : list string) : M unit :=
  let dbPath := path_resolve h (dbPathArg args) in
  console_log ("📂 База данных: " +:+ dbPath) ;;
  console_log ("📄 Папка docs: " +:+ docsDir h) ;;
  found ← existsSync dbPath;
  (if negb found
   then
     console_error ("❌ База данных не найдена: " +:+ dbPath) ;;
     console_log "💡 Укажите путь: node generate-docs.js --db /path/to/swot.db" ;;
     process_exit 1
   else mret tt) ;;
  db ← Database dbPath;
  mkdirSync swotDir ;;
  mkdirSync compDir ;;
  swot_pass h db ;;
  comp_pass h db ;;
  db_close ;;
  console_log (Js.nl +:+ "✅ Генерация завершена!") ;;
  console_log (Js.nl +:+ "📌 Запустите сервер: npm start").

End Gen.

(** ** The authenticating proxy *)

Module Server.

(** The environment variables the proxy reads. *)
Record process_env := {
  SWOT_USER : option string;
  SWOT_PASSWORD : option string;
}.

(** [process.env.SWOT_USER || 'admin'] *)
Definition USER (env : process_env) : string := Gen.or_else (SWOT_USER env) "admin".

(** [process.env.SWOT_PASSWORD || 'swot2024'] *)
Definition PASSWORD (env : process_env) : string :=
  Gen.or_else (SWOT_PASSWORD env) "swot2024".

(** An inbound request, as far as the proxy reads it:
    [req.headers.authorization]. *)
Record request := { authorization : option string }.

(** What a handler does with a request. *)
Inductive effect :=
| WriteHead (status : Z) (headers : list (string * string))
| End (body : string)
| ProxyWeb          (* proxy.web(req, res): hand the request to the page server *)
| ProxyWs           (* proxy.ws(req, socket, head): hand the upgrade over *)
| SocketDestroy.    (* socket.destroy() *)

(** [s.slice(n)] *)
Fixpoint slice_from (n : nat) (s : string) : string :=
  match n, s with
  | O, _ => s
  | S n', String _ s' => slice_from n' s'
  | S _, EmptyString => EmptyString
  end.

(** The 401 answer with the Basic challenge. *)
Definition challenge (body : string) : list effect :=
  [ WriteHead 401
      [ ("WWW-Authenticate", "Basic realm=" +:+ Js.dq +:+ "SWOT Analyzer" +:+ Js.dq)
      ; ("Content-Type", "text/html; charset=utf-8") ]
  ; End body ].

(** [const [user, pass] = credentials.split(':')]: the first two pieces;
    [None] is [undefined]. *)
Definition user_pass (credentials : string) : option string * option string :=
  let parts := Js.split ":" credentials in
  (parts !! 0%nat, parts !! 1%nat).

(** [user === USER && pass === PASSWORD] *)
Definition credentials_ok (env : process_env) (credentials : string) : bool :=
  let '(user, pass) := user_pass credentials in
  bool_decide (user = Some (USER env)) && bool_decide (pass = Some (PASSWORD env)).

(** The callback of [http.createServer].  [decode] is
    [Buffer.from(text, 'base64').toString()]. *)
Definition handler (decode : string -> string) (env : process_env)
    (req : request) : list effect :=
  match authorization req with
  | None => challenge "<h1>🔐 Требуется авторизация</h1>"
  | Some auth =>
      if negb (Js.startsWith auth "Basic ")
      then challenge "<h1>🔐 Требуется авторизация</h1>"
      else
        let credentials := decode (slice_from 6 auth) in
        if negb (credentials_ok env credentials)
        then challenge "<h1>❌ Неверный логин или пароль</h1>"
        else [ProxyWeb]
  end.

(** The listener of the [upgrade] event. *)
Definition upgrade (decode : string -> string) (env : process_env)
    (req : request) : list effect :=
  match authorization req with
  | Some auth =>
      if Js.startsWith auth "Basic "
      then
        let credentials := decode (slice_from 6 auth) in
        if credentials_ok env credentials then [ProxyWs] else [SocketDestroy]
      else [SocketDestroy]
  | None => [SocketDestroy]
  end.

(** A request has been handed to the page server. *)
Definition forwarded (es : list effect) : Prop := ProxyWeb ∈ es ∨ ProxyWs ∈ es.

(** *** A base64 decoder for the examples

    Sextets of the standard alphabet, up to the padding; every full octet
    is a byte of the result. *)
Definition sextet (c : ascii) : option N :=
  let n := N_of_ascii c in
  if ((65 <=? n) && (n <=? 90))%N then Some (n - 65)%N
  else if ((97 <=? n) && (n <=? 122))%N then Some (n - 71)%N
  else if ((48 <=? n) && (n <=? 57))%N then Some (n + 4)%N
  else if (n =? 43)%N then Some 62%N
  else if (n =? 47)%N then Some 63%N
  else None.

Fixpoint sextets (s : string) : list N :=
  match s with
  | EmptyString => []
  | String c s' =>
      match sextet c with
      | Some v => v :: sextets s'
      | None => []
      end
  end.

Definition byte (n : N) : ascii := ascii_of_N (n mod 256).

Fixpoint octets (l : list N) : string :=
  match l with
  | a :: b :: c :: d :: rest =>
      let n := (a * 262144 + b * 4096 + c * 64 + d)%N in
      String (byte (n / 65536)) (String (byte (n / 256)) (String (byte n) (octets rest)))
  | [a; b; c] =>
      let n := (a * 4096 + b * 64 + c)%N in
      String (byte (n / 1024)) (String (byte (n / 4)) EmptyString)
  | [a; b] => String (byte ((a * 64 + b) / 16)) EmptyString
  | _ => EmptyString
  end.

Definition base64 (text : string) : string := octets (sextets text).

End Server.

(** ** Vocabulary of the statements

    The page a row is turned into, the stale files of a directory, and the
    projections of the event trace that the theorems speak about.  Each is
    tied to the script by a lemma below. *)

Module Obs.
Import Gen.

(** The file name and content [emit_swot] writes for [row] when the row is
    flagged latest or not. *)
Definition swot_page (h : jsHost) (row : SwotRow.t) (latest : bool)
    : result (string * string) :=
  let date := Date_parse h (SwotRow.created_at row) in
  dateStr ← dateStr_of date;
  strengths ← parse_field h (SwotRow.strengths_json row);
  weaknesses ← parse_field h (SwotRow.weaknesses_json row);
  opportunities ← parse_field h (SwotRow.opportunities_json row);
  threats ← parse_field h (SwotRow.threats_json row);
  strategicSO ← parse_field h (SwotRow.strategic_so_json row);
  strategicWO ← parse_field h (SwotRow.strategic_wo_json row);
  strategicST ← parse_field h (SwotRow.strategic_st_json row);
  strategicWT ← parse_field h (SwotRow.strategic_wt_json row);
  mdx ← swot_mdx h row dateStr (timeStr_of h date) latest
          strengths weaknesses opportunities threats
          strategicSO strategicWO strategicST strategicWT;
  Ok (slug dateStr (SwotRow.id row) +:+ ".mdx", mdx).

(** The same for [emit_comp]. *)
Definition comp_page (h : jsHost) (row : CompRow.t) (latest : bool)
    : result (string * string) :=
  let date := Date_parse h (CompRow.created_at row) in
  dateStr ← dateStr_of date;
  items ← parse_field h (CompRow.items_json row);
  Ok (slug dateStr (CompRow.id row) +:+ ".mdx",
      comp_mdx h row dateStr (timeStr_of h date) latest items).

(** The slug of a row. *)
Definition swot_slug (h : jsHost) (row : SwotRow.t) : result string :=
  dateStr ← dateStr_of (Date_parse h (SwotRow.created_at row));
  Ok (slug dateStr (SwotRow.id row)).

Definition comp_slug (h : jsHost) (row : CompRow.t) : result string :=
  dateStr ← dateStr_of (Date_parse h (CompRow.created_at row));
  Ok (slug dateStr (CompRow.id row)).

(** Writing one page and reporting it: the tail of both loop bodies. *)
Definition write_page (dir : outdir) (page : result (string * string)) : M unit :=
  p ← lift page;
  writeFileSync dir p.1 p.2 ;;
  console_log ("   ✅ " +:+ p.1).

(** The pages of a listing, rank by rank, from rank [k] on. *)
Fixpoint pages {A} (page : A -> bool -> result (string * string))
    (rows : list A) (k : nat) : list (result (string * string)) :=
  match rows with
  | [] => []
  | r :: rows' => page r (bool_decide (k = 0%nat)) :: pages page rows' (S k)
  end.

(** The values before the first failure. *)
Fixpoint ok_prefix {A} (l : list (result A)) : list A :=
  match l with
  | Ok a :: l' => a :: ok_prefix l'
  | _ => []
  end.

(** The first failure, if any. *)
Fixpoint outcome {A} (l : list (result A)) : result unit :=
  match l with
  | [] => Ok tt
  | Ok _ :: l' => outcome l'
  | Exit c :: _ => Exit c
  | Throw e :: _ => Throw e
  end.

(** A directory after a sequence of writes. *)
Definition write_all (ps : list (string * string)) (m : gmap string string)
    : gmap string string :=
  foldl (fun m p => <[p.1 := p.2]> m) m ps.

(** A file name whose embedded identifier is not valid. *)
Definition orphan (validIds : list Z) (file : string) : bool :=
  match fileId file with
  | Some n => negb (bool_decide (n ∈ validIds))
  | None => false
  end.

(** A file the reconciler deletes: a candidate that is an orphan. *)
Definition stale (validIds : list Z) (file : string) : bool :=
  candidate file && orphan validIds file.

(** The same in words: not underscore-prefixed, matching the pattern, and
    with an embedded identifier outside the valid ones. *)
Definition doomed (validIds : list Z) (file : string) : Prop :=
  Js.startsWith file "_" = false /\
  exists ds, Js.match_id_suffix file = Some ds /\ Js.parseInt ds ∉ validIds.


(** A run that leaves no partial output in a directory leaves the directory
    as it found it. *)
Definition no_partial_output (before after : gmap string string) : Prop :=
  after = before.



(** A directory after reconciliation. *)
Definition reconcile (validIds : list Z) (m : gmap string string)
    : gmap string string :=
  filter (fun kv => stale validIds kv.1 = false) m.

(** A directory after one pass over a kind: every page before the first
    failure is written; the directory is reconciled only when no page
    failed. *)
Definition after_pass (validIds : list Z) (ps : list (result (string * string)))
    (m : gmap string string) : gmap string string :=
  match outcome ps with
  | Ok _ => reconcile validIds (write_all (ok_prefix ps) m)
  | _ => write_all (ok_prefix ps) m
  end.

(** The outcome of a run whose store exists: the first failure of the first
    pass, else that of the second. *)
Definition run_result (ps qs : list (result (string * string))) : result unit :=
  match outcome ps with
  | Ok _ => outcome qs
  | r => r
  end.

(** The writes and the deletions in a trace. *)
Definition writes (t : list event) : list (outdir * string * string) :=
  omap (fun e => match e with WriteFile d n c => Some (d, n, c) | _ => None end) t.

Definition unlinks (t : list event) : list (outdir * string) :=
  omap (fun e => match e with Unlink d n => Some (d, n) | _ => None end) t.

Definition opens (t : list event) : list string :=
  omap (fun e => match e with OpenDb p => Some p | _ => None end) t.

(** A row with a structured field that is present and does not parse. *)
Definition malformed (h : jsHost) (field : option string) : Prop :=
  exists text, field = Some text /\ text <> "" /\ JSON_parse h text = None.

Definition swot_fields (row : SwotRow.t) : list (option string) :=
  [ SwotRow.strengths_json row; SwotRow.weaknesses_json row;
    SwotRow.opportunities_json row; SwotRow.threats_json row;
    SwotRow.strategic_so_json row; SwotRow.strategic_wo_json row;
    SwotRow.strategic_st_json row; SwotRow.strategic_wt_json row ].

End Obs.

(** ** Sample data

    A host and two small record stores for the examples.  The sample
    [JSON.parse] knows the two well-formed texts the examples use and
    rejects every other text as JavaScript rejects an unbalanced brace; the
    sample clock is UTC. *)

Module Sample.
Import Gen.

Definition quoted (s : string) : string := Js.dq +:+ s +:+ Js.dq.

(** The text of a one-element strengths array with text A and reasoning B. *)
Definition one_strength : string :=
  "[{" +:+ quoted "text" +:+ ":" +:+ quoted "A" +:+ ","
  +:+ quoted "reasoning" +:+ ":" +:+ quoted "B" +:+ "}]".

Definition parse_sample (text : string) : option json :=
  if String.eqb text "[]" then Some (JArr [])
  else if String.eqb text one_strength
       then Some (JArr [JObj [("text", JStr "A"); ("reasoning", JStr "B")]])
       else None.

(** Serialization of values whose strings need no escaping. *)
Fixpoint stringify_sample (v : json) : string :=
  match v with
  | JNull => "null"
  | JBool true => "true"
  | JBool false => "false"
  | JNum shown => shown
  | JStr s => quoted s
  | JArr elems => "[" +:+ Js.join "," (stringify_sample <$> elems) +:+ "]"
  | JObj members =>
      "{" +:+ Js.join "," ((fun kv => quoted kv.1 +:+ ":" +:+ stringify_sample kv.2) <$> members)
      +:+ "}"
  end.

Definition date_sample (text : string) : option Z :=
  if String.eqb text "2024-03-01T10:00:00Z" then Some 1709287200000
  else if String.eqb text "2023-01-01T00:00:00Z" then Some 1672531200000
  else None.

Definition host : jsHost := {|
  JSON_parse := parse_sample;
  JSON_stringify := stringify_sample;
  Date_parse := date_sample;
  LocalTZA := fun _ => 0;
  tz_label := fun _ => "GMT+0000 (Coordinated Universal Time)";
  path_resolve := fun p => p;
  docsDir := "/srv/swot-docs/docs";
|}.

(** Analysis 7 of 1 March 2024, with one strength. *)
Definition analysis7 : SwotRow.t := {|
  SwotRow.id := 7;
  SwotRow.created_at := "2024-03-01T10:00:00Z";
  SwotRow.source_file := "notes.md";
  SwotRow.strengths_json := Some one_strength;
  SwotRow.weaknesses_json := None;
  SwotRow.opportunities_json := Some "";
  SwotRow.threats_json := None;
  SwotRow.strategic_so_json := None;
  SwotRow.strategic_wo_json := None;
  SwotRow.strategic_st_json := None;
  SwotRow.strategic_wt_json := None;
|}.

(** Analysis 3 of 1 January 2023, whose strengths column holds an
    unbalanced brace. *)
Definition analysis3_broken : SwotRow.t := {|
  SwotRow.id := 3;
  SwotRow.created_at := "2023-01-01T00:00:00Z";
  SwotRow.source_file := "old.md";
  SwotRow.strengths_json := Some "{";
  SwotRow.weaknesses_json := None;
  SwotRow.opportunities_json := None;
  SwotRow.threats_json := None;
  SwotRow.strategic_so_json := None;
  SwotRow.strategic_wo_json := None;
  SwotRow.strategic_st_json := None;
  SwotRow.strategic_wt_json := None;
|}.

(** Comparison 1 of analyses 3 and 7. *)
Definition comparison1 : CompRow.t := {|
  CompRow.id := 1;
  CompRow.created_at := "2024-03-01T10:00:00Z";
  CompRow.old_swot_id := 3;
  CompRow.new_swot_id := 7;
  CompRow.items_json := None;
  CompRow.summary := None;
|}.

(** The same comparison with an unbalanced brace in its items column. *)
Definition comparison2_broken : CompRow.t := {|
  CompRow.id := 2;
  CompRow.created_at := "2023-01-01T00:00:00Z";
  CompRow.old_swot_id := 3;
  CompRow.new_swot_id := 7;
  CompRow.items_json := Some "{";
  CompRow.summary := None;
|}.

Definition store : database :=
  {| swotRows := [analysis7]; compRows := [comparison1] |}.

Definition store_broken : database :=
  {| swotRows := [analysis7; analysis3_broken];
     compRows := [comparison1; comparison2_broken] |}.

Definition args : list string := ["--db"; "/data/swot.db"].

(** A world with the store at [/data/swot.db] and the given analyses
    directory. *)
Definition world_with (db : database) (swot : gmap string string) : world := {|
  stores := {[ "/data/swot.db" := db ]};
  swot_files := swot;
  comp_files := ∅;
  trace := [];
|}.

(** A world without any store. *)
Definition world_without_store : world := {|
  stores := ∅;
  swot_files := {[ "2024-01-01-3.mdx" := "page" ]};
  comp_files := ∅;
  trace := [];
|}.

(** A page left over from an earlier run that carries identifier 7 under
    another date. *)
Definition leftover : gmap string string := {[ "2023-01-01-7.mdx" := "old page" ]}.

End Sample.

(** ** The start of the proxy script *)

Module Startup.
Import Gen Server.










End Startup.

(** ** The comparison timeline component

    [ComparisonTimeline.jsx]: the grouping of the change items by kind, the
    counters, and the keys of the entries.  A property that is undefined is
    [None].  The model is of the element tree the two function components
    build: an entry is the [ChangeItem] element with its key and its item,
    and what React then does with each entry is not modelled.  So [Ok] says
    that the tree was built, which every render needs, and not that React
    accepted every item ([ChangeItem] hands the texts of the item to React
    as children, and React rejects a plain object there). *)

Module Timeline.
Import Gen.

(** [i.change_type === ty]: a TypeError on [null]; no other value than the
    string [ty] itself is strictly equal to it. *)
Definition has_type (ty : string) (i : json) : result bool :=
  p ← get i "change_type";
  Ok (match p with
      | Some (JStr s) => String.eqb s ty
      | _ => false
      end).

(** [list.filter(i => i.change_type === ty)] *)
Fixpoint filter_type (ty : string) (l : list json) : result (list json) :=
  match l with
  | [] => Ok []
  | i :: rest =>
      b ← has_type ty i;
      kept ← filter_type ty rest;
      Ok (if (b : bool) then i :: kept else kept)
  end.

(** [items?.filter(i => i.change_type === ty) || []]: nothing for an
    undefined or null [items]; anything else that is not an array has no
    callable [filter]. *)
Definition group (ty : string) (items : option json) : result (list json) :=
  match items with
  | None => Ok []
  | Some JNull => Ok []
  | Some (JArr l) => filter_type ty l
  | Some _ => Throw TypeError
  end.

(** JavaScript truthiness of a value that came out of JSON. *)
Definition truthy (v : option json) : bool :=
  match v with
  | None => false
  | Some JNull => false
  | Some (JBool b) => b
  | Some (JNum shown) => negb (String.eqb shown "0")
  | Some (JStr s) => negb (String.eqb s "")
  | Some (JArr _) => true
  | Some (JObj _) => true
  end.

Record stats := {
  improved : nat;
  new : nat;
  worsened : nat;
  lost : nat;
}.

(** [ComparisonStats({ items })]: nothing ([None]) for falsy [items],
    else the four counters. *)
Definition ComparisonStats (items : option json) : result (option stats) :=
  if negb (truthy items) then Ok None
  else
    match items with
    | Some (JArr l) =>
        a ← filter_type "improved" l;
        b ← filter_type "new" l;
        c ← filter_type "worsened" l;
        d ← filter_type "lost" l;
        Ok (Some {| improved := length a; new := length b;
                    worsened := length c; lost := length d |})
    | _ => Throw TypeError
    end.

(** The entries of one group with their React keys:
    [group.map((item, idx) => <ChangeItem key={prefix + idx} item={item} />)]. *)
Definition keyed (prefix : string) (l : list json) : list (string * json) :=
  imap (fun idx item => (prefix +:+ Js.string_of_Z (Z.of_nat idx), item)) l.

(** What [ComparisonTimeline] returns: the summary card when the summary
    is a non-empty string, the counters, and the entries in display
    order. *)
Record view := {
  summary_card : option string;
  counters : option stats;
  entries : list (string * json);
}.

Definition ComparisonTimeline (items : option json) (summary : option string)
    : result view :=
  g_improved ← group "improved" items;
  g_new ← group "new" items;
  g_worsened ← group "worsened" items;
  g_lost ← group "lost" items;
  st ← ComparisonStats items;
  Ok {| summary_card :=
          match summary with
          | Some text => if String.eqb text "" then None else Some text
          | None => None
          end;
        counters := st;
        entries := keyed "imp-" g_improved ++ keyed "new-" g_new
                   ++ keyed "wor-" g_worsened ++ keyed "lost-" g_lost |}.

(** The kind of change an item carries, when it is a string. *)
Definition change_type (i : json) : option string :=
  match i with
  | JObj members =>
      match own_property "change_type" members with
      | Some (JStr s) => Some s
      | _ => None
      end
  | _ => None
  end.

(** An item of one of the four kinds the timeline shows. *)
Definition shown (i : json) : bool :=
  match change_type i with
  | Some s =>
      String.eqb s "improved" || String.eqb s "new"
      || String.eqb s "worsened" || String.eqb s "lost"
  | None => false
  end.

Definition of_type (ty : string) (i : json) : bool :=
  match change_type i with
  | Some s => String.eqb s ty
  | None => false
  end.

Definition is_null (i : json) : bool :=
  match i with
  | JNull => true
  | _ => false
  end.

(** The [items] the component can render: none, [null], or an array
    without a [null] element. *)
Definition renderable (items : option json) : Prop :=
  match items with
  | None => True
  | Some JNull => True
  | Some (JArr l) => JNull ∉ l
  | Some _ => False
  end.

(** The key of the entry at [idx] of a group. *)
Definition key (prefix : string) (idx : nat) : string :=
  prefix +:+ Js.string_of_Z (Z.of_nat idx).

End Timeline.

(** ** More vocabulary: the shape of a run *)

Module Shape.
Import Gen Obs.

(** What a pass adds to the trace: progress lines, page writes and
    deletions. *)
Definition pass_event (e : event) : bool :=
  match e with
  | Log _ => true
  | WriteFile _ _ _ => true
  | Unlink _ _ => true
  | _ => false
  end.

(** How often the store has been closed. *)
Definition closes (t : list event) : nat :=
  length (omap (fun e => match e with CloseDb => Some tt | _ => None end) t).

(** The first five events of a run over an existing store. *)
Definition prologue (h : jsHost) (args : list string) : list event :=
  [ Log ("📂 База данных: " +:+ path_resolve h (dbPathArg args));
    Log ("📄 Папка docs: " +:+ docsDir h);
    OpenDb (path_resolve h (dbPathArg args));
    MkDir swotDir;
    MkDir compDir ].

(** The last three events of a run that completes. *)
Definition epilogue : list event :=
  [ CloseDb;
    Log (Js.nl +:+ "✅ Генерация завершена!");
    Log (Js.nl +:+ "📌 Запустите сервер: npm start") ].

(** A computation that only adds pass events to the trace, however it
    ends. *)
Definition pass_only {A} (m : M A) : Prop :=
  forall w, exists evs,
    trace (m w).2 = trace w ++ evs /\ forallb pass_event evs = true.

End Shape.

(** ** More vocabulary: what the details blocks can print *)

Module Printable.
Import Gen.

(** An item of a category list whose text and reasoning the details block
    can print. *)
Definition printable_item (s : json) : Prop :=
  (exists a, show_property s "text" = Ok a)
  /\ (exists b, show_property s "reasoning" = Ok b).

(** A category value the template can render: an array of such items. *)
Definition printable_list (v : json) : Prop :=
  exists l, v = JArr l /\ forall s, s ∈ l -> printable_item s.

(** The four category columns of an analysis. *)
Definition category_fields (row : SwotRow.t) : list (option string) :=
  [ SwotRow.strengths_json row; SwotRow.weaknesses_json row;
    SwotRow.opportunities_json row; SwotRow.threats_json row ].

End Printable.

(** ** More vocabulary: the range of the identifiers, the front matter *)

Module Range.
Import Gen.

(** A file name whose embedded digits, if it has any, read as a number
    below 2^53: there [parseInt] is exact. *)
Definition safe_run (f : string) : Prop :=
  forall ds, Js.match_id_suffix f = Some ds -> Js.parseInt ds < 2 ^ 53.


(** An identifier that is a safe integer and whose ordering weight is one
    as well. *)
Definition safe_id (id : Z) : Prop := Js.safe id /\ Js.safe (1000 - id).

End Range.

Module Front.
Import Gen.

(** The page prints [k] as its ordering weight: the second line of its
    front matter is [sidebar_position: k]. *)
Definition weight_line (mdx : string) (k : Z) : Prop :=
  exists rest,
    mdx = "---" +:+ Js.nl +:+ "sidebar_position: " +:+ Js.string_of_Z k
          +:+ Js.nl +:+ rest.

(** The third line of a page, where the templates put the title. *)
Definition title_line (mdx : string) : option string :=
  Js.split "010" mdx !! 2%nat.

(** The title of the page carries the latest mark. *)
Definition marked (mdx : string) : bool :=
  match title_line mdx with
  | Some line => Js.startsWith line ("title: " +:+ Js.dq +:+ "🆕 ")
  | None => false
  end.

End Front.

(** ** More sample data *)

Module Sample2.
Import Gen.

(** An analysis with a negative identifier. *)
Definition analysis_minus5 : SwotRow.t := {|
  SwotRow.id := -5;
  SwotRow.created_at := "2024-03-01T10:00:00Z";
  SwotRow.source_file := "neg.md";
  SwotRow.strengths_json := None;
  SwotRow.weaknesses_json := None;
  SwotRow.opportunities_json := None;
  SwotRow.threats_json := None;
  SwotRow.strategic_so_json := None;
  SwotRow.strategic_wo_json := None;
  SwotRow.strategic_st_json := None;
  SwotRow.strategic_wt_json := None;
|}.

(** An analysis whose creation time does not parse. *)
Definition analysis_undated : SwotRow.t := {|
  SwotRow.id := 4;
  SwotRow.created_at := "yesterday";
  SwotRow.source_file := "undated.md";
  SwotRow.strengths_json := None;
  SwotRow.weaknesses_json := None;
  SwotRow.opportunities_json := None;
  SwotRow.threats_json := None;
  SwotRow.strategic_so_json := None;
  SwotRow.strategic_wo_json := None;
  SwotRow.strategic_st_json := None;
  SwotRow.strategic_wt_json := None;
|}.

(** A host that reads the text of an empty object besides what the sample
    host reads. *)
Definition host_obj : jsHost := {|
  JSON_parse := fun text =>
    if String.eqb text "{}" then Some (JObj []) else Sample.parse_sample text;
  JSON_stringify := Sample.stringify_sample;
  Date_parse := Sample.date_sample;
  LocalTZA := fun _ => 10800000;
  tz_label := fun _ => "GMT+0300 (Moscow Standard Time)";
  path_resolve := fun p => p;
  docsDir := "/srv/swot-docs/docs";
|}.

(** Analysis 8 whose strengths column holds an object, not an array. *)
Definition analysis8_object : SwotRow.t := {|
  SwotRow.id := 8;
  SwotRow.created_at := "2024-03-01T10:00:00Z";
  SwotRow.source_file := "obj.md";
  SwotRow.strengths_json := Some "{}";
  SwotRow.weaknesses_json := None;
  SwotRow.opportunities_json := None;
  SwotRow.threats_json := None;
  SwotRow.strategic_so_json := Some "{}";
  SwotRow.strategic_wo_json := None;
  SwotRow.strategic_st_json := None;
  SwotRow.strategic_wt_json := None;
|}.

(** Comparison 9 whose items column holds an object. *)
Definition comparison9_object : CompRow.t := {|
  CompRow.id := 9;
  CompRow.created_at := "2024-03-01T10:00:00Z";
  CompRow.old_swot_id := 3;
  CompRow.new_swot_id := 7;
  CompRow.items_json := Some "{}";
  CompRow.summary := Some "fine";
|}.

(** Two comparisons whose identifiers are doubles sixteen apart, beyond the
    safe integers. *)
Definition comparison_big (id : Z) : CompRow.t := {|
  CompRow.id := id;
  CompRow.created_at := "2024-03-01T10:00:00Z";
  CompRow.old_swot_id := 3;
  CompRow.new_swot_id := 7;
  CompRow.items_json := None;
  CompRow.summary := None;
|}.

Definition big1 : Z := 72057594037928960.
Definition big2 : Z := 72057594037928976.

Definition item (ty : string) (text : string) : json :=
  JObj [("change_type", JStr ty); ("new_text", JStr text)].

(** Five change items: two of them of no kind the timeline knows. *)
Definition items5 : list json :=
  [ item "lost" "a"; item "improved" "b"; item "renamed" "c";
    item "improved" "d"; JObj [("new_text", JStr "e")] ].

End Sample2.

(** * Properties *)

#[local] Arguments String.append !_ _ / : simpl nomatch.
#[local] Arguments Ascii.eqb : simpl never.

(** ** Examples *)

Section Examples.
Import Gen Obs.

Example toISOString_samples :
  JsDate.toISOString 1709287200000 = "2024-03-01T10:00:00.000Z"
  /\ JsDate.toISOString 0 = "1970-01-01T00:00:00.000Z"
  /\ JsDate.toISOString (-1) = "1969-12-31T23:59:59.999Z"
  /\ JsDate.toISOString 951868799999 = "2000-02-29T23:59:59.999Z"
  /\ JsDate.toISOString 253402300800000 = "+010000-01-01T00:00:00.000Z"
  /\ JsDate.toISOString (-62167219200001) = "-000001-12-31T23:59:59.999Z".
Proof. repeat split; reflexivity. Qed.

Example split_samples :
  Js.split ":" "admin:swot2024" = ["admin"; "swot2024"]
  /\ Js.split ":" "a:b:c" = ["a"; "b"; "c"]
  /\ Js.split ":" "abc" = ["abc"]
  /\ Js.split ":" "" = [""]
  /\ Js.split ":" "a:" = ["a"; ""].
Proof. repeat split; reflexivity. Qed.

Example pattern_samples :
  Js.match_id_suffix "2024-01-01-3.mdx" = Some "3"
  /\ Js.match_id_suffix "-007.mdx" = Some "007"
  /\ Js.match_id_suffix "7.mdx" = None
  /\ Js.match_id_suffix "a-12-x.mdx" = None
  /\ Js.match_id_suffix "a-7.mdx.bak" = None
  /\ Js.match_id_suffix "2024-03-01--5.mdx" = Some "5"
  /\ Js.parseInt "007" = 7.
Proof. repeat split; reflexivity. Qed.

Example dbPathArg_samples :
  dbPathArg [] = "../swot.db"
  /\ dbPathArg ["--db=/a/b.db"] = "/a/b.db"
  /\ dbPathArg ["--db"; "/a/b.db"] = "/a/b.db"
  /\ dbPathArg ["/a/b.db"] = "/a/b.db"
  /\ dbPathArg ["--db"] = "../swot.db".
Proof. repeat split; reflexivity. Qed.

Example base64_samples :
  Server.base64 "YWRtaW46c3dvdDIwMjQ=" = "admin:swot2024"
  /\ Server.base64 "YQ==" = "a"
  /\ Server.base64 "YWI=" = "ab".
Proof. repeat split; reflexivity. Qed.

(** One analysis, id 7 of 2024-03-01T10:00:00Z, and empty directories: the
    run writes exactly [2024-03-01-7.mdx] into the analyses directory and
    deletes nothing. *)
Example run_one_analysis :
  let r := main Sample.host Sample.args (Sample.world_with Sample.store ∅) in
  r.1 = Ok tt
  /\ (map_to_list (swot_files r.2)).*1 = ["2024-03-01-7.mdx"]
  /\ (map_to_list (comp_files r.2)).*1 = ["2024-03-01-1.mdx"]
  /\ unlinks (trace r.2) = [].
Proof. vm_compute. repeat split; reflexivity. Qed.

(** A stale page of identifier 3 is deleted; the protected files and the
    files that do not match are not. *)
Example cleanup_sample :
  let w := Sample.world_with Sample.store
             (list_to_map [ ("2024-01-01-3.mdx", "a"); ("_index.mdx", "b");
                            ("_old-3.mdx", "c"); ("notes-3.txt", "d");
                            ("intro.mdx", "e"); ("2020-05-05-7.mdx", "f") ]) in
  let r := cleanupOldFiles swotDir [7] w in
  r.1 = Ok 1%nat
  /\ unlinks (trace r.2) = [(swotDir, "2024-01-01-3.mdx")]
  /\ swot_files r.2 !! "2024-01-01-3.mdx" = None
  /\ swot_files r.2 !! "_index.mdx" = Some "b"
  /\ swot_files r.2 !! "_old-3.mdx" = Some "c"
  /\ swot_files r.2 !! "notes-3.txt" = Some "d"
  /\ swot_files r.2 !! "intro.mdx" = Some "e"
  /\ swot_files r.2 !! "2020-05-05-7.mdx" = Some "f".
Proof. vm_compute. repeat split; reflexivity. Qed.

End Examples.

(** ** Strings *)

Section StringFacts.
Import Js.

Lemma append_assoc (a b c : string) : (a +:+ b) +:+ c = a +:+ b +:+ c.
Proof. induction a as [|x a IH]; simpl; [done | by rewrite IH]. Qed.

Lemma length_append (a b : string) :
  String.length (a +:+ b) = (String.length a + String.length b)%nat.
Proof. induction a as [|x a IH]; simpl; [done | by rewrite IH]. Qed.

Lemma has_char_app (c : ascii) (a b : string) :
  has_char c (a +:+ b) = has_char c a || has_char c b.
Proof.
  induction a as [|x a IH]; simpl; [done |].
  rewrite IH. by rewrite orb_assoc.
Qed.

Lemma split_no_sep (c : ascii) (s : string) :
  has_char c s = false -> split c s = [s].
Proof.
  induction s as [|a s IH]; simpl; [done |].
  intros [Ha Hs]%orb_false_iff. rewrite Ha, (IH Hs). done.
Qed.

Lemma split_at_first (c : ascii) (a b : string) :
  has_char c a = false -> split c (a +:+ String c b) = a :: split c b.
Proof.
  induction a as [|x a IH]; simpl.
  - intros _. by rewrite Ascii.eqb_refl.
  - intros [Hx Ha]%orb_false_iff. rewrite Hx, (IH Ha). done.
Qed.

(** No piece of a split holds the separator. *)
Lemma split_pieces (c : ascii) (s p : string) :
  p ∈ split c s -> has_char c p = false.
Proof.
  revert p. induction s as [|a s IH]; simpl; intros p Hp.
  - apply list_elem_of_singleton in Hp. by subst.
  - destruct (Ascii.eqb a c) eqn:Hac.
    + apply elem_of_cons in Hp as [-> | Hp]; [done | by apply IH].
    + destruct (split c s) as [|q qs] eqn:Hs.
      * apply list_elem_of_singleton in Hp. subst. simpl. by rewrite Hac.
      * apply elem_of_cons in Hp as [-> | Hp].
        -- simpl. rewrite Hac. apply IH. left.
        -- apply IH. by right.
Qed.

Lemma endsWith_app (a p : string) : endsWith (a +:+ p) p = true.
Proof.
  induction a as [|x a IH]; simpl.
  - destruct p; simpl; rewrite ?String.eqb_refl, ?Ascii.eqb_refl; done.
  - rewrite IH. apply orb_true_r.
Qed.

(** *** Printing and reading integers *)

Lemma string_of_uint_digits (u : Decimal.uint) :
  all_digits (NilEmpty.string_of_uint u) = true.
Proof. induction u; simpl; done. Qed.

(** The value of a decimal numeral read most significant digit first. *)
Lemma parseInt_acc_uint (u : Decimal.uint) (p : positive) :
  parseInt_acc (Z.pos p) (NilEmpty.string_of_uint u) = Z.pos (Pos.of_uint_acc u p).
Proof.
  revert p. induction u as [|u IH|u IH|u IH|u IH|u IH|u IH|u IH|u IH|u IH|u IH];
    intros p; simpl; [done | ..];
    rewrite <- IH; f_equal; vm_compute (Z.of_nat (nat_of_ascii _)); lia.
Qed.

Lemma parseInt_uint (u : Decimal.uint) :
  parseInt (NilEmpty.string_of_uint u) = Z.of_N (Pos.of_uint u).
Proof.
  unfold parseInt.
  induction u as [|u IH|u IH|u IH|u IH|u IH|u IH|u IH|u IH|u IH|u IH];
    simpl; [done | exact IH | ..];
    first [ apply (parseInt_acc_uint u 1) | apply (parseInt_acc_uint u 2)
          | apply (parseInt_acc_uint u 3) | apply (parseInt_acc_uint u 4)
          | apply (parseInt_acc_uint u 5) | apply (parseInt_acc_uint u 6)
          | apply (parseInt_acc_uint u 7) | apply (parseInt_acc_uint u 8)
          | apply (parseInt_acc_uint u 9) ].
Qed.

Lemma to_uint_nonnil (p : positive) : Pos.to_uint p <> Decimal.Nil.
Proof.
  intros H. pose proof (DecimalPos.Unsigned.of_to p) as Hp.
  rewrite H in Hp. discriminate.
Qed.

Lemma string_of_Z_pos (p : positive) :
  string_of_Z (Z.pos p) = NilEmpty.string_of_uint (Pos.to_uint p).
Proof.
  unfold string_of_Z. simpl. unfold NilZero.string_of_uint.
  pose proof (to_uint_nonnil p). by destruct (Pos.to_uint p).
Qed.

Lemma string_of_Z_neg (p : positive) :
  string_of_Z (Z.neg p) = String "-" (NilEmpty.string_of_uint (Pos.to_uint p)).
Proof.
  unfold string_of_Z. simpl. unfold NilZero.string_of_uint.
  pose proof (to_uint_nonnil p). by destruct (Pos.to_uint p).
Qed.

Lemma all_digits_string_of_Z (n : Z) : 0 <= n -> all_digits (string_of_Z n) = true.
Proof.
  destruct n as [|p|p]; intros Hn; [done | | lia].
  rewrite string_of_Z_pos. apply string_of_uint_digits.
Qed.

Lemma string_of_Z_nonempty (n : Z) : string_of_Z n <> "".
Proof.
  destruct n as [|p|p]; [done | |].
  - rewrite string_of_Z_pos. pose proof (to_uint_nonnil p).
    by destruct (Pos.to_uint p).
  - done.
Qed.

Lemma parseInt_string_of_Z (n : Z) : 0 <= n -> parseInt (string_of_Z n) = n.
Proof.
  destruct n as [|p|p]; intros Hn; [done | | lia].
  rewrite string_of_Z_pos, parseInt_uint, DecimalPos.Unsigned.of_to. done.
Qed.

End StringFacts.

(** ** The file-name pattern *)

Section PatternFacts.
Import Js.

Lemma span_digits_spec (s : string) :
  s = (span_digits s).1 +:+ (span_digits s).2 /\ all_digits (span_digits s).1 = true.
Proof.
  induction s as [|a s [IH1 IH2]]; simpl; [done |].
  destruct (is_digit a) eqn:Ha; [| done].
  destruct (span_digits s) as [ds rest]; simpl in *.
  rewrite Ha, IH2. split; [by f_equal | done].
Qed.

Lemma span_digits_digits (ds rest : string) :
  all_digits ds = true ->
  match rest with String c _ => is_digit c = false | EmptyString => True end ->
  span_digits (ds +:+ rest) = (ds, rest).
Proof.
  intros Hds Hrest. induction ds as [|a ds IH]; simpl in *.
  - destruct rest as [|c r]; simpl; [done | by rewrite Hrest].
  - apply andb_true_iff in Hds as [Ha Hds]. rewrite Ha, (IH Hds). done.
Qed.

(** The digit run of a string that holds a dash stops at that dash or
    before it. *)
Lemma span_digits_rest_length (pre t : string) :
  (String.length ("-" +:+ t) <= String.length (span_digits (pre +:+ "-" +:+ t)).2)%nat.
Proof.
  induction pre as [|a pre IH]; simpl in *; [done |].
  destruct (is_digit a).
  - destruct (span_digits (pre +:+ String "-" t)) as [ds rest]; simpl in *. lia.
  - simpl. rewrite length_append. simpl. lia.
Qed.

Lemma match_here_intro (ds : string) :
  all_digits ds = true -> ds <> "" ->
  match_here ("-" +:+ ds +:+ ".mdx") = Some ds.
Proof.
  intros Hds Hne. simpl.
  rewrite (span_digits_digits ds ".mdx" Hds) by done.
  rewrite String.eqb_refl.
  destruct (String.eqb ds "") eqn:He; [by apply String.eqb_eq in He | done].
Qed.

Lemma match_here_elim (s ds : string) :
  match_here s = Some ds ->
  s = "-" +:+ ds +:+ ".mdx" /\ all_digits ds = true /\ ds <> "".
Proof.
  destruct s as [|a r]; simpl; [done |].
  destruct (Ascii.eqb a "-") eqn:Ha; [| done].
  apply Ascii.eqb_eq in Ha as ->.
  destruct (span_digits_spec r) as [Hr Hd].
  destruct (span_digits r) as [d rest]; simpl in *.
  destruct (String.eqb d "") eqn:He; simpl; [done |].
  destruct (String.eqb rest ".mdx") eqn:Hm; [| done].
  apply String.eqb_eq in Hm as ->. apply String.eqb_neq in He.
  intros [= <-]. by rewrite Hr.
Qed.

(** Whatever the pattern captures is a non-empty digit run that sits between
    a dash and the final [.mdx]. *)
Lemma match_id_suffix_elim (file ds : string) :
  match_id_suffix file = Some ds ->
  exists pre, file = pre +:+ "-" +:+ ds +:+ ".mdx" /\ all_digits ds = true /\ ds <> "".
Proof.
  induction file as [|a file IH].
  - simpl. done.
  - cbn [match_id_suffix]. destruct (match_here (String a file)) as [d|] eqn:Hh.
    + intros [= ->]. apply match_here_elim in Hh as (? & ? & ?). by exists "".
    + intros H. destruct (IH H) as (pre & -> & ? & ?). by exists (String a pre).
Qed.

(** The last dash-delimited digit run before [.mdx] is what the pattern
    captures, whatever stands before it. *)
Lemma match_id_suffix_intro (pre ds : string) :
  all_digits ds = true -> ds <> "" ->
  match_id_suffix (pre +:+ "-" +:+ ds +:+ ".mdx") = Some ds.
Proof.
  intros Hds Hne. induction pre as [|a pre IH].
  - assert (H := match_here_intro ds Hds Hne).
    simpl in *. by rewrite H.
  - change (String a pre +:+ "-" +:+ ds +:+ ".mdx")
      with (String a (pre +:+ "-" +:+ ds +:+ ".mdx")).
    cbn [match_id_suffix].
    destruct (match_here (String a (pre +:+ "-" +:+ ds +:+ ".mdx"))) as [d|] eqn:Hh;
      [| exact IH].
    exfalso. cbn [match_here] in Hh.
    destruct (Ascii.eqb a "-"); [| done].
    pose proof (span_digits_rest_length pre (ds +:+ ".mdx")) as Hlen.
    destruct (span_digits (pre +:+ "-" +:+ ds +:+ ".mdx")) as [d' rest]; simpl in *.
    destruct (String.eqb rest ".mdx") eqn:Hm; [| by rewrite andb_false_r in Hh].
    apply String.eqb_eq in Hm as ->. rewrite length_append in Hlen.
    simpl in Hlen. lia.
Qed.

Lemma match_id_suffix_endsWith (file ds : string) :
  match_id_suffix file = Some ds -> endsWith file ".mdx" = true.
Proof.
  intros (pre & -> & _)%match_id_suffix_elim.
  replace (pre +:+ "-" +:+ ds +:+ ".mdx") with ((pre +:+ "-" +:+ ds) +:+ ".mdx")
    by by rewrite !append_assoc.
  apply endsWith_app.
Qed.

End PatternFacts.

(** ** The primitives of the script *)

Section Primitives.
Import Gen Obs.

Lemma files_record d e w : files d (record e w) = files d w.
Proof. by destruct d. Qed.

Lemma files_set_files d m w : files d (set_files d m w) = m.
Proof. by destruct d. Qed.

Lemma files_set_files_ne d d' m w : d' <> d -> files d' (set_files d m w) = files d' w.
Proof. by destruct d, d'. Qed.

Lemma stores_set_files d m w : stores (set_files d m w) = stores w.
Proof. by destruct d. Qed.

Lemma trace_set_files d m w : trace (set_files d m w) = trace w.
Proof. by destruct d. Qed.

Lemma writes_snoc t e :
  writes (t ++ [e]) =
  writes t ++ match e with WriteFile d n c => [(d, n, c)] | _ => [] end.
Proof. unfold writes. rewrite omap_app. by destruct e. Qed.

Lemma unlinks_snoc t e :
  unlinks (t ++ [e]) =
  unlinks t ++ match e with Unlink d n => [(d, n)] | _ => [] end.
Proof. unfold unlinks. rewrite omap_app. by destruct e. Qed.

Lemma opens_snoc t e :
  opens (t ++ [e]) = opens t ++ match e with OpenDb p => [p] | _ => [] end.
Proof. unfold opens. rewrite omap_app. by destruct e. Qed.

Lemma bind_ok {A B} (m : M A) (f : A -> M B) w a w' :
  m w = (Ok a, w') -> (m ≫= f) w = f a w'.
Proof. intros H. unfold mbind, M_bind. by rewrite H. Qed.

Lemma bind_throw {A B} (m : M A) (f : A -> M B) w e w' :
  m w = (Throw e, w') -> (m ≫= f) w = (Throw e, w').
Proof. intros H. unfold mbind, M_bind. by rewrite H. Qed.

Lemma bind_exit {A B} (m : M A) (f : A -> M B) w c w' :
  m w = (Exit c, w') -> (m ≫= f) w = (Exit c, w').
Proof. intros H. unfold mbind, M_bind. by rewrite H. Qed.

(** The loop bodies are [write_page] of the page of the row. *)
Lemma emit_swot_write_page h row index w :
  emit_swot h row index w = write_page swotDir (swot_page h row (isLatest index)) w.
Proof.
  unfold emit_swot, write_page, swot_page.
  cbv [mbind M_bind result_bind lift].
  destruct (dateStr_of _) as [d| |]; [| done..].
  repeat (match goal with
          | |- context [parse_field ?h ?f] => destruct (parse_field h f); [| done..]
          end).
  destruct (swot_mdx _ _ _ _ _ _ _ _ _ _ _ _ _); done.
Qed.

Lemma emit_comp_write_page h row index w :
  emit_comp h row index w = write_page compDir (comp_page h row (isLatest index)) w.
Proof.
  unfold emit_comp, write_page, comp_page.
  cbv [mbind M_bind result_bind lift].
  destruct (dateStr_of _) as [d| |]; [| done..].
  destruct (parse_field _ _); done.
Qed.

Lemma isLatest_decide index : isLatest index = bool_decide (index = 0%nat).
Proof. by destruct index. Qed.

End Primitives.

(** ** Emission and reconciliation *)

Section Passes.
Import Gen Obs.

Lemma write_page_ok dir p w :
  write_page dir (Ok p) w =
  (Ok tt, record (Log ("   ✅ " +:+ p.1))
            (record (WriteFile dir p.1 p.2)
               (set_files dir (<[p.1 := p.2]> (files dir w)) w))).
Proof. reflexivity. Qed.

(** A loop of page writes: it stops at the first page that fails, and has by
    then written the pages before it, in listing order. *)
Lemma forEach_pages {A} (f : A -> nat -> M unit)
    (page : A -> bool -> result (string * string)) (dir : outdir)
    (Hf : forall x i w, f x i w = write_page dir (page x (bool_decide (i = 0%nat))) w)
    (rows : list A) (k : nat) (w : world) :
  exists w',
    forEach f rows k w = (outcome (pages page rows k), w')
    /\ stores w' = stores w
    /\ (forall d, files d w' =
          if decide (d = dir)
          then write_all (ok_prefix (pages page rows k)) (files d w)
          else files d w)
    /\ writes (trace w') =
         writes (trace w) ++ ((fun p => (dir, p.1, p.2)) <$> ok_prefix (pages page rows k))
    /\ unlinks (trace w') = unlinks (trace w)
    /\ opens (trace w') = opens (trace w).
Proof.
  revert k w. induction rows as [|r rows IH]; intros k w.
  - exists w. simpl. split_and!; try done.
    + intros d. by case_decide.
    + by rewrite app_nil_r.
  - cbn [forEach pages outcome ok_prefix].
    destruct (page r (bool_decide (k = 0%nat))) as [p|c|e] eqn:Hp.
    + set (w1 := record (Log ("   ✅ " +:+ p.1))
                   (record (WriteFile dir p.1 p.2)
                      (set_files dir (<[p.1 := p.2]> (files dir w)) w))).
      assert (Hstep : f r k w = (Ok tt, w1)).
      { rewrite Hf, Hp. apply write_page_ok. }
      rewrite (bind_ok _ _ _ _ _ Hstep).
      destruct (IH (S k) w1) as (w' & Hrun & Hst & Hfiles & Hwr & Hun & Hop).
      exists w'. rewrite Hrun. split_and!; try done.
      * rewrite Hst. unfold w1. simpl. by rewrite stores_set_files.
      * intros d. rewrite Hfiles. unfold w1. rewrite !files_record.
        destruct (decide (d = dir)) as [->|Hd].
        -- by rewrite files_set_files.
        -- by rewrite files_set_files_ne.
      * rewrite Hwr. unfold w1. cbn [trace record].
        rewrite !writes_snoc, trace_set_files. cbn [fmap list_fmap].
        by rewrite app_nil_r, <- app_assoc.
      * rewrite Hun. unfold w1. cbn [trace record].
        by rewrite !unlinks_snoc, trace_set_files, !app_nil_r.
      * rewrite Hop. unfold w1. cbn [trace record].
        by rewrite !opens_snoc, trace_set_files, !app_nil_r.
    + assert (Hstep : f r k w = (Exit c, w)) by (by rewrite Hf, Hp).
      exists w. rewrite (bind_exit _ _ _ _ _ Hstep).
      split_and!; try done.
      * intros d. by destruct (decide (d = dir)).
      * by rewrite app_nil_r.
    + assert (Hstep : f r k w = (Throw e, w)) by (by rewrite Hf, Hp).
      exists w. rewrite (bind_throw _ _ _ _ _ Hstep).
      split_and!; try done.
      * intros d. by destruct (decide (d = dir)).
      * by rewrite app_nil_r.
Qed.

Lemma lookup_reconcile validIds (m : gmap string string) f :
  reconcile validIds m !! f = if stale validIds f then None else m !! f.
Proof.
  unfold reconcile. rewrite map_lookup_filter.
  destruct (m !! f) as [c|] eqn:Hm; simpl.
  - destruct (stale validIds f) eqn:Hs.
    + rewrite option_guard_False; [done | simpl; congruence].
    + by rewrite option_guard_True.
  - by destruct (stale validIds f).
Qed.

(** The loop of [cleanupOldFiles] over distinct existing files: it never
    fails, deletes exactly the orphans among them, and counts them. *)
Lemma cleanup_each_spec dir validIds fs removed w :
  NoDup fs ->
  (forall f, f ∈ fs -> is_Some (files dir w !! f)) ->
  exists w',
    cleanup_each dir validIds fs removed w =
      (Ok (removed + length (List.filter (orphan validIds) fs))%nat, w')
    /\ stores w' = stores w
    /\ (forall f, files dir w' !! f =
          if bool_decide (f ∈ fs) && orphan validIds f then None
          else files dir w !! f)
    /\ (forall d, d <> dir -> files d w' = files d w)
    /\ writes (trace w') = writes (trace w)
    /\ unlinks (trace w') =
         unlinks (trace w) ++ ((fun f => (dir, f)) <$> List.filter (orphan validIds) fs)
    /\ opens (trace w') = opens (trace w).
Proof.
  revert removed w. induction fs as [|file fs IH]; intros removed w Hnd Hex.
  - exists w. simpl. rewrite Nat.add_0_r, app_nil_r. done.
  - apply NoDup_cons in Hnd as [Hnotin Hnd].
    assert (Hkeep : forall w1,
      stores w1 = stores w -> files dir w1 = files dir w ->
      (forall d, d <> dir -> files d w1 = files d w) ->
      writes (trace w1) = writes (trace w) ->
      unlinks (trace w1) = unlinks (trace w) ->
      opens (trace w1) = opens (trace w) ->
      orphan validIds file = false ->
      exists w', cleanup_each dir validIds fs removed w1 =
        (Ok (removed + length (List.filter (orphan validIds) (file :: fs)))%nat, w')
      /\ stores w' = stores w
      /\ (forall f, files dir w' !! f =
            if bool_decide (f ∈ file :: fs) && orphan validIds f then None
            else files dir w !! f)
      /\ (forall d, d <> dir -> files d w' = files d w)
      /\ writes (trace w') = writes (trace w)
      /\ unlinks (trace w') =
           unlinks (trace w) ++
           ((fun f => (dir, f)) <$> List.filter (orphan validIds) (file :: fs))
      /\ opens (trace w') = opens (trace w)).
    { intros w1 Hst Hfl Hoth Hwr Hun Hop Hor.
      destruct (IH removed w1 Hnd) as (w' & Hrun & Hst' & Hfiles & Hoth' & Hwr' & Hun' & Hop').
      { intros f Hf. rewrite Hfl. apply Hex. by right. }
      exists w'. cbn [List.filter]. rewrite Hor, Hrun. split_and!; try congruence.
      - intros f. rewrite Hfiles, Hfl.
        destruct (decide (f = file)) as [->|Hne].
        + rewrite Hor, !andb_false_r. done.
        + rewrite (bool_decide_ext (f ∈ file :: fs) (f ∈ fs)); [done |].
          rewrite elem_of_cons. split; [by intros [?|?] | by right].
      - intros d Hd. rewrite Hoth' by done. by apply Hoth. }
    cbn [cleanup_each].
    destruct (fileId file) as [n|] eqn:Hid.
    + destruct (negb (bool_decide (n ∈ validIds))) eqn:Hv.
      * assert (Hor : orphan validIds file = true) by (unfold orphan; by rewrite Hid).
        destruct (Hex file) as [c Hc]; [by left |].
        set (w1 := record (Log ("   🗑️  Удалён устаревший: " +:+ file))
                     (record (Unlink dir file)
                        (set_files dir (delete file (files dir w)) w))).
        assert (Hstep : (unlinkSync dir file ;;
                         console_log ("   🗑️  Удалён устаревший: " +:+ file)) w
                        = (Ok tt, w1)).
        { unfold unlinkSync, console_log. cbv [mbind M_bind]. by rewrite Hc. }
        assert (Hrw : (unlinkSync dir file ;;
                       console_log ("   🗑️  Удалён устаревший: " +:+ file) ;;
                       cleanup_each dir validIds fs (S removed)) w
                      = cleanup_each dir validIds fs (S removed) w1).
        { unfold unlinkSync, console_log. cbv [mbind M_bind]. by rewrite Hc. }
        rewrite Hrw. clear Hstep Hrw.
        destruct (IH (S removed) w1 Hnd) as
          (w' & Hrun & Hst' & Hfiles & Hoth' & Hwr' & Hun' & Hop').
        { intros f Hf. unfold w1. rewrite !files_record, files_set_files.
          rewrite lookup_delete_ne; [apply Hex; by right | intros ->; done]. }
        exists w'. cbn [List.filter]. rewrite Hor, Hrun. split_and!.
        -- f_equal. f_equal. cbn [length]. lia.
        -- rewrite Hst'. unfold w1. simpl. by rewrite stores_set_files.
        -- intros f. rewrite Hfiles. unfold w1.
           rewrite !files_record, files_set_files.
           destruct (decide (f = file)) as [->|Hne].
           ++ rewrite lookup_delete_eq, Hor.
              rewrite (bool_decide_eq_true_2 (file ∈ file :: fs)) by left.
              by destruct (bool_decide (file ∈ fs)).
           ++ rewrite lookup_delete_ne by done.
              rewrite (bool_decide_ext (f ∈ file :: fs) (f ∈ fs)); [done |].
              rewrite elem_of_cons. split; [by intros [?|?] | by right].
        -- intros d Hd. rewrite Hoth' by done. unfold w1.
           by rewrite !files_record, files_set_files_ne.
        -- rewrite Hwr'. unfold w1. cbn [trace record].
           by rewrite !writes_snoc, trace_set_files, !app_nil_r.
        -- rewrite Hun'. unfold w1. cbn [trace record].
           rewrite !unlinks_snoc, trace_set_files. cbn [fmap list_fmap].
           by rewrite app_nil_r, <- app_assoc.
        -- rewrite Hop'. unfold w1. cbn [trace record].
           by rewrite !opens_snoc, trace_set_files, !app_nil_r.
      * apply Hkeep; try done. unfold orphan. by rewrite Hid.
    + apply Hkeep; try done. unfold orphan. by rewrite Hid.
Qed.

Lemma filter_orphan_candidate validIds (l : list string) :
  List.filter (orphan validIds) (List.filter candidate l) = List.filter (stale validIds) l.
Proof.
  induction l as [|f l IH]; simpl; [done |]. unfold stale at 1.
  destruct (candidate f); simpl; [| done].
  destruct (orphan validIds f); by rewrite IH.
Qed.

(** The reconciler never fails; it turns the directory into its
    reconciliation, leaves everything else alone, and returns the number of
    files it deleted. *)
Lemma cleanupOldFiles_spec dir validIds w :
  exists w',
    cleanupOldFiles dir validIds w =
      (Ok (length (List.filter (stale validIds) (map_to_list (files dir w)).*1)), w')
    /\ stores w' = stores w
    /\ files dir w' = reconcile validIds (files dir w)
    /\ (forall d, d <> dir -> files d w' = files d w)
    /\ writes (trace w') = writes (trace w)
    /\ unlinks (trace w') =
         unlinks (trace w) ++
         ((fun f => (dir, f)) <$> List.filter (stale validIds) (map_to_list (files dir w)).*1)
    /\ opens (trace w') = opens (trace w).
Proof.
  set (names := (map_to_list (files dir w)).*1).
  assert (Hnames : forall f, f ∈ names <-> is_Some (files dir w !! f)).
  { intros f. unfold names. rewrite list_elem_of_fmap. split.
    - intros ([k c] & -> & Hin). apply elem_of_map_to_list in Hin. by exists c.
    - intros [c Hc]. exists (f, c). split; [done |]. by apply elem_of_map_to_list. }
  destruct (cleanup_each_spec dir validIds (List.filter candidate names) 0 w)
    as (w' & Hrun & Hst & Hfiles & Hoth & Hwr & Hun & Hop).
  { apply NoDup_ListNoDup, List.NoDup_filter, NoDup_ListNoDup.
    apply NoDup_fst_map_to_list. }
  { intros f Hf. apply list_elem_of_In, List.filter_In in Hf as [Hf _].
    by apply Hnames, list_elem_of_In. }
  rewrite filter_orphan_candidate in Hrun, Hun.
  exists w'. split_and!; try done.
  apply map_eq. intros f. rewrite Hfiles, lookup_reconcile. unfold stale.
  destruct (candidate f) eqn:Hc; simpl.
  - destruct (orphan validIds f); [| by rewrite andb_false_r].
    destruct (files dir w !! f) as [c|] eqn:Hl.
    + rewrite bool_decide_eq_true_2; [done |].
      apply list_elem_of_In, List.filter_In. split; [| done].
      apply list_elem_of_In, Hnames. by rewrite Hl.
    + by destruct (bool_decide _).
  - rewrite bool_decide_eq_false_2; [done |].
    intros Hf%list_elem_of_In%List.filter_In. destruct Hf. congruence.
Qed.

Lemma emit_swot_page h row i w :
  emit_swot h row i w = write_page swotDir (swot_page h row (bool_decide (i = 0%nat))) w.
Proof. by rewrite emit_swot_write_page, isLatest_decide. Qed.

Lemma emit_comp_page h row i w :
  emit_comp h row i w = write_page compDir (comp_page h row (bool_decide (i = 0%nat))) w.
Proof. by rewrite emit_comp_write_page, isLatest_decide. Qed.

(** One pass: the pages before the first failure are written; when none
    fails the directory is reconciled; a failure leaves the pass at once,
    before any deletion. *)
Lemma swot_pass_spec h db w :
  let ps := pages (swot_page h) (swotRows db) 0 in
  let ids := SwotRow.id <$> swotRows db in
  exists w',
    swot_pass h db w = (outcome ps, w')
    /\ stores w' = stores w
    /\ swot_files w' = after_pass ids ps (swot_files w)
    /\ comp_files w' = comp_files w
    /\ writes (trace w') =
         writes (trace w) ++ ((fun p => (swotDir, p.1, p.2)) <$> ok_prefix ps)
    /\ opens (trace w') = opens (trace w)
    /\ (outcome ps <> Ok tt -> unlinks (trace w') = unlinks (trace w)).
Proof.
  intros ps ids. unfold swot_pass.
  set (w0 := record (Log (Js.nl +:+ "📊 Найдено SWOT-анализов: "
                          +:+ Js.string_of_Z (Z.of_nat (length (swotRows db))))) w).
  rewrite (bind_ok _ _ w tt w0) by reflexivity.
  destruct (forEach_pages (emit_swot h) (swot_page h) swotDir (emit_swot_page h)
              (swotRows db) 0 w0) as (w1 & Hrun & Hst & Hfiles & Hwr & Hun & Hop).
  fold ps in Hrun, Hfiles, Hwr.
  pose proof (Hfiles swotDir) as Hs. pose proof (Hfiles compDir) as Hc.
  simpl in Hs, Hc.
  assert (Hw0 : writes (trace w0) = writes (trace w)
                /\ unlinks (trace w0) = unlinks (trace w)
                /\ opens (trace w0) = opens (trace w)).
  { unfold w0. cbn [trace record].
    by rewrite writes_snoc, unlinks_snoc, opens_snoc, !app_nil_r. }
  destruct Hw0 as (Hw0 & Hu0 & Ho0).
  assert (Hs0 : stores w0 = stores w) by reflexivity.
  change (swot_files w0) with (swot_files w) in Hs, Hc.
  change (comp_files w0) with (comp_files w) in Hs, Hc.
  clearbody w0.
  unfold after_pass. destruct (outcome ps) as [[]|c|e] eqn:Hout.
  - rewrite (bind_ok _ _ w0 tt w1) by done.
    destruct (cleanupOldFiles_spec swotDir ids w1)
      as (w2 & Hrun2 & Hst2 & Hfiles2 & Hoth2 & Hwr2 & Hun2 & Hop2).
    rewrite (bind_ok _ _ w1 _ w2 Hrun2).
    assert (Hw2 : stores w2 = stores w
                  /\ swot_files w2 = reconcile ids (write_all (ok_prefix ps) (swot_files w))
                  /\ comp_files w2 = comp_files w
                  /\ writes (trace w2) =
                       writes (trace w) ++ ((fun p => (swotDir, p.1, p.2)) <$> ok_prefix ps)
                  /\ opens (trace w2) = opens (trace w)).
    { split_and!; try congruence.
      - simpl in Hfiles2. by rewrite Hfiles2, Hs.
      - specialize (Hoth2 compDir). simpl in Hoth2. rewrite Hoth2 by done. by rewrite Hc. }
    destruct Hw2 as (? & ? & ? & ? & ?).
    destruct (0 <? _)%nat.
    + eexists. split; [reflexivity |]. cbn [trace record stores swot_files comp_files].
      rewrite writes_snoc, opens_snoc, !app_nil_r. done.
    + exists w2. done.
  - rewrite (bind_exit _ _ w0 c w1) by done.
    exists w1. split_and!; try congruence.
  - rewrite (bind_throw _ _ w0 e w1) by done.
    exists w1. split_and!; try congruence.
Qed.

Lemma comp_pass_spec h db w :
  let qs := pages (comp_page h) (compRows db) 0 in
  let ids := CompRow.id <$> compRows db in
  exists w',
    comp_pass h db w = (outcome qs, w')
    /\ stores w' = stores w
    /\ swot_files w' = swot_files w
    /\ comp_files w' = after_pass ids qs (comp_files w)
    /\ writes (trace w') =
         writes (trace w) ++ ((fun p => (compDir, p.1, p.2)) <$> ok_prefix qs)
    /\ opens (trace w') = opens (trace w)
    /\ (outcome qs <> Ok tt -> unlinks (trace w') = unlinks (trace w)).
Proof.
  intros qs ids. unfold comp_pass.
  set (w0 := record (Log (Js.nl +:+ "🔄 Найдено сравнений: "
                          +:+ Js.string_of_Z (Z.of_nat (length (compRows db))))) w).
  rewrite (bind_ok _ _ w tt w0) by reflexivity.
  destruct (forEach_pages (emit_comp h) (comp_page h) compDir (emit_comp_page h)
              (compRows db) 0 w0) as (w1 & Hrun & Hst & Hfiles & Hwr & Hun & Hop).
  fold qs in Hrun, Hfiles, Hwr.
  pose proof (Hfiles swotDir) as Hs. pose proof (Hfiles compDir) as Hc.
  simpl in Hs, Hc.
  assert (Hw0 : writes (trace w0) = writes (trace w)
                /\ unlinks (trace w0) = unlinks (trace w)
                /\ opens (trace w0) = opens (trace w)).
  { unfold w0. cbn [trace record].
    by rewrite writes_snoc, unlinks_snoc, opens_snoc, !app_nil_r. }
  destruct Hw0 as (Hw0 & Hu0 & Ho0).
  assert (Hs0 : stores w0 = stores w) by reflexivity.
  change (swot_files w0) with (swot_files w) in Hs, Hc.
  change (comp_files w0) with (comp_files w) in Hs, Hc.
  clearbody w0.
  unfold after_pass. destruct (outcome qs) as [[]|c|e] eqn:Hout.
  - rewrite (bind_ok _ _ w0 tt w1) by done.
    destruct (cleanupOldFiles_spec compDir ids w1)
      as (w2 & Hrun2 & Hst2 & Hfiles2 & Hoth2 & Hwr2 & Hun2 & Hop2).
    rewrite (bind_ok _ _ w1 _ w2 Hrun2).
    assert (Hw2 : stores w2 = stores w
                  /\ swot_files w2 = swot_files w
                  /\ comp_files w2 = reconcile ids (write_all (ok_prefix qs) (comp_files w))
                  /\ writes (trace w2) =
                       writes (trace w) ++ ((fun p => (compDir, p.1, p.2)) <$> ok_prefix qs)
                  /\ opens (trace w2) = opens (trace w)).
    { split_and!; try congruence.
      - specialize (Hoth2 swotDir). simpl in Hoth2. rewrite Hoth2 by done. by rewrite Hs.
      - simpl in Hfiles2. by rewrite Hfiles2, Hc. }
    destruct Hw2 as (? & ? & ? & ? & ?).
    destruct (0 <? _)%nat.
    + eexists. split; [reflexivity |]. cbn [trace record stores swot_files comp_files].
      rewrite writes_snoc, opens_snoc, !app_nil_r. done.
    + exists w2. done.
  - rewrite (bind_exit _ _ w0 c w1) by done.
    exists w1. split_and!; try congruence.
  - rewrite (bind_throw _ _ w0 e w1) by done.
    exists w1. split_and!; try congruence.
Qed.

End Passes.

(** ** The whole run *)

Section Run.
Import Gen Obs.

(** Without a store the script reports and exits; nothing else happens. *)
Lemma main_missing h args w :
  stores w !! path_resolve h (dbPathArg args) = None ->
  main h args w =
  (Exit 1,
   record (Log "💡 Укажите путь: node generate-docs.js --db /path/to/swot.db")
     (record (LogError ("❌ База данных не найдена: " +:+ path_resolve h (dbPathArg args)))
        (record (Log ("📄 Папка docs: " +:+ docsDir h))
           (record (Log ("📂 База данных: " +:+ path_resolve h (dbPathArg args))) w)))).
Proof.
  intros Hnone.
  cbv [main mbind M_bind console_log console_error existsSync process_exit].
  cbn [record stores]. rewrite Hnone. reflexivity.
Qed.

(** With a store the script opens it once, runs the pass over the analyses
    and, when that pass did not fail, the pass over the comparisons. *)
Lemma main_spec h args w db :
  stores w !! path_resolve h (dbPathArg args) = Some db ->
  let ps := pages (swot_page h) (swotRows db) 0 in
  let qs := pages (comp_page h) (compRows db) 0 in
  exists w',
    main h args w = (run_result ps qs, w')
    /\ stores w' = stores w
    /\ swot_files w' = after_pass (SwotRow.id <$> swotRows db) ps (swot_files w)
    /\ comp_files w' =
         match outcome ps with
         | Ok _ => after_pass (CompRow.id <$> compRows db) qs (comp_files w)
         | _ => comp_files w
         end
    /\ writes (trace w') =
         writes (trace w) ++ ((fun p => (swotDir, p.1, p.2)) <$> ok_prefix ps) ++
         match outcome ps with
         | Ok _ => (fun p => (compDir, p.1, p.2)) <$> ok_prefix qs
         | _ => []
         end
    /\ opens (trace w') = opens (trace w) ++ [path_resolve h (dbPathArg args)]
    /\ (outcome ps <> Ok tt -> unlinks (trace w') = unlinks (trace w)).
Proof.
  intros Hdb ps qs.
  cbv [main mbind M_bind console_log console_error existsSync process_exit
       Database mkdirSync db_close].
  cbn [record stores]. rewrite Hdb.
  rewrite (bool_decide_eq_true_2 (is_Some (Some db))) by eauto.
  cbv [negb mret M_ret]. cbn [record stores]. rewrite Hdb.
  match goal with
  | |- context [swot_pass h db ?w0] =>
      destruct (swot_pass_spec h db w0) as (w1 & Hrun & Hst & Hs & Hc & Hwr & Hop & Hun);
      cbn [stores swot_files comp_files trace record] in Hst, Hs, Hc, Hwr, Hop, Hun;
      rewrite Hrun
  end.
  fold ps in Hs, Hwr, Hun |- *.
  rewrite !writes_snoc, !app_nil_r in Hwr.
  rewrite !opens_snoc, !app_nil_r in Hop.
  rewrite !unlinks_snoc, !app_nil_r in Hun.
  unfold run_result. destruct (outcome ps) as [[]|c|e] eqn:Hout.
  - destruct (comp_pass_spec h db w1) as (w2 & Hrun2 & Hst2 & Hs2 & Hc2 & Hwr2 & Hop2 & Hun2).
    rewrite Hrun2. fold qs in Hc2, Hwr2, Hun2 |- *.
    destruct (outcome qs) as [[]|c|e] eqn:Hout2.
    + eexists. split; [reflexivity |].
      cbn [stores swot_files comp_files trace record].
      rewrite !writes_snoc, !opens_snoc, !app_nil_r.
      split_and!; try congruence.
      by rewrite Hwr2, Hwr, <- app_assoc.
    + exists w2. split_and!; try congruence.
      by rewrite Hwr2, Hwr, <- app_assoc.
    + exists w2. split_and!; try congruence.
      by rewrite Hwr2, Hwr, <- app_assoc.
  - exists w1. rewrite app_nil_r. split_and!; first [done | congruence].
  - exists w1. rewrite app_nil_r. split_and!; first [done | congruence].
Qed.

End Run.


(** ** The proxy *)

Section Proxy.
Import Server.

Lemma user_pass_no_colon credentials p :
  (user_pass credentials).2 = Some p -> Js.has_char ":" p = false.
Proof.
  unfold user_pass. simpl. intros Hp.
  apply (split_pieces ":" credentials). by apply list_elem_of_lookup_2 in Hp.
Qed.

(** The check passes exactly when the first two colon-separated pieces of
    the decoded credentials are the configured user and password. *)
Lemma credentials_ok_iff env credentials :
  credentials_ok env credentials = true <->
  Js.split ":" credentials !! 0%nat = Some (USER env) /\
  Js.split ":" credentials !! 1%nat = Some (PASSWORD env).
Proof.
  unfold credentials_ok, user_pass.
  rewrite andb_true_iff, !bool_decide_eq_true. done.
Qed.

Lemma forwarded_challenge body : ~ forwarded (challenge body).
Proof.
  unfold forwarded, challenge. intros [H|H];
    repeat (apply elem_of_cons in H as [H|H]; [discriminate |]);
    by apply elem_of_nil in H.
Qed.

Lemma forwarded_destroy : ~ forwarded [SocketDestroy].
Proof.
  unfold forwarded. intros [H|H];
    repeat (apply elem_of_cons in H as [H|H]; [discriminate |]);
    by apply elem_of_nil in H.
Qed.

(** What the two handlers do: forward exactly when the header is a Basic
    header whose decoded credentials pass the check; otherwise the 401
    challenge, or the destroyed socket. *)
Lemma handler_forwards_iff decode env req :
  forwarded (handler decode env req) <->
  exists auth, authorization req = Some auth
               /\ Js.startsWith auth "Basic " = true
               /\ credentials_ok env (decode (slice_from 6 auth)) = true.
Proof.
  unfold handler. destruct (authorization req) as [auth|].
  - destruct (Js.startsWith auth "Basic ") eqn:Hb; simpl.
    + destruct (credentials_ok env _) eqn:Hc; simpl.
      * split; [intros _; by exists auth | intros _; left; left].
      * split; [by intros ?%forwarded_challenge |].
        intros (a & [= <-] & _ & Hc'). congruence.
    + split; [by intros ?%forwarded_challenge |].
      intros (a & [= <-] & Hb' & _). congruence.
  - split; [by intros ?%forwarded_challenge | by intros (a & [=] & _)].
Qed.

Lemma upgrade_forwards_iff decode env req :
  forwarded (upgrade decode env req) <->
  exists auth, authorization req = Some auth
               /\ Js.startsWith auth "Basic " = true
               /\ credentials_ok env (decode (slice_from 6 auth)) = true.
Proof.
  unfold upgrade. destruct (authorization req) as [auth|].
  - destruct (Js.startsWith auth "Basic ") eqn:Hb; simpl.
    + destruct (credentials_ok env _) eqn:Hc; simpl.
      * split; [intros _; by exists auth | intros _; right; left].
      * split; [by intros ?%forwarded_destroy |].
        intros (a & [= <-] & _ & Hc'). congruence.
    + split; [by intros ?%forwarded_destroy |].
      intros (a & [= <-] & Hb' & _). congruence.
  - split; [by intros ?%forwarded_destroy | by intros (a & [=] & _)].
Qed.

(** The check accepts the configured pair followed by a colon and anything
    at all, whenever the configured user and password hold no colon. *)
Lemma credentials_ok_trailing env extra :
  Js.has_char ":" (USER env) = false ->
  Js.has_char ":" (PASSWORD env) = false ->
  credentials_ok env (USER env +:+ ":" +:+ PASSWORD env +:+ ":" +:+ extra) = true.
Proof.
  intros Hu Hp. apply credentials_ok_iff.
  change (USER env +:+ ":" +:+ PASSWORD env +:+ ":" +:+ extra)
    with (USER env +:+ String ":" (PASSWORD env +:+ String ":" extra)).
  rewrite (split_at_first ":" (USER env) _ Hu).
  rewrite (split_at_first ":" (PASSWORD env) _ Hp). done.
Qed.

(** C10: when the configured password holds a colon, the credential check
    fails for every decoded credential string, because no piece of a split
    on colons holds a colon: every request is answered with the 401
    challenge, every upgrade has its socket destroyed, and nothing is ever
    forwarded, whatever the request presents. *)
Theorem password_with_colon_rejects_all
    (decode : string -> string) (env : process_env) (req : request) :
  Js.has_char ":" (PASSWORD env) = true ->
  (exists body, handler decode env req = challenge body)
  /\ upgrade decode env req = [SocketDestroy]
  /\ ~ forwarded (handler decode env req)
  /\ ~ forwarded (upgrade decode env req).
Proof.
  intros Hcolon.
  assert (Hno : forall credentials, credentials_ok env credentials = false).
  { intros credentials. apply not_true_iff_false.
    intros [_ Hp]%credentials_ok_iff.
    pose proof (user_pass_no_colon credentials (PASSWORD env) Hp). congruence. }
  assert (Hh : exists body, handler decode env req = challenge body).
  { unfold handler. destruct (authorization req) as [auth|]; [| by eexists].
    destruct (Js.startsWith auth "Basic "); simpl; [| by eexists].
    rewrite Hno. by eexists. }
  assert (Hu : upgrade decode env req = [SocketDestroy]).
  { unfold upgrade. destruct (authorization req) as [auth|]; [| done].
    destruct (Js.startsWith auth "Basic "); [| done]. by rewrite Hno. }
  split_and!; try done.
  - destruct Hh as [body ->]. apply forwarded_challenge.
  - rewrite Hu. apply forwarded_destroy.
Qed.

(** The environment of the witness: the password [a:b]; the request
    presents exactly [admin:a:b]. *)
Lemma password_with_colon_rejects_all_witness :
  Js.has_char ":" (PASSWORD {| SWOT_USER := None; SWOT_PASSWORD := Some "a:b" |}) = true
  /\ base64 "YWRtaW46YTpi" = "admin:a:b"
  /\ handler base64 {| SWOT_USER := None; SWOT_PASSWORD := Some "a:b" |}
       {| authorization := Some "Basic YWRtaW46YTpi" |}
     = challenge "<h1>❌ Неверный логин или пароль</h1>"
  /\ upgrade base64 {| SWOT_USER := None; SWOT_PASSWORD := Some "a:b" |}
       {| authorization := Some "Basic YWRtaW46YTpi" |}
     = [SocketDestroy].
Proof.
  split; [reflexivity |]. split; [reflexivity |].
  split; [reflexivity |].
  apply (password_with_colon_rejects_all base64
           {| SWOT_USER := None; SWOT_PASSWORD := Some "a:b" |}
           {| authorization := Some "Basic YWRtaW46YTpi" |}).
  reflexivity.
Defined.

(** C8, the divergence: a request whose Basic credentials decode to
    [admin:swot2024:x], that is user [admin] with password [swot2024:x],
    does not carry the configured pair, yet both the request handler and
    the upgrade listener forward it, because only the first two
    colon-separated pieces are compared. *)
Theorem trailing_piece_is_forwarded :
  let env := {| SWOT_USER := None; SWOT_PASSWORD := None |} in
  let req := {| authorization := Some "Basic YWRtaW46c3dvdDIwMjQ6eA==" |} in
  base64 "YWRtaW46c3dvdDIwMjQ6eA==" = "admin:swot2024:x"
  /\ "admin:swot2024:x" <> USER env +:+ ":" +:+ PASSWORD env
  /\ handler base64 env req = [ProxyWeb]
  /\ upgrade base64 env req = [ProxyWs]
  /\ forwarded (handler base64 env req)
  /\ forwarded (upgrade base64 env req).
Proof.
  simpl. split_and!; try reflexivity; try discriminate.
  - left. left.
  - right. left.
Qed.

End Proxy.

(** ** Derived display values *)

Section Display.
Import Gen Obs.

(** The front matter of an analysis page: the weight, then the title with
    the latest mark. *)
Lemma swot_mdx_front h row dateStr timeStr latest s w o t so wo st wt mdx :
  swot_mdx h row dateStr timeStr latest s w o t so wo st wt = Ok mdx ->
  exists rest,
    mdx = "---" +:+ Js.nl +:+ "sidebar_position: "
          +:+ Js.string_of_Z (sidebar_position (SwotRow.id row)) +:+ Js.nl
          +:+ "title: " +:+ Js.dq +:+ latest_mark latest +:+ dateStr +:+ rest.
Proof.
  unfold swot_mdx. cbv [mbind result_bind].
  repeat (match goal with
          | |- context [match ?r with Ok _ => _ | Exit _ => _ | Throw _ => _ end] =>
              destruct r; [| done..]
          end).
  intros [= <-]. cbn [Js.join].
  eexists. rewrite !append_assoc. reflexivity.
Qed.

(** The front matter of a comparison page. *)
Lemma comp_mdx_front h row dateStr timeStr latest items :
  exists rest,
    comp_mdx h row dateStr timeStr latest items
    = "---" +:+ Js.nl +:+ "sidebar_position: "
      +:+ Js.string_of_Z (sidebar_position (CompRow.id row)) +:+ Js.nl
      +:+ "title: " +:+ Js.dq +:+ latest_mark latest +:+ "Сравнение " +:+ dateStr +:+ rest.
Proof.
  unfold comp_mdx. cbn [Js.join].
  eexists. rewrite !append_assoc. reflexivity.
Qed.

(** The row at rank [i] of a listing is paged with the flag [i = 0]. *)
Lemma pages_lookup {A} (page : A -> bool -> result (string * string))
    (rows : list A) (k i : nat) (r : A) :
  rows !! i = Some r ->
  pages page rows k !! i = Some (page r (bool_decide ((k + i)%nat = 0%nat))).
Proof.
  revert k i. induction rows as [|x rows IH]; intros k i; [done |].
  destruct i as [|i]; simpl.
  - intros [= ->]. by rewrite Nat.add_0_r.
  - intros H. rewrite (IH (S k) i H). do 3 f_equal. apply bool_decide_ext. lia.
Qed.

(** A character that is no digit and no sign occurs in no printed date. *)
Lemma has_char_digits c s :
  Js.is_digit c = false -> Js.all_digits s = true -> Js.has_char c s = false.
Proof.
  intros Hc. induction s as [|a s IH]; simpl; [done |].
  intros [Ha Hs]%andb_true_iff. rewrite (IH Hs), orb_false_r.
  apply Ascii.eqb_neq. intros ->. congruence.
Qed.

Lemma has_char_string_of_Z c n :
  Js.is_digit c = false -> c <> "-"%char -> Js.has_char c (Js.string_of_Z n) = false.
Proof.
  intros Hc Hdash. destruct n as [|p|p].
  - apply has_char_digits; done.
  - apply has_char_digits; [done |]. by apply all_digits_string_of_Z.
  - rewrite string_of_Z_neg. simpl.
    rewrite (has_char_digits c _ Hc (string_of_uint_digits _)), orb_false_r.
    apply Ascii.eqb_neq. congruence.
Qed.

Lemma has_char_pad0 c w n :
  Js.is_digit c = false -> c <> "-"%char -> Js.has_char c (Js.pad0 w n) = false.
Proof.
  intros Hc Hdash. unfold Js.pad0.
  rewrite has_char_app, (has_char_string_of_Z c n Hc Hdash), orb_false_r.
  induction (w - String.length (Js.string_of_Z n))%nat as [|k IH]; simpl; [done |].
  rewrite IH, orb_false_r. apply Ascii.eqb_neq. intros <-. discriminate Hc.
Qed.

Lemma has_char_iso_date c t :
  Js.is_digit c = false -> c <> "-"%char -> c <> "+"%char ->
  Js.has_char c (JsDate.iso_date t) = false.
Proof.
  intros Hc Hdash Hplus.
  assert (Hd : Ascii.eqb "-" c = false) by (apply Ascii.eqb_neq; congruence).
  assert (Hp : Ascii.eqb "+" c = false) by (apply Ascii.eqb_neq; congruence).
  unfold JsDate.iso_date, JsDate.iso_year.
  rewrite !has_char_app. simpl. rewrite Hd, !has_char_pad0 by done.
  destruct (_ && _); [by rewrite has_char_pad0 |].
  rewrite has_char_app, has_char_pad0 by done.
  destruct (_ <? 0); simpl; by rewrite ?Hd, ?Hp.
Qed.

(** The date part of the ISO string is the calendar date. *)
Lemma dateStr_of_valid t : dateStr_of (Some t) = Ok (JsDate.iso_date t).
Proof.
  unfold dateStr_of, toISOString, JsDate.toISOString. cbv [mbind result_bind].
  match goal with
  | |- context [JsDate.iso_date t +:+ "T" +:+ ?r] =>
      change (JsDate.iso_date t +:+ "T" +:+ r) with (JsDate.iso_date t +:+ String "T" r)
  end.
  rewrite split_at_first by (by apply has_char_iso_date). done.
Qed.

Lemma pages_lookup_inv {A} (page : A -> bool -> result (string * string))
    (rows : list A) (k i : nat) (x : result (string * string)) :
  pages page rows k !! i = Some x ->
  exists r, rows !! i = Some r /\ x = page r (bool_decide ((k + i)%nat = 0%nat)).
Proof.
  revert k i. induction rows as [|r rows IH]; intros k i; [done |].
  destruct i as [|i]; simpl.
  - intros [= <-]. exists r. by rewrite Nat.add_0_r.
  - intros H. destruct (IH (S k) i H) as (r' & Hr & ->). exists r'. split; [done |].
    f_equal. apply bool_decide_ext. lia.
Qed.

(** *** Numbers in the safe range, and reading the front matter back *)

Lemma to_double_safe (n : Z) : Js.safe n -> Js.to_double n = n.
Proof.
  intros [Hlo Hhi]. unfold Js.to_double.
  replace (Z.abs n <? 2 ^ 53) with true; [done |].
  symmetry. apply Z.ltb_lt. lia.
Qed.

Lemma sidebar_position_safe (id : Z) :
  Range.safe_id id -> sidebar_position id = 1000 - id.
Proof. intros [_ H]. by apply to_double_safe. Qed.

Lemma string_of_Z_digit_first (n : Z) :
  0 <= n -> exists a s, Js.string_of_Z n = String a s /\ Js.is_digit a = true.
Proof.
  intros Hn. pose proof (all_digits_string_of_Z n Hn) as Hd.
  pose proof (string_of_Z_nonempty n) as Hne.
  destruct (Js.string_of_Z n) as [|a s]; [done |].
  simpl in Hd. apply andb_true_iff in Hd as [Ha _]. by exists a, s.
Qed.

Lemma string_of_Z_inj (a b : Z) : Js.string_of_Z a = Js.string_of_Z b -> a = b.
Proof.
  intros H.
  destruct (Z_lt_le_dec a 0) as [Ha | Ha], (Z_lt_le_dec b 0) as [Hb | Hb].
  - destruct a as [|p|p], b as [|q|q]; try lia.
    rewrite !string_of_Z_neg in H. injection H as H.
    rewrite <- !string_of_Z_pos in H.
    apply (f_equal Js.parseInt) in H.
    rewrite !parseInt_string_of_Z in H by lia. by injection H as ->.
  - destruct a as [|p|p]; try lia. rewrite string_of_Z_neg in H.
    destruct (string_of_Z_digit_first b Hb) as (x & s & Hs & Hx).
    rewrite Hs in H. injection H as <- _. discriminate Hx.
  - destruct b as [|q|q]; try lia. rewrite string_of_Z_neg in H.
    destruct (string_of_Z_digit_first a Ha) as (x & s & Hs & Hx).
    rewrite Hs in H. injection H as -> _. discriminate Hx.
  - apply (f_equal Js.parseInt) in H.
    by rewrite !parseInt_string_of_Z in H by lia.
Qed.

Lemma app_cancel_l (p a b : string) : p +:+ a = p +:+ b -> a = b.
Proof. induction p as [|x p IH]; simpl; [done |]. intros [= H]. by apply IH. Qed.

Lemma weight_line_unique (mdx : string) (k k' : Z) :
  Front.weight_line mdx k -> Front.weight_line mdx k' -> k = k'.
Proof.
  intros [rest ->] [rest' H].
  apply (app_cancel_l "---") in H. apply (app_cancel_l Js.nl) in H.
  apply (app_cancel_l "sidebar_position: ") in H.
  apply (f_equal (Js.split "010")) in H.
  change (Js.nl +:+ rest) with (String "010" rest) in H.
  change (Js.nl +:+ rest') with (String "010" rest') in H.
  rewrite !split_at_first in H by (by apply has_char_string_of_Z).
  injection H as H _. by apply string_of_Z_inj.
Qed.

(** The first piece of a split starts with any separator-free start of the
    text. *)
Lemma split_head_app (c : ascii) (p s : string) :
  Js.has_char c p = false ->
  exists piece tail, Js.split c (p +:+ s) = (p +:+ piece) :: tail.
Proof.
  induction p as [|x p IH]; simpl.
  - intros _. destruct s as [|x s]; simpl; [by eexists _, _ |].
    destruct (Ascii.eqb x c); [by eexists _, _ |].
    destruct (Js.split c s); by eexists _, _.
  - intros [Hx Hp]%orb_false_iff. rewrite Hx.
    destruct (IH Hp) as (piece & tail & ->). by exists piece, tail.
Qed.

Lemma startsWith_app (p x : string) : Js.startsWith (p +:+ x) p = true.
Proof.
  unfold Js.startsWith. induction p as [|a p IH]; [by destruct x |].
  change (String a p +:+ x) with (String a (p +:+ x)). cbn [String.prefix].
  by destruct (ascii_dec a a).
Qed.

Lemma startsWith_app_same (p x y : string) :
  Js.startsWith (p +:+ x) (p +:+ y) = Js.startsWith x y.
Proof.
  unfold Js.startsWith. induction p as [|a p IH]; [done |].
  change (String a p +:+ x) with (String a (p +:+ x)).
  change (String a p +:+ y) with (String a (p +:+ y)). cbn [String.prefix].
  by destruct (ascii_dec a a).
Qed.

(** Reading the mark back from a page whose front matter has the shape of
    the templates: the mark is there exactly when the flag was set,
    provided what follows the mark starts with a character that is neither
    a line feed nor the first byte of the mark. *)
Lemma marked_front (weight : string) (latest : bool) (a : ascii) (body : string) :
  Js.has_char "010" weight = false ->
  a <> "010"%char -> a <> "240"%char ->
  Front.marked ("---" +:+ Js.nl +:+ "sidebar_position: " +:+ weight +:+ Js.nl
                +:+ "title: " +:+ Js.dq +:+ latest_mark latest +:+ String a body)
  = latest.
Proof.
  intros Hw Ha Hb. unfold Front.marked, Front.title_line.
  change ("---" +:+ Js.nl +:+ "sidebar_position: " +:+ weight +:+ Js.nl
          +:+ "title: " +:+ Js.dq +:+ latest_mark latest +:+ String a body)
    with ("---" +:+ String "010" ("sidebar_position: " +:+ weight +:+ Js.nl
          +:+ "title: " +:+ Js.dq +:+ latest_mark latest +:+ String a body)).
  rewrite split_at_first by done.
  rewrite <- (append_assoc "sidebar_position: " weight).
  change (Js.nl +:+ "title: " +:+ Js.dq +:+ latest_mark latest +:+ String a body)
    with (String "010" ("title: " +:+ Js.dq +:+ latest_mark latest +:+ String a body)).
  rewrite split_at_first by (rewrite has_char_app, Hw; done).
  cbn [lookup list_lookup].
  destruct latest; cbn [latest_mark].
  - rewrite <- (append_assoc Js.dq "🆕 "), <- (append_assoc "title: ").
    destruct (split_head_app "010" ("title: " +:+ Js.dq +:+ "🆕 ") (String a body))
      as (piece & tail & ->); [done |].
    cbn [lookup list_lookup]. apply startsWith_app.
  - change ("title: " +:+ Js.dq +:+ "" +:+ String a body)
      with (("title: " +:+ Js.dq) +:+ String a "" +:+ body).
    rewrite <- (append_assoc ("title: " +:+ Js.dq)).
    destruct (split_head_app "010" (("title: " +:+ Js.dq) +:+ String a "") body)
      as (piece & tail & ->).
    { rewrite has_char_app. simpl. rewrite orb_false_r.
      apply Ascii.eqb_neq. done. }
    cbn [lookup list_lookup].
    change ("title: " +:+ Js.dq +:+ "🆕 ") with (("title: " +:+ Js.dq) +:+ "🆕 ").
    rewrite append_assoc, startsWith_app_same.
    unfold Js.startsWith. cbn [String.append String.prefix].
    destruct (ascii_dec "240" a) as [<- | _]; done.
Qed.

Lemma iso_date_first (t : Z) :
  exists a d, JsDate.iso_date t = String a d /\ a <> "010"%char /\ a <> "240"%char.
Proof.
  pose proof (has_char_iso_date "010" t eq_refl ltac:(discriminate) ltac:(discriminate)) as H1.
  pose proof (has_char_iso_date "240" t eq_refl ltac:(discriminate) ltac:(discriminate)) as H2.
  assert (Hne : JsDate.iso_date t <> "").
  { unfold JsDate.iso_date. by destruct (JsDate.iso_year _). }
  destruct (JsDate.iso_date t) as [|a d]; [done |].
  simpl in H1, H2. apply orb_false_iff in H1 as [H1 _]. apply orb_false_iff in H2 as [H2 _].
  exists a, d. split_and!; [done | |]; intros ->; by rewrite Ascii.eqb_refl in *.
Qed.

(** A page that was built is the template filled in for a valid date. *)
Lemma swot_page_mdx h row latest p :
  swot_page h row latest = Ok p ->
  exists t s w o th so wo st wt,
    Date_parse h (SwotRow.created_at row) = Some t
    /\ swot_mdx h row (JsDate.iso_date t) (timeStr_of h (Some t)) latest
         s w o th so wo st wt = Ok p.2.
Proof.
  unfold swot_page. cbv [mbind result_bind].
  destruct (Date_parse h (SwotRow.created_at row)) as [t|]; [| done].
  rewrite dateStr_of_valid.
  repeat (match goal with
          | |- context [parse_field ?h ?f] =>
              let v := fresh "v" in destruct (parse_field h f) as [v| |]; [| done..]
          end).
  destruct (swot_mdx _ _ _ _ _ _ _ _ _ _ _ _ _) as [mdx| |] eqn:Hm; [| done..].
  intros [= <-]. by eexists t, _, _, _, _, _, _, _, _.
Qed.

Lemma comp_page_mdx h row latest p :
  comp_page h row latest = Ok p ->
  exists t items,
    Date_parse h (CompRow.created_at row) = Some t
    /\ p.2 = comp_mdx h row (JsDate.iso_date t) (timeStr_of h (Some t)) latest items.
Proof.
  unfold comp_page. cbv [mbind result_bind].
  destruct (Date_parse h (CompRow.created_at row)) as [t|]; [| done].
  rewrite dateStr_of_valid.
  destruct (parse_field h (CompRow.items_json row)) as [items| |]; [| done..].
  intros [= <-]. by exists t, items.
Qed.

Lemma swot_mdx_weight h row dateStr timeStr latest s w o t so wo st wt mdx :
  Range.safe_id (SwotRow.id row) ->
  swot_mdx h row dateStr timeStr latest s w o t so wo st wt = Ok mdx ->
  Front.weight_line mdx (1000 - SwotRow.id row).
Proof.
  intros Hid H. apply swot_mdx_front in H as [rest ->].
  rewrite (sidebar_position_safe _ Hid). by eexists.
Qed.

Lemma comp_mdx_weight h row dateStr timeStr latest items :
  Range.safe_id (CompRow.id row) ->
  Front.weight_line (comp_mdx h row dateStr timeStr latest items) (1000 - CompRow.id row).
Proof.
  intros Hid. destruct (comp_mdx_front h row dateStr timeStr latest items) as [rest ->].
  rewrite (sidebar_position_safe _ Hid). by eexists.
Qed.

Lemma swot_page_marked h row latest p :
  swot_page h row latest = Ok p -> Front.marked p.2 = latest.
Proof.
  intros (t & s & w & o & th & so & wo & st & wt & _ & Hm)%swot_page_mdx.
  apply swot_mdx_front in Hm as [rest ->].
  destruct (iso_date_first t) as (a & d & -> & Ha & Hb).
  change (String a d +:+ rest) with (String a (d +:+ rest)).
  apply marked_front; [by apply has_char_string_of_Z | done | done].
Qed.

Lemma comp_page_marked h row latest p :
  comp_page h row latest = Ok p -> Front.marked p.2 = latest.
Proof.
  intros (t & items & _ & ->)%comp_page_mdx.
  destruct (comp_mdx_front h row (JsDate.iso_date t) (timeStr_of h (Some t)) latest items)
    as [rest ->].
  change ("Сравнение " +:+ JsDate.iso_date t +:+ rest)
    with (String "208" (String "161" "равнение " +:+ JsDate.iso_date t +:+ rest)).
  apply marked_front; [by apply has_char_string_of_Z | done | done].
Qed.

(** C3, for identifiers in the safe range: the ordering weight is 1000
    minus the identifier, both page templates print it as the
    [sidebar_position] line of the front matter, a page prints one weight
    only, and so of two pages of the same kind the one of the larger
    identifier prints the strictly smaller weight. *)
Theorem weight_is_1000_minus_id (h : jsHost) :
  (forall id, Range.safe_id id -> sidebar_position id = 1000 - id)
  /\ (forall row dateStr timeStr latest s w o t so wo st wt mdx,
        Range.safe_id (SwotRow.id row) ->
        swot_mdx h row dateStr timeStr latest s w o t so wo st wt = Ok mdx ->
        Front.weight_line mdx (1000 - SwotRow.id row))
  /\ (forall row dateStr timeStr latest items,
        Range.safe_id (CompRow.id row) ->
        Front.weight_line (comp_mdx h row dateStr timeStr latest items)
          (1000 - CompRow.id row))
  /\ (forall mdx k k',
        Front.weight_line mdx k -> Front.weight_line mdx k' -> k = k')
  /\ (forall r1 r2 l1 l2 p1 p2 k1 k2,
        Range.safe_id (SwotRow.id r1) -> Range.safe_id (SwotRow.id r2) ->
        swot_page h r1 l1 = Ok p1 -> swot_page h r2 l2 = Ok p2 ->
        Front.weight_line p1.2 k1 -> Front.weight_line p2.2 k2 ->
        SwotRow.id r1 < SwotRow.id r2 -> k2 < k1)
  /\ (forall r1 r2 l1 l2 p1 p2 k1 k2,
        Range.safe_id (CompRow.id r1) -> Range.safe_id (CompRow.id r2) ->
        comp_page h r1 l1 = Ok p1 -> comp_page h r2 l2 = Ok p2 ->
        Front.weight_line p1.2 k1 -> Front.weight_line p2.2 k2 ->
        CompRow.id r1 < CompRow.id r2 -> k2 < k1).
Proof.
  split_and!.
  - apply sidebar_position_safe.
  - intros *. apply swot_mdx_weight.
  - intros *. apply comp_mdx_weight.
  - apply weight_line_unique.
  - intros r1 r2 l1 l2 p1 p2 k1 k2 Hs1 Hs2 Hp1 Hp2 Hk1 Hk2 Hlt.
    apply swot_page_mdx in Hp1 as (t1 & ? & ? & ? & ? & ? & ? & ? & ? & _ & Hm1).
    apply swot_page_mdx in Hp2 as (t2 & ? & ? & ? & ? & ? & ? & ? & ? & _ & Hm2).
    apply (swot_mdx_weight _ _ _ _ _ _ _ _ _ _ _ _ _ _ Hs1) in Hm1.
    apply (swot_mdx_weight _ _ _ _ _ _ _ _ _ _ _ _ _ _ Hs2) in Hm2.
    rewrite (weight_line_unique _ _ _ Hk1 Hm1), (weight_line_unique _ _ _ Hk2 Hm2). lia.
  - intros r1 r2 l1 l2 p1 p2 k1 k2 Hs1 Hs2 Hp1 Hp2 Hk1 Hk2 Hlt.
    apply comp_page_mdx in Hp1 as (t1 & i1 & _ & Hm1).
    apply comp_page_mdx in Hp2 as (t2 & i2 & _ & Hm2).
    rewrite Hm1 in Hk1. rewrite Hm2 in Hk2.
    rewrite (weight_line_unique _ _ _ Hk1 (comp_mdx_weight _ _ _ _ _ _ Hs1)),
            (weight_line_unique _ _ _ Hk2 (comp_mdx_weight _ _ _ _ _ _ Hs2)). lia.
Qed.

(** Identifiers 3 and 7: the page of analysis 7 prints 993, and whatever
    weight a page of identifier 3 prints is larger. *)
Lemma weight_is_1000_minus_id_witness :
  Range.safe_id 7
  /\ (exists mdx,
        swot_mdx Sample.host Sample.analysis7 "2024-03-01" "10:00" true
          (JArr []) (JArr []) (JArr []) (JArr []) (JArr []) (JArr []) (JArr []) (JArr [])
        = Ok mdx
        /\ Front.weight_line mdx 993)
  /\ Front.weight_line
       (comp_mdx Sample.host Sample.comparison1 "2024-03-01" "10:00" true (JArr [])) 999.
Proof.
  assert (H7 : Range.safe_id 7) by (unfold Range.safe_id, Js.safe; lia).
  assert (H1 : Range.safe_id 1) by (unfold Range.safe_id, Js.safe; lia).
  split_and!.
  - exact H7.
  - destruct (swot_mdx Sample.host Sample.analysis7 "2024-03-01" "10:00" true
                (JArr []) (JArr []) (JArr []) (JArr []) (JArr []) (JArr []) (JArr []) (JArr []))
      as [mdx|c|e] eqn:H; [| by vm_compute in H..].
    exists mdx. split; [reflexivity |].
    apply (proj1 (proj2 (weight_is_1000_minus_id Sample.host))
             Sample.analysis7 _ _ _ _ _ _ _ _ _ _ _ _ H7 H).
  - apply (proj1 (proj2 (proj2 (weight_is_1000_minus_id Sample.host)))
             Sample.comparison1 "2024-03-01" "10:00" true (JArr []) H1).
Defined.

(** C3, as stated, fails beyond the safe integers: the difference is
    rounded to a double, so the weight of identifier 2^57 is not 1000 minus
    it, and two identifiers sixteen apart, each a double, get the same
    weight, which the pages of both then print. *)
Lemma large_ids_share_a_weight :
  Sample2.big1 < Sample2.big2
  /\ Js.to_double Sample2.big1 = Sample2.big1
  /\ Js.to_double Sample2.big2 = Sample2.big2
  /\ sidebar_position Sample2.big1 = sidebar_position Sample2.big2
  /\ sidebar_position (2 ^ 57) = -144115188075854880
  /\ sidebar_position (2 ^ 57) <> 1000 - 2 ^ 57
  /\ exists k,
       Front.weight_line
         (comp_mdx Sample.host (Sample2.comparison_big Sample2.big1)
            "2024-03-01" "13:00" false (JArr [])) k
       /\ Front.weight_line
            (comp_mdx Sample.host (Sample2.comparison_big Sample2.big2)
               "2024-03-01" "13:00" false (JArr [])) k.
Proof.
  split_and!; try (vm_compute; congruence).
  exists (sidebar_position Sample2.big1). split.
  - destruct (comp_mdx_front Sample.host (Sample2.comparison_big Sample2.big1)
                "2024-03-01" "13:00" false (JArr [])) as [rest ->]. by eexists.
  - destruct (comp_mdx_front Sample.host (Sample2.comparison_big Sample2.big2)
                "2024-03-01" "13:00" false (JArr [])) as [rest ->].
    replace (sidebar_position (CompRow.id (Sample2.comparison_big Sample2.big2)))
      with (sidebar_position Sample2.big1) by (vm_compute; reflexivity).
    by eexists.
Qed.

(** C4: the flag is [index === 0]; the loops hand every row its rank in the
    listing as index, so the row at rank [i] is turned into the page with
    flag [i = 0], the pages are written in listing order up to the first
    failure, and the flag shows as the mark that opens the title: the page
    of the row at rank [i] carries the mark exactly when [i] is 0. *)
Theorem latest_iff_rank_zero (h : jsHost) :
  (forall index, isLatest index = true <-> index = 0%nat)
  /\ (forall rows i r, rows !! i = Some r ->
        pages (swot_page h) rows 0 !! i = Some (swot_page h r (bool_decide (i = 0%nat))))
  /\ (forall rows i r, rows !! i = Some r ->
        pages (comp_page h) rows 0 !! i = Some (comp_page h r (bool_decide (i = 0%nat))))
  /\ (forall rows w,
        (forEach (emit_swot h) rows 0 w).1 = outcome (pages (swot_page h) rows 0)
        /\ writes (trace (forEach (emit_swot h) rows 0 w).2)
           = writes (trace w) ++
             ((fun p => (swotDir, p.1, p.2)) <$> ok_prefix (pages (swot_page h) rows 0)))
  /\ (forall rows w,
        (forEach (emit_comp h) rows 0 w).1 = outcome (pages (comp_page h) rows 0)
        /\ writes (trace (forEach (emit_comp h) rows 0 w).2)
           = writes (trace w) ++
             ((fun p => (compDir, p.1, p.2)) <$> ok_prefix (pages (comp_page h) rows 0)))
  /\ (forall b, latest_mark b = "🆕 " <-> b = true)
  /\ (forall rows i p,
        pages (swot_page h) rows 0 !! i = Some (Ok p) ->
        (Front.marked p.2 = true <-> i = 0%nat))
  /\ (forall rows i p,
        pages (comp_page h) rows 0 !! i = Some (Ok p) ->
        (Front.marked p.2 = true <-> i = 0%nat)).
Proof.
  split_and!.
  - intros index. rewrite isLatest_decide, bool_decide_eq_true. done.
  - intros rows i r H. apply (pages_lookup (swot_page h) rows 0 i r H).
  - intros rows i r H. apply (pages_lookup (comp_page h) rows 0 i r H).
  - intros rows w.
    destruct (forEach_pages (emit_swot h) (swot_page h) swotDir (emit_swot_page h) rows 0 w)
      as (w' & -> & _ & _ & Hwr & _). done.
  - intros rows w.
    destruct (forEach_pages (emit_comp h) (comp_page h) compDir (emit_comp_page h) rows 0 w)
      as (w' & -> & _ & _ & Hwr & _). done.
  - intros [|]; simpl; split; done.
  - intros rows i p Hp.
    destruct (pages_lookup_inv (swot_page h) rows 0 i (Ok p) Hp) as (r & _ & Hr).
    simpl in Hr. symmetry in Hr. apply swot_page_marked in Hr. rewrite Hr.
    by rewrite bool_decide_eq_true.
  - intros rows i p Hp.
    destruct (pages_lookup_inv (comp_page h) rows 0 i (Ok p) Hp) as (r & _ & Hr).
    simpl in Hr. symmetry in Hr. apply comp_page_marked in Hr. rewrite Hr.
    by rewrite bool_decide_eq_true.
Qed.

(** In the sample listing of a broken store, analysis 7 at rank 0 is paged
    with the flag and its page carries the mark; the rows at rank 1 are
    paged without the flag. *)
Lemma latest_iff_rank_zero_witness :
  pages (swot_page Sample.host) (swotRows Sample.store_broken) 0 !! 0%nat
    = Some (swot_page Sample.host Sample.analysis7 true)
  /\ pages (swot_page Sample.host) (swotRows Sample.store_broken) 0 !! 1%nat
    = Some (swot_page Sample.host Sample.analysis3_broken false)
  /\ pages (comp_page Sample.host) (compRows Sample.store_broken) 0 !! 1%nat
    = Some (comp_page Sample.host Sample.comparison2_broken false)
  /\ (exists p, pages (swot_page Sample.host) (swotRows Sample.store) 0 !! 0%nat = Some (Ok p)
                /\ Front.marked p.2 = true).
Proof.
  split_and!.
  - apply (proj1 (proj2 (latest_iff_rank_zero Sample.host))
             (swotRows Sample.store_broken) 0%nat Sample.analysis7). reflexivity.
  - apply (proj1 (proj2 (latest_iff_rank_zero Sample.host))
             (swotRows Sample.store_broken) 1%nat Sample.analysis3_broken). reflexivity.
  - apply (proj1 (proj2 (proj2 (latest_iff_rank_zero Sample.host)))
             (compRows Sample.store_broken) 1%nat Sample.comparison2_broken). reflexivity.
  - destruct (swot_page Sample.host Sample.analysis7 true) as [p|c|e] eqn:Hp;
      [| by vm_compute in Hp..].
    exists p.
    assert (Hl : pages (swot_page Sample.host) (swotRows Sample.store) 0 !! 0%nat
                 = Some (Ok p)) by (simpl; by rewrite Hp).
    split; [exact Hl |].
    apply (proj1 (proj2 (proj2 (proj2 (proj2 (proj2 (proj2
             (latest_iff_rank_zero Sample.host)))))))
             (swotRows Sample.store) 0%nat p Hl). reflexivity.
Defined.

(** C5: the slug of an analysis whose creation time is the valid time value
    [t] and whose identifier is a safe integer is the UTC calendar date of
    [t], a dash, and the digits of the identifier; the page of the row is
    written under that slug with the extension [.mdx].  The slug is a
    function of the row and the host alone. *)
Theorem slug_is_date_dash_id (h : jsHost) (row : SwotRow.t) (t : Z) :
  Date_parse h (SwotRow.created_at row) = Some t ->
  Js.safe (SwotRow.id row) ->
  swot_slug h row = Ok (JsDate.iso_date t +:+ "-" +:+ Js.string_of_Z (SwotRow.id row))
  /\ (forall index w w',
        emit_swot h row index w = (Ok tt, w') ->
        exists mdx,
          swot_files w' =
          <[ (JsDate.iso_date t +:+ "-" +:+ Js.string_of_Z (SwotRow.id row)) +:+ ".mdx"
             := mdx ]> (swot_files w)).
Proof.
  intros Ht _. split.
  - unfold swot_slug. rewrite Ht, dateStr_of_valid. done.
  - intros index w w'. rewrite emit_swot_write_page.
    unfold swot_page. rewrite Ht, dateStr_of_valid. cbv [mbind result_bind].
    repeat (match goal with
            | |- context [parse_field ?h ?f] => destruct (parse_field h f); [| done..]
            end).
    destruct (swot_mdx _ _ _ _ _ _ _ _ _ _ _ _ _) as [mdx| |]; [| done..].
    rewrite write_page_ok. intros [= <-]. exists mdx. done.
Qed.

(** Sample analysis 7, created at 2024-03-01T10:00:00Z, has the slug
    [2024-03-01-7]. *)
Lemma slug_is_date_dash_id_witness :
  Date_parse Sample.host (SwotRow.created_at Sample.analysis7) = Some 1709287200000
  /\ swot_slug Sample.host Sample.analysis7 = Ok "2024-03-01-7".
Proof.
  split; [reflexivity |].
  apply (proj1 (slug_is_date_dash_id Sample.host Sample.analysis7 1709287200000 eq_refl
                  ltac:(unfold Js.safe; simpl; lia))).
Defined.


End Display.

(** ** Claims about the run *)

Section RunClaims.
Import Gen Obs.

(** C6: when no store exists at the resolved path, the script prints the
    two path lines, the diagnostic on the error stream and the usage hint,
    and exits with code 1: the store is never opened, no directory is made,
    and no file is written or deleted. *)
Theorem store_not_found_exits_1 (h : jsHost) (args : list string) (w : world) :
  stores w !! path_resolve h (dbPathArg args) = None ->
  exists w',
    main h args w = (Exit 1, w')
    /\ trace w' =
       trace w ++
       [ Log ("📂 База данных: " +:+ path_resolve h (dbPathArg args));
         Log ("📄 Папка docs: " +:+ docsDir h);
         LogError ("❌ База данных не найдена: " +:+ path_resolve h (dbPathArg args));
         Log "💡 Укажите путь: node generate-docs.js --db /path/to/swot.db" ]
    /\ opens (trace w') = opens (trace w)
    /\ writes (trace w') = writes (trace w)
    /\ unlinks (trace w') = unlinks (trace w)
    /\ swot_files w' = swot_files w
    /\ comp_files w' = comp_files w
    /\ stores w' = stores w.
Proof.
  intros Hnone. eexists. split; [by apply main_missing |].
  cbn [trace record swot_files comp_files stores].
  rewrite !opens_snoc, !writes_snoc, !unlinks_snoc, !app_nil_r, <- !app_assoc.
  done.
Qed.

(** A world without a store: the run exits with 1 and the page that was in
    the analyses directory is still there. *)
Lemma store_not_found_exits_1_witness :
  stores Sample.world_without_store !! path_resolve Sample.host (dbPathArg Sample.args) = None
  /\ exists w',
       main Sample.host Sample.args Sample.world_without_store = (Exit 1, w')
       /\ opens (trace w') = []
       /\ swot_files w' = swot_files Sample.world_without_store.
Proof.
  split; [reflexivity |].
  destruct (store_not_found_exits_1 Sample.host Sample.args Sample.world_without_store
              eq_refl) as (w' & Hrun & _ & Hop & _ & _ & Hs & _).
  exists w'. split_and!; done.
Defined.

End RunClaims.

(** ** Reconciliation *)

Section Reconciliation.
Import Gen Obs.

Lemma stale_iff_doomed validIds f : stale validIds f = true <-> doomed validIds f.
Proof.
  unfold stale, doomed, candidate, orphan, fileId. split.
  - intros [[He Hu%negb_true_iff]%andb_true_iff Ho]%andb_true_iff.
    destruct (Js.match_id_suffix f) as [ds|]; [| done]. simpl in Ho.
    split; [done |]. exists ds. split; [done |].
    by apply negb_true_iff, bool_decide_eq_false in Ho.
  - intros [Hu (ds & Hm & Hn)].
    rewrite (match_id_suffix_endsWith f ds Hm), Hu, Hm. simpl.
    by apply negb_true_iff, bool_decide_eq_false.
Qed.

Lemma fileId_page_name (d : string) (id : Z) :
  0 <= id -> fileId (slug d id +:+ ".mdx") = Some id.
Proof.
  intros Hid. unfold fileId, slug. rewrite !append_assoc.
  rewrite match_id_suffix_intro.
  - simpl. by rewrite parseInt_string_of_Z.
  - by apply all_digits_string_of_Z.
  - apply string_of_Z_nonempty.
Qed.





Lemma ok_prefix_all {A} (l : list (result A)) p :
  outcome l = Ok tt -> (p ∈ ok_prefix l <-> Ok p ∈ l).
Proof.
  induction l as [|[a|c|e] l IH]; simpl; intros Ho; try done.
  - rewrite !elem_of_nil. tauto.
  - rewrite !elem_of_cons, (IH Ho). split; intros [?|?]; try tauto; left; congruence.
Qed.

Lemma outcome_all_ok {A} (l : list (result A)) x :
  outcome l = Ok tt -> x ∈ l -> exists p, x = Ok p.
Proof.
  induction l as [|[a|c|e] l IH]; simpl; intros Ho; try done.
  - by intros ?%elem_of_nil.
  - intros [->|H]%elem_of_cons; [by eexists | by apply IH].
Qed.


Lemma swot_page_named h r b p :
  swot_page h r b = Ok p ->
  exists d, swot_slug h r = Ok (slug d (SwotRow.id r))
            /\ p.1 = slug d (SwotRow.id r) +:+ ".mdx".
Proof.
  unfold swot_page, swot_slug. cbv [mbind result_bind].
  destruct (dateStr_of _) as [d| |]; [| done..].
  repeat (match goal with
          | |- context [parse_field ?h ?f] => destruct (parse_field h f); [| done..]
          end).
  destruct (swot_mdx _ _ _ _ _ _ _ _ _ _ _ _ _) as [mdx| |]; [| done..].
  intros [= <-]. by exists d.
Qed.

Lemma comp_page_named h r b p :
  comp_page h r b = Ok p ->
  exists d, comp_slug h r = Ok (slug d (CompRow.id r))
            /\ p.1 = slug d (CompRow.id r) +:+ ".mdx".
Proof.
  unfold comp_page, comp_slug. cbv [mbind result_bind].
  destruct (dateStr_of _) as [d| |]; [| done..].
  destruct (parse_field _ _); [| done..].
  intros [= <-]. by exists d.
Qed.

Lemma not_stale_iff validIds f : stale validIds f = false <-> ~ doomed validIds f.
Proof. rewrite <- stale_iff_doomed. by destruct (stale validIds f). Qed.

Lemma run_result_ok ps qs :
  run_result ps qs = Ok tt -> outcome ps = Ok tt /\ outcome qs = Ok tt.
Proof. unfold run_result. destruct (outcome ps) as [[]| |]; done. Qed.




(** C9: the pattern captures the last dash-delimited digit run before
    [.mdx], whatever stands before it, and nothing else can be captured; in
    [2024-01-01-3.mdx] that is 3, not a date component.  That run alone
    decides: a file of the directory with such a name, not
    underscore-prefixed, is kept by a reconciliation that returns exactly
    when the number of its last run is valid, and is deleted exactly when
    it is not, whatever the rest of its name and whichever numbers its date
    components are.  The digits are read exactly for numbers below 2^53. *)
Theorem last_digit_run_is_the_identifier :
  (forall pre ds, Js.all_digits ds = true -> ds <> "" -> Js.parseInt ds < 2 ^ 53 ->
     Js.match_id_suffix (pre +:+ "-" +:+ ds +:+ ".mdx") = Some ds
     /\ fileId (pre +:+ "-" +:+ ds +:+ ".mdx") = Some (Js.parseInt ds))
  /\ (forall file ds, Js.match_id_suffix file = Some ds ->
        exists pre, file = pre +:+ "-" +:+ ds +:+ ".mdx"
                    /\ Js.all_digits ds = true /\ ds <> "")
  /\ fileId "2024-01-01-3.mdx" = Some 3
  /\ (forall dir validIds w n w' pre ds c,
        Js.all_digits ds = true -> ds <> "" -> Js.parseInt ds < 2 ^ 53 ->
        Js.startsWith (pre +:+ "-" +:+ ds +:+ ".mdx") "_" = false ->
        cleanupOldFiles dir validIds w = (Ok n, w') ->
        files dir w !! (pre +:+ "-" +:+ ds +:+ ".mdx") = Some c ->
        (files dir w' !! (pre +:+ "-" +:+ ds +:+ ".mdx") = Some c
         <-> Js.parseInt ds ∈ validIds)
        /\ (files dir w' !! (pre +:+ "-" +:+ ds +:+ ".mdx") = None
            <-> Js.parseInt ds ∉ validIds))
  /\ (forall dir validIds w n w' file m,
        cleanupOldFiles dir validIds w = (Ok n, w') ->
        Range.safe_run file ->
        fileId file = Some m -> m ∈ validIds ->
        files dir w' !! file = files dir w !! file).
Proof.
  split_and!.
  - intros pre ds Hd Hne _. unfold fileId.
    by rewrite (match_id_suffix_intro pre ds Hd Hne).
  - apply match_id_suffix_elim.
  - reflexivity.
  - intros dir validIds w n w' pre ds c Hd Hne _ Hunder Hret Hc.
    destruct (cleanupOldFiles_spec dir validIds w) as (w2 & Hrun2 & _ & Hf & _).
    rewrite Hret in Hrun2. injection Hrun2 as _ <-.
    rewrite Hf, lookup_reconcile, Hc. unfold stale, orphan, candidate, fileId.
    rewrite (match_id_suffix_intro pre ds Hd Hne), Hunder.
    replace (Js.endsWith (pre +:+ "-" +:+ ds +:+ ".mdx") ".mdx") with true.
    2:{ symmetry. rewrite <- (append_assoc "-" ds ".mdx").
        rewrite <- (append_assoc pre ("-" +:+ ds) ".mdx"). apply endsWith_app. }
    cbn [fmap option_fmap option_map negb andb].
    destruct (decide (Js.parseInt ds ∈ validIds)) as [Hin | Hout].
    + rewrite (bool_decide_eq_true_2 _ Hin). simpl. split; split; done.
    + rewrite (bool_decide_eq_false_2 _ Hout). simpl. split; split; done.
  - intros dir validIds w n w' file m Hret _ Hid Hin.
    destruct (cleanupOldFiles_spec dir validIds w) as (w2 & Hrun2 & _ & Hf & _).
    rewrite Hret in Hrun2. injection Hrun2 as _ <-.
    rewrite Hf, lookup_reconcile. unfold stale, orphan.
    rewrite Hid, bool_decide_eq_true_2 by done. by rewrite andb_false_r.
Qed.

(** The name [2024-01-01-3.mdx] read as prefix [2024-01-01] and digits 3;
    the leftover page of identifier 7 is kept when 7 is valid, and it is
    deleted when the valid identifiers are 2023 and 1, the numbers of its
    date. *)
Lemma last_digit_run_is_the_identifier_witness :
  Js.match_id_suffix ("2024-01-01" +:+ "-" +:+ "3" +:+ ".mdx") = Some "3"
  /\ files swotDir
       (cleanupOldFiles swotDir [7] (Sample.world_with Sample.store Sample.leftover)).2
       !! "2023-01-01-7.mdx"
     = Some "old page"
  /\ files swotDir
       (cleanupOldFiles swotDir [2023; 1]
          (Sample.world_with Sample.store Sample.leftover)).2
       !! "2023-01-01-7.mdx"
     = None.
Proof.
  assert (Hret : forall ids, exists n,
            cleanupOldFiles swotDir ids (Sample.world_with Sample.store Sample.leftover)
            = (Ok n, (cleanupOldFiles swotDir ids
                        (Sample.world_with Sample.store Sample.leftover)).2)).
  { intros ids.
    destruct (cleanupOldFiles_spec swotDir ids
                (Sample.world_with Sample.store Sample.leftover)) as (w2 & -> & _).
    by eexists. }
  split_and!.
  - apply (proj1 (proj1 last_digit_run_is_the_identifier "2024-01-01" "3" eq_refl
                    ltac:(discriminate) ltac:(vm_compute; reflexivity))).
  - destruct (Hret [7]) as [n Hn].
    apply (proj1 (proj2 (proj2 (proj2 last_digit_run_is_the_identifier)))
             swotDir [7] _ n _ "2023-01-01" "7" "old page" eq_refl
             ltac:(discriminate) ltac:(vm_compute; reflexivity) eq_refl Hn eq_refl).
    by left.
  - destruct (Hret [2023; 1]) as [n Hn].
    apply (proj1 (proj2 (proj2 (proj2 last_digit_run_is_the_identifier)))
             swotDir [2023; 1] _ n _ "2023-01-01" "7" "old page" eq_refl
             ltac:(discriminate) ltac:(vm_compute; reflexivity) eq_refl Hn eq_refl).
    intros [H | [H | H%elem_of_nil]%elem_of_cons]%elem_of_cons; [discriminate H.. | done].
Defined.

End Reconciliation.

(** ** Malformed fields *)

Section Malformed.
Import Gen Obs.

Lemma parse_field_malformed h field :
  malformed h field -> parse_field h field = Throw SyntaxError.
Proof.
  intros (text & -> & Hne & Hp). unfold parse_field, parse, or_else.
  apply String.eqb_neq in Hne. by rewrite Hne, Hp.
Qed.

Lemma parse_field_cases h field :
  (exists v, parse_field h field = Ok v) \/ parse_field h field = Throw SyntaxError.
Proof.
  unfold parse_field, parse. destruct (JSON_parse h _); [left; by eexists | by right].
Qed.

(** A row with a valid date and a malformed field has no page: building it
    throws SyntaxError, whichever field it is. *)
Lemma swot_page_malformed h row latest :
  is_Some (Date_parse h (SwotRow.created_at row)) ->
  (exists field, field ∈ swot_fields row /\ malformed h field) ->
  swot_page h row latest = Throw SyntaxError.
Proof.
  intros [t Ht] (field & Hin & Hbad%parse_field_malformed).
  unfold swot_page. rewrite Ht, dateStr_of_valid. cbv [mbind result_bind].
  unfold swot_fields in Hin.
  repeat (match goal with
          | |- context [parse_field ?h ?f] =>
              let Hok := fresh "Hok" in
              let Hthrow := fresh "Hthrow" in
              destruct (parse_field_cases h f) as [[? Hok]|Hthrow];
              [rewrite Hok | by rewrite Hthrow]
          end).
  exfalso.
  repeat (apply elem_of_cons in Hin as [->|Hin]; [congruence |]).
  by apply elem_of_nil in Hin.
Qed.

Lemma comp_page_malformed h row latest :
  is_Some (Date_parse h (CompRow.created_at row)) ->
  malformed h (CompRow.items_json row) ->
  comp_page h row latest = Throw SyntaxError.
Proof.
  intros [t Ht] Hbad%parse_field_malformed.
  unfold comp_page. rewrite Ht, dateStr_of_valid. cbv [mbind result_bind].
  by rewrite Hbad.
Qed.

Lemma pages_app {A} (page : A -> bool -> result (string * string)) pre rest k :
  pages page (pre ++ rest) k = pages page pre k ++ pages page rest (k + length pre).
Proof.
  revert k. induction pre as [|r pre IH]; intros k; simpl.
  - by rewrite Nat.add_0_r.
  - rewrite IH. do 3 f_equal. lia.
Qed.

Lemma outcome_app_ok {A} (a b : list (result A)) :
  outcome a = Ok tt ->
  outcome (a ++ b) = outcome b /\ ok_prefix (a ++ b) = ok_prefix a ++ ok_prefix b.
Proof.
  induction a as [|[x|c|e] a IH]; simpl; intros Ho; try done.
  destruct (IH Ho) as [-> ->]. done.
Qed.

(** The pages of a listing whose first failure is a malformed row. *)
Lemma pages_stop_at {A} (page : A -> bool -> result (string * string))
    pre row post e :
  outcome (pages page pre 0) = Ok tt ->
  (forall b, page row b = Throw e) ->
  outcome (pages page (pre ++ row :: post) 0) = Throw e
  /\ ok_prefix (pages page (pre ++ row :: post) 0) = ok_prefix (pages page pre 0).
Proof.
  intros Hpre Hrow. rewrite pages_app.
  destruct (outcome_app_ok (pages page pre 0)
              (pages page (row :: post) (0 + length pre)) Hpre) as [-> ->].
  simpl. rewrite Hrow. simpl. by rewrite app_nil_r.
Qed.

(** C2, as the code has it.  A missing or empty structured field parses as
    the text of the empty array, so it is the empty list on every host
    whose [JSON.parse] reads that text as the empty array, and it never
    throws.  A field that is present and does not parse throws SyntaxError
    out of the loop body, and nothing catches it: the run ends at that row,
    with that SyntaxError when the creation time of the row is a valid
    date, and otherwise with the RangeError that [toISOString] throws
    before any field is parsed.  No page is written for that row or a later
    one, the directory of that kind is not reconciled, and what follows in
    the script is skipped; the pages of the rows listed before it have been
    written by then and stay. *)
Theorem malformed_field_aborts_at_row (h : jsHost) :
  (JSON_parse h "[]" = Some (JArr []) ->
   forall field, field = None \/ field = Some "" -> parse_field h field = Ok (JArr []))
  /\ (forall field, malformed h field -> parse_field h field = Throw SyntaxError)
  /\ (forall args w db pre row post,
        stores w !! path_resolve h (dbPathArg args) = Some db ->
        swotRows db = pre ++ row :: post ->
        outcome (pages (swot_page h) pre 0) = Ok tt ->
        (exists field, field ∈ swot_fields row /\ malformed h field) ->
        exists w',
          main h args w
          = (Throw (match Date_parse h (SwotRow.created_at row) with
                    | Some _ => SyntaxError
                    | None => RangeError
                    end), w')
          /\ swot_files w' = write_all (ok_prefix (pages (swot_page h) pre 0)) (swot_files w)
          /\ comp_files w' = comp_files w
          /\ writes (trace w') =
               writes (trace w) ++
               ((fun p => (swotDir, p.1, p.2)) <$> ok_prefix (pages (swot_page h) pre 0))
          /\ unlinks (trace w') = unlinks (trace w))
  /\ (forall args w db pre row post,
        stores w !! path_resolve h (dbPathArg args) = Some db ->
        outcome (pages (swot_page h) (swotRows db) 0) = Ok tt ->
        compRows db = pre ++ row :: post ->
        outcome (pages (comp_page h) pre 0) = Ok tt ->
        malformed h (CompRow.items_json row) ->
        exists w',
          main h args w
          = (Throw (match Date_parse h (CompRow.created_at row) with
                    | Some _ => SyntaxError
                    | None => RangeError
                    end), w')
          /\ comp_files w' = write_all (ok_prefix (pages (comp_page h) pre 0)) (comp_files w)
          /\ writes (trace w') =
               writes (trace w) ++
               ((fun p => (swotDir, p.1, p.2)) <$> ok_prefix (pages (swot_page h) (swotRows db) 0)) ++
               ((fun p => (compDir, p.1, p.2)) <$> ok_prefix (pages (comp_page h) pre 0))).
Proof.
  split_and!.
  - intros Hempty field [->| ->]; unfold parse_field, parse; simpl; by rewrite Hempty.
  - apply parse_field_malformed.
  - intros args w db pre row post Hdb Hrows Hpre Hbad.
    destruct (pages_stop_at (swot_page h) pre row post
                (match Date_parse h (SwotRow.created_at row) with
                 | Some _ => SyntaxError
                 | None => RangeError
                 end) Hpre)
      as [Hout Hok].
    { intros b. destruct (Date_parse h (SwotRow.created_at row)) as [t|] eqn:Ht.
      - apply swot_page_malformed; [by rewrite Ht | done].
      - unfold swot_page. by rewrite Ht. }
    destruct (main_spec h args w db Hdb) as (w' & Hrun & _ & Hs & Hc & Hwr & _ & Hun).
    rewrite Hrows in Hrun, Hs, Hc, Hwr, Hun.
    unfold run_result, after_pass in *. rewrite Hout in *. rewrite Hok in *.
    exists w'. split_and!; try done.
    + by rewrite Hwr, app_nil_r.
    + by apply Hun.
  - intros args w db pre row post Hdb Hswot Hrows Hpre Hbad.
    destruct (pages_stop_at (comp_page h) pre row post
                (match Date_parse h (CompRow.created_at row) with
                 | Some _ => SyntaxError
                 | None => RangeError
                 end) Hpre)
      as [Hout Hok].
    { intros b. destruct (Date_parse h (CompRow.created_at row)) as [t|] eqn:Ht.
      - apply comp_page_malformed; [by rewrite Ht | done].
      - unfold comp_page. by rewrite Ht. }
    destruct (main_spec h args w db Hdb) as (w' & Hrun & _ & Hs & Hc & Hwr & _ & Hun).
    rewrite Hrows in Hrun, Hc, Hwr.
    unfold run_result, after_pass in *. rewrite Hswot in *. rewrite Hout in *.
    rewrite Hok in *.
    exists w'. split_and!; done.
Qed.

(** The sample store whose second analysis and second comparison are
    broken: the run throws at analysis 3, after the page of analysis 7 has
    been written. *)
Lemma malformed_field_aborts_at_row_witness :
  JSON_parse Sample.host "[]" = Some (JArr [])
  /\ parse_field Sample.host None = Ok (JArr [])
  /\ malformed Sample.host (SwotRow.strengths_json Sample.analysis3_broken)
  /\ parse_field Sample.host (SwotRow.strengths_json Sample.analysis3_broken)
     = Throw SyntaxError
  /\ (exists w',
        main Sample.host Sample.args (Sample.world_with Sample.store_broken ∅)
        = (Throw SyntaxError, w')
        /\ swot_files w' =
           write_all (ok_prefix (pages (swot_page Sample.host) [Sample.analysis7] 0)) ∅)
  /\ (exists w',
        main Sample.host Sample.args
          (Sample.world_with
             {| swotRows := [Sample.analysis7];
                compRows := [Sample.comparison1; Sample.comparison2_broken] |} ∅)
        = (Throw SyntaxError, w')
        /\ comp_files w' =
           write_all (ok_prefix (pages (comp_page Sample.host) [Sample.comparison1] 0)) ∅).
Proof.
  assert (Hbad3 : malformed Sample.host (SwotRow.strengths_json Sample.analysis3_broken)).
  { exists "{". split_and!; [reflexivity | discriminate | reflexivity]. }
  assert (Hbad2 : malformed Sample.host (CompRow.items_json Sample.comparison2_broken)).
  { exists "{". split_and!; [reflexivity | discriminate | reflexivity]. }
  split_and!.
  - reflexivity.
  - apply (proj1 (malformed_field_aborts_at_row Sample.host) eq_refl None). by left.
  - exact Hbad3.
  - apply (proj1 (proj2 (malformed_field_aborts_at_row Sample.host)) _ Hbad3).
  - destruct (proj1 (proj2 (proj2 (malformed_field_aborts_at_row Sample.host)))
                Sample.args (Sample.world_with Sample.store_broken ∅) Sample.store_broken
                [Sample.analysis7] Sample.analysis3_broken [] eq_refl eq_refl)
      as (w' & Hrun & Hs & _).
    + vm_compute. reflexivity.
    + eexists. split; [left | exact Hbad3].
    + exists w'. split; [exact Hrun | exact Hs].
  - destruct (proj2 (proj2 (proj2 (malformed_field_aborts_at_row Sample.host)))
                Sample.args
                (Sample.world_with
                   {| swotRows := [Sample.analysis7];
                      compRows := [Sample.comparison1; Sample.comparison2_broken] |} ∅)
                {| swotRows := [Sample.analysis7];
                   compRows := [Sample.comparison1; Sample.comparison2_broken] |}
                [Sample.comparison1] Sample.comparison2_broken [] eq_refl)
      as (w' & Hrun & Hc & _).
    + vm_compute. reflexivity.
    + reflexivity.
    + vm_compute. reflexivity.
    + exact Hbad2.
    + exists w'. split; [exact Hrun | exact Hc].
Defined.

(** C2, as stated, fails in its last part: the sample run over the broken
    store throws SyntaxError at analysis 3, whose strengths column is
    malformed, and the analyses directory, empty before, now holds the page
    of analysis 7. *)
Lemma malformed_row_leaves_earlier_pages :
  let w0 := Sample.world_with Sample.store_broken ∅ in
  (main Sample.host Sample.args w0).1 = Throw SyntaxError
  /\ malformed Sample.host (SwotRow.strengths_json Sample.analysis3_broken)
  /\ is_Some (swot_files (main Sample.host Sample.args w0).2 !! "2024-03-01-7.mdx")
  /\ ~ no_partial_output (swot_files w0) (swot_files (main Sample.host Sample.args w0).2).
Proof.
  intros w0.
  assert (Hthere : is_Some (swot_files (main Sample.host Sample.args w0).2
                            !! "2024-03-01-7.mdx")).
  { vm_compute. eauto. }
  split_and!.
  - vm_compute. reflexivity.
  - exists "{". split_and!; [reflexivity | discriminate | reflexivity].
  - exact Hthere.
  - unfold no_partial_output. intros Heq. rewrite Heq in Hthere.
    destruct Hthere as [c Hc]. vm_compute in Hc. discriminate Hc.
Qed.

End Malformed.

(** ** Running twice *)

Section Idempotence.
Import Gen Obs.

(** Writes shadow what was there. *)
Lemma write_all_union ps (m : gmap string string) :
  write_all ps m = write_all ps ∅ ∪ m.
Proof.
  unfold write_all. revert m. induction ps as [|[n c] ps IH]; intros m; simpl.
  - by rewrite (left_id_L ∅ (∪)).
  - rewrite (IH (<[n:=c]> m)), (IH (<[n:=c]> ∅)).
    rewrite <- (assoc_L (∪)). f_equal.
    rewrite insert_empty. apply insert_union_singleton_l.
Qed.

Lemma write_all_idem ps (m : gmap string string) :
  write_all ps (write_all ps m) = write_all ps m.
Proof.
  rewrite (write_all_union ps (write_all ps m)), (write_all_union ps m).
  by rewrite (assoc_L (∪)), (idemp_L (∪)).
Qed.

Lemma reconcile_write_all_idem validIds ps (m : gmap string string) :
  reconcile validIds (write_all ps (reconcile validIds (write_all ps m)))
  = reconcile validIds (write_all ps m).
Proof.
  apply map_eq. intros f. rewrite !lookup_reconcile.
  destruct (stale validIds f) eqn:Hs; [done |].
  rewrite (write_all_union ps (reconcile _ _)), (write_all_union ps m).
  rewrite !lookup_union, lookup_reconcile, Hs, lookup_union.
  by destruct (write_all ps ∅ !! f), (m !! f).
Qed.

(** A pass over a directory that the same pass has already been over
    changes nothing. *)
Lemma after_pass_idem validIds ps (m : gmap string string) :
  after_pass validIds ps (after_pass validIds ps m) = after_pass validIds ps m.
Proof.
  unfold after_pass. destruct (outcome ps).
  - apply reconcile_write_all_idem.
  - apply write_all_idem.
  - apply write_all_idem.
Qed.

Lemma write_page_writes dir page w w' :
  write_page dir page w = (Ok tt, w') ->
  exists p, page = Ok p
            /\ files dir w' = <[p.1 := p.2]> (files dir w)
            /\ forall d, d <> dir -> files d w' = files d w.
Proof.
  destruct page as [p|c|e]; [| done..]. rewrite write_page_ok. intros [= <-].
  exists p. split; [done |]. split.
  - by rewrite !files_record, files_set_files.
  - intros d Hd. by rewrite !files_record, files_set_files_ne.
Qed.

(** C7: the page of a record is written to the file named by its slug in
    the directory of its kind, created or overwritten without any test, and
    the other directory is left alone; and a second run of the script over
    what the first run left, with the store unchanged, ends the same way,
    writes the same contents under the same names in the same order, and
    leaves both directories exactly as the first run left them.  Nothing in
    a page depends on when the script runs. *)
Theorem rerun_writes_the_same (h : jsHost) (args : list string) (w : world) :
  let r1 := main h args w in
  let r2 := main h args r1.2 in
  (forall row index w0 w1,
     emit_swot h row index w0 = (Ok tt, w1) ->
     exists s mdx,
       swot_slug h row = Ok s
       /\ swot_files w1 = <[s +:+ ".mdx" := mdx]> (swot_files w0)
       /\ comp_files w1 = comp_files w0)
  /\ (forall row index w0 w1,
       emit_comp h row index w0 = (Ok tt, w1) ->
       exists s mdx,
         comp_slug h row = Ok s
         /\ comp_files w1 = <[s +:+ ".mdx" := mdx]> (comp_files w0)
         /\ swot_files w1 = swot_files w0)
  /\ r2.1 = r1.1
  /\ swot_files r2.2 = swot_files r1.2
  /\ comp_files r2.2 = comp_files r1.2
  /\ exists written,
       writes (trace r1.2) = writes (trace w) ++ written
       /\ writes (trace r2.2) = writes (trace r1.2) ++ written.
Proof.
  intros r1 r2. split; [| split].
  { intros row index w0 w1. rewrite emit_swot_write_page.
    intros (p & Hp & Hf & Hoth)%write_page_writes.
    apply swot_page_named in Hp as (d & Hslug & Hn).
    exists (slug d (SwotRow.id row)), p.2. split_and!; [done | |].
    - simpl in Hf. by rewrite Hf, Hn.
    - by apply (Hoth compDir). }
  { intros row index w0 w1. rewrite emit_comp_write_page.
    intros (p & Hp & Hf & Hoth)%write_page_writes.
    apply comp_page_named in Hp as (d & Hslug & Hn).
    exists (slug d (CompRow.id row)), p.2. split_and!; [done | |].
    - simpl in Hf. by rewrite Hf, Hn.
    - by apply (Hoth swotDir). }
  destruct (stores w !! path_resolve h (dbPathArg args)) as [db|] eqn:Hdb.
  - destruct (main_spec h args w db Hdb) as (w1 & Hrun1 & Hst1 & Hs1 & Hc1 & Hwr1 & _).
    assert (Hdb1 : stores w1 !! path_resolve h (dbPathArg args) = Some db)
      by (by rewrite Hst1).
    destruct (main_spec h args w1 db Hdb1) as (w2 & Hrun2 & Hst2 & Hs2 & Hc2 & Hwr2 & _).
    unfold r2, r1. rewrite Hrun1. simpl. rewrite Hrun2. simpl.
    split_and!.
    + done.
    + by rewrite Hs2, Hs1, after_pass_idem.
    + rewrite Hc2, Hc1. destruct (outcome (pages (swot_page h) (swotRows db) 0)); try done.
      apply after_pass_idem.
    + eexists. split; [exact Hwr1 | exact Hwr2].
  - pose proof (main_missing h args w Hdb) as Hrun1.
    unfold r2, r1. rewrite Hrun1. cbn [fst snd].
    rewrite main_missing by exact Hdb. cbn [fst snd].
    split_and!; try done.
    exists []. cbn [trace record]. by rewrite !writes_snoc, !app_nil_r.
Qed.

(** The page of sample analysis 7 is written over whatever the directory
    holds under [2024-03-01-7.mdx]. *)
Lemma rerun_writes_the_same_witness :
  let w0 := Sample.world_with Sample.store {[ "2024-03-01-7.mdx" := "stale" ]} in
  let w1 := (emit_swot Sample.host Sample.analysis7 0 w0).2 in
  emit_swot Sample.host Sample.analysis7 0 w0 = (Ok tt, w1)
  /\ exists s mdx,
       swot_slug Sample.host Sample.analysis7 = Ok s
       /\ swot_files w1 = <[s +:+ ".mdx" := mdx]> (swot_files w0)
       /\ comp_files w1 = comp_files w0.
Proof.
  intros w0 w1.
  assert (Hrun : emit_swot Sample.host Sample.analysis7 0 w0 = (Ok tt, w1)).
  { assert (H1 : (emit_swot Sample.host Sample.analysis7 0 w0).1 = Ok tt)
      by (vm_compute; reflexivity).
    unfold w1. destruct (emit_swot Sample.host Sample.analysis7 0 w0) as [r w2].
    simpl in *. by subst r. }
  split; [exact Hrun |].
  apply (proj1 (rerun_writes_the_same Sample.host Sample.args w0)
           Sample.analysis7 0%nat w0 w1 Hrun).
Defined.

End Idempotence.


(** * Further properties *)

(** ** The command line *)

Section CommandLine.
Import Gen.

Lemma append_empty_r (s : string) : s +:+ "" = s.
Proof. induction s as [|a s IH]; simpl; [done | by rewrite IH]. Qed.

Lemma find_skip (f : string -> bool) (before rest : list string) :
  Forall (fun a => f a = false) before ->
  List.find f (before ++ rest) = List.find f rest.
Proof.
  induction 1 as [|a before Ha _ IH]; simpl; [done |]. by rewrite Ha.
Qed.

Lemma find_none (f : string -> bool) (l : list string) :
  Forall (fun a => f a = false) l -> List.find f l = None.
Proof.
  intros H. rewrite <- (app_nil_r l). by rewrite find_skip.
Qed.

Lemma indexOf_absent (x : string) (l : list string) : x ∉ l -> indexOf x l = None.
Proof.
  induction l as [|y l IH]; simpl; [done |].
  intros [Hy Hl]%not_elem_of_cons.
  destruct (String.eqb y x) eqn:He; [by apply String.eqb_eq in He |].
  by rewrite (IH Hl).
Qed.

Lemma indexOf_first (x : string) (before after : list string) :
  x ∉ before -> indexOf x (before ++ x :: after) = Some (length before).
Proof.
  induction before as [|y before IH]; simpl.
  - intros _. by rewrite String.eqb_refl.
  - intros [Hy Hl]%not_elem_of_cons.
    destruct (String.eqb y x) eqn:He; [by apply String.eqb_eq in He |].
    by rewrite (IH Hl).
Qed.

(** X1: The path is never the empty string: an empty candidate is falsy and
    gives way to the next one, and the last one is the default. *)
Theorem dbPathArg_never_empty (args : list string) : dbPathArg args <> "".
Proof.
  unfold dbPathArg.
  set (e := List.find _ args ≫= _). set (n := args !! _).
  assert (Hor : forall a b r, js_or a b = Some r -> r <> "" \/ b = Some r).
  { intros [s|] b r; simpl; [| by right].
    destruct (String.eqb s "") eqn:He; [by right |].
    intros [= <-]. left. by apply String.eqb_neq. }
  destruct (js_or (js_or e n) None) as [r|] eqn:Hr; simpl; [| done].
  destruct (Hor _ _ _ Hr) as [?|?]; done.
Qed.

(** X2: The form [--db=<value>]: the first argument of that form decides, and
    its value is read up to the next equals sign, so a path that holds an
    equals sign is cut there. *)
Theorem dbPathArg_equals_form (before after : list string) (v tail : string) :
  Forall (fun a => Js.startsWith a "--db=" = false) before ->
  Js.has_char "=" v = false ->
  v <> "" ->
  (tail = "" \/ exists rest, tail = "=" +:+ rest) ->
  dbPathArg (before ++ ("--db=" +:+ v +:+ tail) :: after) = v.
Proof.
  intros Hbefore Hv Hne Htail. unfold dbPathArg.
  rewrite (find_skip _ before _ Hbefore).
  assert (Hsplit : Js.split "=" ("--db=" +:+ v +:+ tail) !! 1%nat = Some v).
  { change ("--db=" +:+ v +:+ tail) with ("--db" +:+ String "=" (v +:+ tail)).
    rewrite split_at_first by reflexivity. simpl.
    destruct Htail as [->|[rest ->]].
    - rewrite append_empty_r, split_no_sep by done. done.
    - change (v +:+ "=" +:+ rest) with (v +:+ String "=" rest).
      by rewrite split_at_first. }
  assert (Hstart : Js.startsWith ("--db=" +:+ v +:+ tail) "--db=" = true).
  { unfold Js.startsWith. simpl. generalize (v +:+ tail). by intros []. }
  cbn [List.find]. rewrite Hstart.
  cbn [mbind option_bind]. rewrite Hsplit. simpl.
  apply String.eqb_neq in Hne. rewrite Hne. simpl. by rewrite Hne.
Qed.

Lemma dbPathArg_equals_form_witness :
  dbPathArg ["--verbose"; "--db=/data/run=3/swot.db"; "--db=/other.db"] = "/data/run".
Proof.
  apply (dbPathArg_equals_form ["--verbose"] ["--db=/other.db"] "/data/run" "=3/swot.db").
  - repeat constructor.
  - reflexivity.
  - discriminate.
  - right. by exists "3/swot.db".
Defined.

(** X3: The form [--db <value>]: without any [--db=...] argument, the argument
    after the first [--db] is the path; a [--db] in last position, or one
    followed by an empty argument, gives the default. *)
Theorem dbPathArg_flag_form (before after : list string) :
  Forall (fun a => Js.startsWith a "--db=" = false) (before ++ "--db" :: after) ->
  "--db" ∉ before ->
  dbPathArg (before ++ "--db" :: after) =
  match after with
  | p :: _ => if String.eqb p "" then "../swot.db" else p
  | [] => "../swot.db"
  end.
Proof.
  intros Hnone Hfirst. unfold dbPathArg.
  rewrite (find_none _ _ Hnone), (indexOf_first _ _ _ Hfirst). cbn [mbind option_bind js_or].
  replace ((before ++ "--db" :: after) !! S (length before)) with (after !! 0%nat).
  - destruct after as [|p after]; simpl; [done |]. by destruct (String.eqb p "").
  - rewrite lookup_app_r by lia.
    replace (S (length before) - length before)%nat with 1%nat by lia. done.
Qed.

Lemma dbPathArg_flag_form_witness :
  dbPathArg ["-v"; "--db"; "/data/swot.db"; "--db"; "/x"] = "/data/swot.db"
  /\ dbPathArg ["-v"; "--db"] = "../swot.db".
Proof.
  split.
  - apply (dbPathArg_flag_form ["-v"] ["/data/swot.db"; "--db"; "/x"]).
    + repeat constructor.
    + intros H%list_elem_of_singleton. discriminate H.
  - apply (dbPathArg_flag_form ["-v"] []).
    + repeat constructor.
    + intros H%list_elem_of_singleton. discriminate H.
Defined.

(** X4: Without any [--db=...] and any [--db] argument the first argument is
    taken as the path, whatever it is: [indexOf] answers -1 and the script
    reads the element at -1 + 1. *)
Theorem dbPathArg_positional (args : list string) :
  Forall (fun a => Js.startsWith a "--db=" = false) args ->
  "--db" ∉ args ->
  dbPathArg args =
  match args with
  | p :: _ => if String.eqb p "" then "../swot.db" else p
  | [] => "../swot.db"
  end.
Proof.
  intros Hnone Habsent. unfold dbPathArg.
  rewrite (find_none _ _ Hnone), (indexOf_absent _ _ Habsent). cbn [mbind option_bind js_or].
  destruct args as [|p args]; simpl; [done |]. by destruct (String.eqb p "").
Qed.

Lemma dbPathArg_positional_witness :
  dbPathArg ["--verbose"; "/data/swot.db"] = "--verbose".
Proof.
  apply (dbPathArg_positional ["--verbose"; "/data/swot.db"]).
  - repeat constructor.
  - intros H. repeat (apply elem_of_cons in H as [H|H]; [discriminate H |]).
    by apply elem_of_nil in H.
Defined.

End CommandLine.

(** ** More on the reconciler *)

Section Reconciler.
Import Gen Obs.

Lemma list_filter_length_perm {A} (f : A -> bool) (l l' : list A) :
  l ≡ₚ l' -> length (List.filter f l) = length (List.filter f l').
Proof.
  induction 1 as [|x l l' _ IH|x y l|l l' l'' _ IH1 _ IH2]; simpl.
  - done.
  - destruct (f x); simpl; by rewrite IH.
  - by destruct (f x), (f y).
  - by rewrite IH1.
Qed.

Lemma list_filter_nil {A} (f : A -> bool) (l : list A) :
  (forall x, x ∈ l -> f x = false) -> List.filter f l = [].
Proof.
  induction l as [|x l IH]; simpl; [done |]. intros H.
  rewrite (H x) by left. apply IH. intros y Hy. apply H. by right.
Qed.

Lemma reconcile_insert validIds (m : gmap string string) f c :
  reconcile validIds (<[f := c]> m) =
  if stale validIds f then reconcile validIds (delete f m)
  else <[f := c]> (reconcile validIds m).
Proof.
  apply map_eq. intros g. destruct (stale validIds f) eqn:Hs.
  - rewrite !lookup_reconcile. destruct (decide (g = f)) as [->|Hne].
    + by rewrite Hs.
    + by rewrite lookup_insert_ne, lookup_delete_ne.
  - rewrite lookup_reconcile. destruct (decide (g = f)) as [->|Hne].
    + by rewrite Hs, !lookup_insert_eq.
    + by rewrite !lookup_insert_ne, lookup_reconcile.
Qed.

(** Reconciliation splits a directory into what stays and what is counted
    as removed. *)
Lemma size_reconcile validIds (m : gmap string string) :
  size m =
  (size (reconcile validIds m)
   + length (List.filter (stale validIds) (map_to_list m).*1))%nat.
Proof.
  induction m as [|f c m Hf _ IH] using map_first_key_ind.
  - rewrite map_to_list_empty. simpl. unfold reconcile.
    by rewrite map_filter_empty, map_size_empty.
  - rewrite map_size_insert_None by done.
    rewrite (list_filter_length_perm _ _ ((f, c) :: map_to_list m).*1)
      by (by rewrite map_to_list_insert).
    rewrite reconcile_insert. cbn [fmap list_fmap List.filter fst].
    destruct (stale validIds f).
    + rewrite delete_id by done. cbn [length]. lia.
    + rewrite map_size_insert_None.
      * lia.
      * rewrite lookup_reconcile, Hf. by destruct (stale validIds f).
Qed.

(** X5: When the reconciler returns, the count it returns is the number of
    files that left the directory, and the number of deletions it
    performed. *)
Theorem cleanup_count_is_what_left
    (dir : outdir) (validIds : list Z) (w w' : world) (n : nat) :
  cleanupOldFiles dir validIds w = (Ok n, w') ->
  size (files dir w) = (size (files dir w') + n)%nat
  /\ length (unlinks (trace w')) = (length (unlinks (trace w)) + n)%nat.
Proof.
  intros Hret.
  destruct (cleanupOldFiles_spec dir validIds w) as (w2 & Hrun & _ & Hf & _ & _ & Hun & _).
  rewrite Hret in Hrun. injection Hrun as -> <-. split.
  - rewrite Hf. apply size_reconcile.
  - by rewrite Hun, length_app, length_fmap.
Qed.

Lemma cleanup_count_is_what_left_witness :
  exists w',
    cleanupOldFiles swotDir [3] (Sample.world_with Sample.store Sample.leftover)
    = (Ok 1%nat, w')
    /\ size (files swotDir (Sample.world_with Sample.store Sample.leftover))
       = (size (files swotDir w') + 1)%nat.
Proof.
  assert (H1 : (cleanupOldFiles swotDir [3]
                  (Sample.world_with Sample.store Sample.leftover)).1 = Ok 1%nat)
    by (vm_compute; reflexivity).
  destruct (cleanupOldFiles swotDir [3] (Sample.world_with Sample.store Sample.leftover))
    as [r w'] eqn:Hrun.
  simpl in H1. subst r. exists w'. split; [reflexivity |].
  apply (proj1 (cleanup_count_is_what_left swotDir [3]
                  (Sample.world_with Sample.store Sample.leftover) w' 1%nat Hrun)).
Defined.

Lemma reconcile_names_not_stale validIds (m : gmap string string) f :
  f ∈ (map_to_list (reconcile validIds m)).*1 -> stale validIds f = false.
Proof.
  intros ([g c] & -> & Hin%elem_of_map_to_list)%list_elem_of_fmap. simpl.
  rewrite lookup_reconcile in Hin. by destruct (stale validIds g).
Qed.

Lemma reconcile_idem validIds (m : gmap string string) :
  reconcile validIds (reconcile validIds m) = reconcile validIds m.
Proof.
  apply map_eq. intros f. rewrite !lookup_reconcile. by destruct (stale validIds f).
Qed.

(** X6: Reconciling a directory that has just been reconciled against the same
    identifiers deletes nothing and returns 0. *)
Theorem cleanup_twice_is_once (dir : outdir) (validIds : list Z) (w : world) :
  let r1 := cleanupOldFiles dir validIds w in
  let r2 := cleanupOldFiles dir validIds r1.2 in
  r2.1 = Ok 0%nat
  /\ files dir r2.2 = files dir r1.2
  /\ unlinks (trace r2.2) = unlinks (trace r1.2).
Proof.
  intros r1 r2. unfold r2, r1.
  destruct (cleanupOldFiles_spec dir validIds w) as (w1 & -> & _ & Hf1 & _).
  simpl.
  destruct (cleanupOldFiles_spec dir validIds w1) as (w2 & -> & _ & Hf2 & _ & _ & Hun2 & _).
  simpl. rewrite Hf1 in *.
  rewrite (list_filter_nil (stale validIds)) in *
    by apply reconcile_names_not_stale.
  split_and!.
  - done.
  - by rewrite Hf2, reconcile_idem.
  - by rewrite Hun2, app_nil_r.
Qed.

Lemma stale_antitone validIds validIds' f :
  (forall n, n ∈ validIds -> n ∈ validIds') ->
  stale validIds f = false -> stale validIds' f = false.
Proof.
  intros Hsub. unfold stale, orphan.
  destruct (candidate f); simpl; [| done].
  destruct (fileId f) as [n|]; [| done].
  intros Hn%negb_false_iff%bool_decide_eq_true.
  apply negb_false_iff, bool_decide_eq_true. by apply Hsub.
Qed.

(** X7: Whatever survives reconciliation against some identifiers survives it,
    unchanged, against any larger set of identifiers. *)
Theorem cleanup_spares_more_with_more_ids
    (dir : outdir) (validIds validIds' : list Z) (w : world) (f c : string) :
  (forall n, n ∈ validIds -> n ∈ validIds') ->
  files dir (cleanupOldFiles dir validIds w).2 !! f = Some c ->
  files dir (cleanupOldFiles dir validIds' w).2 !! f = Some c.
Proof.
  intros Hsub.
  destruct (cleanupOldFiles_spec dir validIds w) as (w1 & -> & _ & Hf1 & _).
  destruct (cleanupOldFiles_spec dir validIds' w) as (w2 & -> & _ & Hf2 & _).
  simpl. rewrite Hf1, Hf2, !lookup_reconcile.
  destruct (stale validIds f) eqn:Hs; [done |].
  by rewrite (stale_antitone _ _ _ Hsub Hs).
Qed.

Lemma cleanup_spares_more_with_more_ids_witness :
  files swotDir
    (cleanupOldFiles swotDir [3; 7] (Sample.world_with Sample.store Sample.leftover)).2
    !! "2023-01-01-7.mdx" = Some "old page".
Proof.
  apply (cleanup_spares_more_with_more_ids swotDir [7] [3; 7]
           (Sample.world_with Sample.store Sample.leftover) "2023-01-01-7.mdx" "old page").
  - intros n Hn. by right.
  - vm_compute. reflexivity.
Defined.

(** X8: A run over a store with no analysis and no comparison that
    completes has written nothing and has removed from both directories
    every file that matches the pattern and is not underscore-prefixed:
    only the protected and the non-matching files remain. *)
Theorem empty_store_removes_every_page
    (h : jsHost) (args : list string) (w w' : world) (db : database) :
  stores w !! path_resolve h (dbPathArg args) = Some db ->
  swotRows db = [] ->
  compRows db = [] ->
  main h args w = (Ok tt, w') ->
  writes (trace w') = writes (trace w)
    /\ (forall f c,
          swot_files w' !! f = Some c <->
          swot_files w !! f = Some c
          /\ (Js.startsWith f "_" = true \/ Js.match_id_suffix f = None))
    /\ (forall f c,
          comp_files w' !! f = Some c <->
          comp_files w !! f = Some c
          /\ (Js.startsWith f "_" = true \/ Js.match_id_suffix f = None)).
Proof.
  intros Hdb Hs Hc Hret.
  destruct (main_spec h args w db Hdb) as (w2 & Hrun & _ & Hsf & Hcf & Hwr & _).
  rewrite Hret in Hrun. injection Hrun as _ <-.
  rewrite Hs, Hc in *. simpl in *. unfold after_pass in *. simpl in *.
  rewrite app_nil_r in Hwr.
  assert (Hkeep : forall f, stale [] f = false <->
            Js.startsWith f "_" = true \/ Js.match_id_suffix f = None).
  { intros f. rewrite not_stale_iff. unfold doomed. split.
    - intros Hnot. destruct (Js.startsWith f "_") eqn:Hu; [by left | right].
      destruct (Js.match_id_suffix f) as [ds|] eqn:Hm; [| done].
      exfalso. apply Hnot. split; [done |]. exists ds. split; [done |].
      apply not_elem_of_nil.
    - intros [Hu|Hm] [Hu' (ds & Hm' & _)]; congruence. }
  split_and!; try done.
  - intros f c. rewrite Hsf, lookup_reconcile. unfold write_all. simpl.
    rewrite <- Hkeep. destruct (stale [] f); split; try done.
    + by intros [_ ?].
    + by intros [? _].
  - intros f c. rewrite Hcf, lookup_reconcile. unfold write_all. simpl.
    rewrite <- Hkeep. destruct (stale [] f); split; try done.
    + by intros [_ ?].
    + by intros [? _].
Qed.

Lemma empty_store_removes_every_page_witness :
  exists w',
    main Sample.host Sample.args
      (Sample.world_with {| swotRows := []; compRows := [] |} Sample.leftover)
    = (Ok tt, w')
    /\ swot_files w' !! "2023-01-01-7.mdx" = None.
Proof.
  assert (H1 : (main Sample.host Sample.args
                  (Sample.world_with {| swotRows := []; compRows := [] |}
                     Sample.leftover)).1 = Ok tt) by (vm_compute; reflexivity).
  destruct (main Sample.host Sample.args
              (Sample.world_with {| swotRows := []; compRows := [] |} Sample.leftover))
    as [r w'] eqn:Hrun.
  simpl in H1. subst r. exists w'. split; [reflexivity |].
  destruct (empty_store_removes_every_page Sample.host Sample.args
              (Sample.world_with {| swotRows := []; compRows := [] |} Sample.leftover)
              w' {| swotRows := []; compRows := [] |} eq_refl eq_refl eq_refl Hrun)
    as (_ & Hs & _).
  destruct (swot_files w' !! "2023-01-01-7.mdx") as [c|] eqn:Hl; [| reflexivity].
  apply Hs in Hl as [_ [Hu|Hm]]; [vm_compute in Hu | vm_compute in Hm]; discriminate.
Defined.

End Reconciler.

(** ** More on emission *)

Section Emission.
Import Gen Obs.

(** The reconciler reads the identifier of a page name as the absolute
    value of the identifier the page was written for. *)
Lemma fileId_page_name_abs (d : string) (id : Z) :
  fileId (slug d id +:+ ".mdx") = Some (Z.abs id).
Proof.
  destruct (Z_lt_le_dec id 0) as [Hneg|Hpos].
  - destruct id as [|p|p]; try lia.
    unfold fileId, slug. rewrite string_of_Z_neg.
    change (d +:+ "-" +:+ String "-" (NilEmpty.string_of_uint (Pos.to_uint p)))
      with (d +:+ "-" +:+ "-" +:+ NilEmpty.string_of_uint (Pos.to_uint p)).
    rewrite !append_assoc.
    rewrite <- (append_assoc d "-" _).
    rewrite match_id_suffix_intro.
    + simpl. by rewrite parseInt_uint, DecimalPos.Unsigned.of_to.
    + apply string_of_uint_digits.
    + rewrite <- string_of_Z_pos. apply string_of_Z_nonempty.
  - rewrite fileId_page_name by done. f_equal. lia.
Qed.

Lemma startsWith_dated (d rest : string) :
  Js.has_char "_" d = false -> Js.startsWith (d +:+ "-" +:+ rest) "_" = false.
Proof.
  unfold Js.startsWith. destruct d as [|a d]; [done |].
  cbn [Js.has_char]. intros [Ha _]%orb_false_iff. apply Ascii.eqb_neq in Ha.
  change (String a d +:+ "-" +:+ rest) with (String a (d +:+ "-" +:+ rest)).
  cbn [String.prefix]. by destruct (ascii_dec "_" a) as [<-|].
Qed.

Lemma candidate_page_name (t id : Z) :
  candidate (slug (JsDate.iso_date t) id +:+ ".mdx") = true.
Proof.
  unfold candidate. rewrite endsWith_app. unfold slug. rewrite !append_assoc.
  rewrite startsWith_dated; [done |]. by apply has_char_iso_date.
Qed.

(** X9: A page written for a record with a negative identifier -n is deleted
    by the reconciliation of the same run, unless n itself is the
    identifier of a record of the listing. *)
Theorem negative_id_page_is_deleted
    (h : jsHost) (args : list string) (w w' : world) (db : database)
    (row : SwotRow.t) (t : Z) :
  stores w !! path_resolve h (dbPathArg args) = Some db ->
  main h args w = (Ok tt, w') ->
  Date_parse h (SwotRow.created_at row) = Some t ->
  SwotRow.id row < 0 ->
  - SwotRow.id row ∉ (SwotRow.id <$> swotRows db) ->
  swot_files w' !! (slug (JsDate.iso_date t) (SwotRow.id row) +:+ ".mdx") = None.
Proof.
  intros Hdb Hrun Ht Hneg Hnot.
  destruct (main_spec h args w db Hdb) as (w1 & Hrun1 & _ & Hs & _).
  rewrite Hrun in Hrun1. injection Hrun1 as Hres <-.
  symmetry in Hres. apply run_result_ok in Hres as [Hps _].
  rewrite Hs. unfold after_pass. rewrite Hps, lookup_reconcile.
  unfold stale, orphan. rewrite candidate_page_name, fileId_page_name_abs.
  rewrite bool_decide_eq_false_2; [done |].
  by replace (Z.abs (SwotRow.id row)) with (- SwotRow.id row) by lia.
Qed.

Lemma negative_id_page_is_deleted_witness :
  let w0 := Sample.world_with
              {| swotRows := [Sample2.analysis_minus5]; compRows := [] |} ∅ in
  (main Sample.host Sample.args w0).1 = Ok tt
  /\ writes (trace (main Sample.host Sample.args w0).2)
     = [(swotDir, "2024-03-01--5.mdx",
         default "" (snd <$> head (ok_prefix (pages (swot_page Sample.host)
                                                [Sample2.analysis_minus5] 0))))]
  /\ swot_files (main Sample.host Sample.args w0).2 !! "2024-03-01--5.mdx" = None.
Proof.
  intros w0.
  assert (H1 : (main Sample.host Sample.args w0).1 = Ok tt) by (vm_compute; reflexivity).
  split; [exact H1 |]. split; [vm_compute; reflexivity |].
  apply (negative_id_page_is_deleted Sample.host Sample.args w0
           (main Sample.host Sample.args w0).2
           {| swotRows := [Sample2.analysis_minus5]; compRows := [] |}
           Sample2.analysis_minus5 1709287200000 eq_refl).
  - destruct (main Sample.host Sample.args w0) as [r w1]. simpl in *. by subst r.
  - reflexivity.
  - reflexivity.
  - intros H%list_elem_of_singleton. discriminate H.
Defined.

Lemma write_all_lookup_other ps (m : gmap string string) n :
  n ∉ ps.*1 -> write_all ps m !! n = m !! n.
Proof.
  unfold write_all. revert m. induction ps as [|[k c] ps IH]; intros m; simpl; [done |].
  intros [Hk Hps]%not_elem_of_cons. rewrite (IH _ Hps). by rewrite lookup_insert_ne.
Qed.

Lemma write_all_lookup_NoDup ps (m : gmap string string) n c :
  NoDup ps.*1 -> (n, c) ∈ ps -> write_all ps m !! n = Some c.
Proof.
  revert m. induction ps as [|[k x] ps IH]; intros m; simpl.
  - by intros _ ?%elem_of_nil.
  - intros [Hk Hnd]%NoDup_cons [Heq|Hin]%elem_of_cons.
    + injection Heq as -> ->. unfold write_all. simpl.
      fold (write_all ps (<[k:=x]> m)).
      rewrite write_all_lookup_other by done. apply lookup_insert_eq.
    + unfold write_all. simpl. fold (write_all ps (<[k:=x]> m)). by apply IH.
Qed.

Lemma page_ids {A} (page : A -> bool -> result (string * string)) (id : A -> Z)
    (rows : list A) (k : nat) :
  (forall r b p, page r b = Ok p -> 0 <= id r -> fileId p.1 = Some (id r)) ->
  (forall r, r ∈ rows -> 0 <= id r) ->
  outcome (pages page rows k) = Ok tt ->
  fileId <$> (ok_prefix (pages page rows k)).*1 = Some <$> (id <$> rows).
Proof.
  intros Hpage. revert k. induction rows as [|r rows IH]; intros k Hpos; simpl; [done |].
  destruct (page r (bool_decide (k = 0%nat))) as [p| |] eqn:Hp; [| done..].
  intros Ho. simpl. rewrite (Hpage _ _ _ Hp) by (apply Hpos; left).
  f_equal. apply IH; [| done]. intros r' Hr'. apply Hpos. by right.
Qed.

Lemma page_names_NoDup {A} (page : A -> bool -> result (string * string)) (id : A -> Z)
    (rows : list A) :
  (forall r b p, page r b = Ok p -> 0 <= id r -> fileId p.1 = Some (id r)) ->
  (forall r, r ∈ rows -> 0 <= id r) ->
  NoDup (id <$> rows) ->
  outcome (pages page rows 0) = Ok tt ->
  NoDup (ok_prefix (pages page rows 0)).*1.
Proof.
  intros Hpage Hpos Hnd Ho.
  apply (NoDup_fmap_1 fileId). rewrite (page_ids page id rows 0 Hpage Hpos Ho).
  apply NoDup_fmap_2; [| done]. by intros ?? [= ->].
Qed.

Lemma swot_page_fileId h r b p :
  swot_page h r b = Ok p -> 0 <= SwotRow.id r -> fileId p.1 = Some (SwotRow.id r).
Proof.
  intros (d & _ & ->)%swot_page_named Hpos. by apply fileId_page_name.
Qed.

Lemma comp_page_fileId h r b p :
  comp_page h r b = Ok p -> 0 <= CompRow.id r -> fileId p.1 = Some (CompRow.id r).
Proof.
  intros (d & _ & ->)%comp_page_named Hpos. by apply fileId_page_name.
Qed.

(** After a pass without failure over records with distinct non-negative
    identifiers, the page of every record of the listing is in the
    directory with the content built for that record at its rank. *)
Lemma after_pass_has_page {A} (page : A -> bool -> result (string * string))
    (id : A -> Z) (rows : list A) (m : gmap string string) (i : nat) (r : A) :
  (forall r b p, page r b = Ok p -> 0 <= id r -> fileId p.1 = Some (id r)) ->
  (forall r, r ∈ rows -> 0 <= id r) ->
  NoDup (id <$> rows) ->
  outcome (pages page rows 0) = Ok tt ->
  rows !! i = Some r ->
  exists p, page r (bool_decide (i = 0%nat)) = Ok p
            /\ after_pass (id <$> rows) (pages page rows 0) m !! p.1 = Some p.2.
Proof.
  intros Hpage Hpos Hnd Ho Hi.
  pose proof (pages_lookup page rows 0 i r Hi) as Hl. simpl in Hl.
  destruct (outcome_all_ok _ _ Ho (list_elem_of_lookup_2 _ _ _ Hl)) as [p Hp].
  exists p. split; [done |].
  unfold after_pass. rewrite Ho, lookup_reconcile.
  assert (Hr : r ∈ rows) by (by eapply list_elem_of_lookup_2).
  assert (Hs : stale (id <$> rows) p.1 = false).
  { unfold stale, orphan. rewrite (Hpage _ _ _ Hp) by auto.
    rewrite bool_decide_eq_true_2; [apply andb_false_r |].
    apply list_elem_of_fmap. by exists r. }
  rewrite Hs. apply write_all_lookup_NoDup.
  - by apply (page_names_NoDup page id).
  - apply (ok_prefix_all _ _ Ho). rewrite <- surjective_pairing, <- Hp.
    by eapply list_elem_of_lookup_2.
Qed.

(** X10: After a run that completes over listings with pairwise distinct
    non-negative identifiers, every record has its page on disk: the file
    named by its slug holds the content built for it at its rank. *)
Theorem every_record_has_its_page
    (h : jsHost) (args : list string) (w w' : world) (db : database) :
  stores w !! path_resolve h (dbPathArg args) = Some db ->
  main h args w = (Ok tt, w') ->
  (forall r, r ∈ swotRows db -> 0 <= SwotRow.id r) ->
  (forall r, r ∈ compRows db -> 0 <= CompRow.id r) ->
  NoDup (SwotRow.id <$> swotRows db) ->
  NoDup (CompRow.id <$> compRows db) ->
  (forall i row, swotRows db !! i = Some row ->
     exists p, swot_page h row (bool_decide (i = 0%nat)) = Ok p
               /\ swot_files w' !! p.1 = Some p.2)
  /\ (forall i row, compRows db !! i = Some row ->
     exists p, comp_page h row (bool_decide (i = 0%nat)) = Ok p
               /\ comp_files w' !! p.1 = Some p.2).
Proof.
  intros Hdb Hrun Hsp Hcp Hsn Hcn.
  destruct (main_spec h args w db Hdb) as (w1 & Hrun1 & _ & Hs & Hc & _).
  rewrite Hrun in Hrun1. injection Hrun1 as Hres <-.
  symmetry in Hres. apply run_result_ok in Hres as [Hps Hqs].
  rewrite Hps in Hc. split.
  - intros i row Hi. rewrite Hs.
    apply (after_pass_has_page (swot_page h) SwotRow.id); try done.
    apply swot_page_fileId.
  - intros i row Hi. rewrite Hc.
    apply (after_pass_has_page (comp_page h) CompRow.id); try done.
    apply comp_page_fileId.
Qed.

Lemma every_record_has_its_page_witness :
  let w0 := Sample.world_with Sample.store Sample.leftover in
  exists p, swot_page Sample.host Sample.analysis7 true = Ok p
            /\ swot_files (main Sample.host Sample.args w0).2 !! p.1 = Some p.2.
Proof.
  intros w0.
  assert (Hrun : main Sample.host Sample.args w0
                 = (Ok tt, (main Sample.host Sample.args w0).2)).
  { assert (H1 : (main Sample.host Sample.args w0).1 = Ok tt) by (vm_compute; reflexivity).
    destruct (main Sample.host Sample.args w0) as [r w1]. simpl in *. by subst r. }
  apply (proj1 (every_record_has_its_page Sample.host Sample.args w0 _ Sample.store
                  eq_refl Hrun
                  ltac:(intros r ->%list_elem_of_singleton; vm_compute; discriminate)
                  ltac:(intros r ->%list_elem_of_singleton; vm_compute; discriminate)
                  ltac:(apply NoDup_singleton)
                  ltac:(apply NoDup_singleton))
           0%nat Sample.analysis7 eq_refl).
Defined.

(** X11: A record whose creation time is an Invalid Date has no page, whatever
    its other fields hold: [toISOString] throws RangeError first.  The run
    ends there, with the pages of the earlier records written, nothing
    reconciled and the comparisons untouched. *)
Theorem invalid_date_aborts_run
    (h : jsHost) (args : list string) (w : world) (db : database)
    (pre post : list SwotRow.t) (row : SwotRow.t) :
  stores w !! path_resolve h (dbPathArg args) = Some db ->
  swotRows db = pre ++ row :: post ->
  outcome (pages (swot_page h) pre 0) = Ok tt ->
  Date_parse h (SwotRow.created_at row) = None ->
  exists w',
    main h args w = (Throw RangeError, w')
    /\ swot_files w' = write_all (ok_prefix (pages (swot_page h) pre 0)) (swot_files w)
    /\ comp_files w' = comp_files w
    /\ unlinks (trace w') = unlinks (trace w).
Proof.
  intros Hdb Hrows Hpre Hdate.
  destruct (pages_stop_at (swot_page h) pre row post RangeError Hpre) as [Hout Hok].
  { intros b. unfold swot_page. by rewrite Hdate. }
  destruct (main_spec h args w db Hdb) as (w' & Hrun & _ & Hs & Hc & _ & _ & Hun).
  rewrite Hrows in Hrun, Hs, Hc, Hun.
  unfold run_result, after_pass in *. rewrite Hout in *. rewrite Hok in *.
  exists w'. split_and!; try done. by apply Hun.
Qed.

Lemma invalid_date_aborts_run_witness :
  exists w',
    main Sample.host Sample.args
      (Sample.world_with
         {| swotRows := [Sample.analysis7; Sample2.analysis_undated]; compRows := [] |} ∅)
    = (Throw RangeError, w')
    /\ comp_files w' = ∅.
Proof.
  destruct (invalid_date_aborts_run Sample.host Sample.args
              (Sample.world_with
                 {| swotRows := [Sample.analysis7; Sample2.analysis_undated];
                    compRows := [] |} ∅)
              {| swotRows := [Sample.analysis7; Sample2.analysis_undated]; compRows := [] |}
              [Sample.analysis7] [] Sample2.analysis_undated eq_refl eq_refl)
    as (w' & Hrun & _ & Hc & _).
  - vm_compute. reflexivity.
  - reflexivity.
  - exists w'. split; [exact Hrun | exact Hc].
Defined.

End Emission.

(** ** Which records get a page *)

Section PageSuccess.
Import Gen Obs Printable.

Lemma pad0_2_length (n : Z) : 0 <= n < 100 -> String.length (Js.pad0 2 n) = 2%nat.
Proof.
  intros Hn.
  assert (Hk : exists k : nat, n = Z.of_nat k /\ (k < 100)%nat).
  { exists (Z.to_nat n). lia. }
  destruct Hk as (k & -> & Hk).
  do 100 (destruct k as [|k]; [vm_compute; reflexivity |]). lia.
Qed.

Lemma slice0_5_clock (a b rest : string) :
  String.length a = 2%nat -> String.length b = 2%nat ->
  Js.slice0 5 (a +:+ ":" +:+ b +:+ rest) = a +:+ ":" +:+ b.
Proof.
  destruct a as [|a1 [|a2 [|]]]; try done.
  destruct b as [|b1 [|b2 [|]]]; try done.
  intros _ _. unfold Js.slice0. cbn. by destruct rest.
Qed.

(** X12: The time a page shows is the local wall-clock time of the record's
    creation, as [HH:mm]: hours and minutes of the time value shifted by the
    host's zone offset, each on two digits.  The seconds and the zone name
    [toTimeString] prints are cut off. *)
Theorem timeStr_is_local_hours_and_minutes (h : jsHost) (t : Z) :
  timeStr_of h (Some t)
  = Js.pad0 2 (JsDate.HourFromTime (t + LocalTZA h t)) +:+ ":"
    +:+ Js.pad0 2 (JsDate.MinFromTime (t + LocalTZA h t))
  /\ String.length (timeStr_of h (Some t)) = 5%nat.
Proof.
  set (u := t + LocalTZA h t).
  assert (HH : 0 <= JsDate.HourFromTime u < 100).
  { unfold JsDate.HourFromTime, JsDate.TimeWithinDay, JsDate.msPerDay.
    pose proof (Z.mod_pos_bound u 86400000 ltac:(lia)) as Hm.
    split; [apply Z.div_pos; lia |].
    apply Z.div_lt_upper_bound; lia. }
  assert (HM : 0 <= JsDate.MinFromTime u < 100).
  { unfold JsDate.MinFromTime.
    pose proof (Z.mod_pos_bound (JsDate.TimeWithinDay u / 60000) 60 ltac:(lia)). lia. }
  assert (Heq : timeStr_of h (Some t)
                = Js.pad0 2 (JsDate.HourFromTime u) +:+ ":"
                  +:+ Js.pad0 2 (JsDate.MinFromTime u)).
  { unfold timeStr_of, toTimeString. fold u.
    change (JsDate.hms u +:+ " " +:+ tz_label h t)
      with (JsDate.hms u +:+ String " " (tz_label h t)).
    rewrite split_at_first.
    - simpl. unfold JsDate.hms. rewrite ?append_assoc.
      apply slice0_5_clock; by apply pad0_2_length.
    - unfold JsDate.hms. rewrite !has_char_app, !has_char_pad0; done. }
  split; [exact Heq |].
  rewrite Heq, !length_append, !pad0_2_length by done. reflexivity.
Qed.

Lemma get_cases v key :
  (exists p, get v key = Ok p) \/ get v key = Throw TypeError.
Proof. destruct v; simpl; eauto. Qed.

Lemma ToString_cases (v : json) :
  (exists s, ToString v = Ok s) \/ ToString v = Throw TypeError.
Proof.
  revert v. fix IH 1. intros [| [|] | shown | s | elems | members]; simpl.
  1-5: clear IH; left; by eexists.
  - assert (Hm : (exists l, mapM (fun e => match e with JNull => Ok "" | _ => ToString e end)
                              elems = Ok l)
                 \/ mapM (fun e => match e with JNull => Ok "" | _ => ToString e end)
                      elems = Throw TypeError).
    { induction elems as [|e elems IHl]; simpl; [clear IH; left; by eexists |].
      assert (He : (exists s, match e with JNull => Ok "" | _ => ToString e end = Ok s)
                   \/ match e with JNull => Ok "" | _ => ToString e end = Throw TypeError).
      { pose proof (IH e) as He. clear IH IHl.
        destruct e; try exact He. left. by eexists. }
      clear IH.
      destruct He as [[s ->] | ->]; [| by right].
      destruct IHl as [[l ->] | ->]; [left; by eexists | by right]. }
    clear IH.
    destruct Hm as [[l ->] | ->]; [left; by eexists | by right].
  - clear IH. destruct (own_property "toString" members); [by right | left; by eexists].
Qed.

Lemma show_property_cases v key :
  (exists s, show_property v key = Ok s) \/ show_property v key = Throw TypeError.
Proof.
  unfold show_property. destruct (get_cases v key) as [[p ->] | ->]; [| by right].
  simpl. destruct p; [apply ToString_cases | eauto].
Qed.

Lemma detail_items_cases (l : list json) (i : nat) :
  ((exists ds, detail_items l i = Ok ds) /\ forall s, s ∈ l -> printable_item s)
  \/ (detail_items l i = Throw TypeError /\ exists s, s ∈ l /\ ~ printable_item s).
Proof.
  revert i. induction l as [|s l IH]; intros i; simpl.
  - left. split; [by eexists |]. by intros ? ?%elem_of_nil.
  - unfold detail_item.
    destruct (show_property_cases s "text") as [[a Ha] | Ha]; rewrite Ha; simpl.
    2:{ right. split; [done |]. exists s. split; [left |].
        intros [[a Ha'] _]. congruence. }
    destruct (show_property_cases s "reasoning") as [[b Hb] | Hb]; rewrite Hb; simpl.
    2:{ right. split; [done |]. exists s. split; [left |].
        intros [_ [b Hb']]. congruence. }
    destruct (IH (S i)) as [[[ds ->] Hall] | [-> (s' & Hin & Hbad)]]; simpl.
    + left. split; [by eexists |].
      intros s' [->|Hin]%elem_of_cons; [| by apply Hall].
      split; by eexists.
    + right. split; [done |]. exists s'. split; [by right | done].
Qed.

Lemma category_cases {A} (v : json) (f : list json -> result A)
    (k : list json -> string -> result A) :
  (forall items, f items = details items ≫= k items) ->
  ((exists l text, v = JArr l /\ items_of v ≫= f = k l text) /\ printable_list v)
  \/ (items_of v ≫= f = Throw TypeError /\ ~ printable_list v).
Proof.
  intros Hf.
  destruct v as [| b | shown | s | l | members]; simpl;
    try (right; split; [done |]; by intros (l' & Heq & _)).
  rewrite Hf. unfold details.
  destruct (detail_items_cases l 0) as [[[ds ->] Hall] | [-> (s & Hin & Hbad)]]; simpl.
  - left. split; [by eexists _, _ |]. by exists l.
  - right. split; [done |]. intros (l' & [= <-] & Hall). by apply Hbad, Hall.
Qed.

Ltac category v :=
  match goal with
  | |- context [items_of v ≫= ?f] =>
      let l := fresh "l" in
      let x := fresh "x" in
      let H := fresh "H" in
      let P := fresh "P" in
      destruct (category_cases v f _ (fun items => eq_refl))
        as [[(l & x & -> & H) P] | [H P]];
      [rewrite H | right; split; [exact H | tauto]]
  end.

Lemma swot_mdx_cases h row d tm latest s w o t so wo st wt :
  ((exists mdx, swot_mdx h row d tm latest s w o t so wo st wt = Ok mdx)
   /\ printable_list s /\ printable_list w /\ printable_list o /\ printable_list t)
  \/ (swot_mdx h row d tm latest s w o t so wo st wt = Throw TypeError
      /\ ~ (printable_list s /\ printable_list w /\ printable_list o /\ printable_list t)).
Proof.
  unfold swot_mdx.
  category s. category w. category o. category t.
  left. split; [by eexists | tauto].
Qed.

Ltac in_list := solve [left | right; in_list].

Ltac field_cases H :=
  repeat (apply elem_of_cons in H as [H | H]); [subst.. | by apply elem_of_nil in H].

(** X13: An analysis gets a page exactly when its creation time is a valid
    date, each of its eight JSON columns parses, and each of the four
    category columns parses to an array all of whose items have a printable
    text and reasoning.  The four strategic columns may hold any JSON
    value, and the rank of the record plays no part. *)
Theorem analysis_page_iff (h : jsHost) (row : SwotRow.t) (latest : bool) :
  (exists p, swot_page h row latest = Ok p)
  <-> is_Some (Date_parse h (SwotRow.created_at row))
      /\ (forall field, field ∈ swot_fields row -> exists v, parse_field h field = Ok v)
      /\ (forall field v, field ∈ category_fields row ->
            parse_field h field = Ok v -> printable_list v).
Proof.
  unfold swot_page, swot_fields, category_fields. split.
  - intros [p Hp]. cbv [mbind result_bind] in Hp.
    destruct (Date_parse h (SwotRow.created_at row)) as [t|]; [| done].
    rewrite dateStr_of_valid in Hp.
    destruct (parse_field h (SwotRow.strengths_json row)) as [v1| |] eqn:E1; [| done..].
    destruct (parse_field h (SwotRow.weaknesses_json row)) as [v2| |] eqn:E2; [| done..].
    destruct (parse_field h (SwotRow.opportunities_json row)) as [v3| |] eqn:E3; [| done..].
    destruct (parse_field h (SwotRow.threats_json row)) as [v4| |] eqn:E4; [| done..].
    destruct (parse_field h (SwotRow.strategic_so_json row)) as [v5| |] eqn:E5; [| done..].
    destruct (parse_field h (SwotRow.strategic_wo_json row)) as [v6| |] eqn:E6; [| done..].
    destruct (parse_field h (SwotRow.strategic_st_json row)) as [v7| |] eqn:E7; [| done..].
    destruct (parse_field h (SwotRow.strategic_wt_json row)) as [v8| |] eqn:E8; [| done..].
    destruct (swot_mdx_cases h row (JsDate.iso_date t) (timeStr_of h (Some t)) latest
                v1 v2 v3 v4 v5 v6 v7 v8) as [[_ (P1 & P2 & P3 & P4)] | [Hbad _]];
      [| by rewrite Hbad in Hp].
    split; [by eexists |]. split.
    + intros field Hin. field_cases Hin; by eexists.
    + intros field v Hin Hv. field_cases Hin; congruence.
  - intros ([t Ht] & Hparse & Hprint). rewrite Ht, dateStr_of_valid.
    cbv [mbind result_bind].
    destruct (Hparse (SwotRow.strengths_json row)) as [v1 E1]; [in_list |].
    destruct (Hparse (SwotRow.weaknesses_json row)) as [v2 E2]; [in_list |].
    destruct (Hparse (SwotRow.opportunities_json row)) as [v3 E3]; [in_list |].
    destruct (Hparse (SwotRow.threats_json row)) as [v4 E4]; [in_list |].
    destruct (Hparse (SwotRow.strategic_so_json row)) as [v5 E5]; [in_list |].
    destruct (Hparse (SwotRow.strategic_wo_json row)) as [v6 E6]; [in_list |].
    destruct (Hparse (SwotRow.strategic_st_json row)) as [v7 E7]; [in_list |].
    destruct (Hparse (SwotRow.strategic_wt_json row)) as [v8 E8]; [in_list |].
    pose proof (Hprint (SwotRow.strengths_json row) v1 ltac:(in_list) E1) as P1.
    pose proof (Hprint (SwotRow.weaknesses_json row) v2 ltac:(in_list) E2) as P2.
    pose proof (Hprint (SwotRow.opportunities_json row) v3 ltac:(in_list) E3) as P3.
    pose proof (Hprint (SwotRow.threats_json row) v4 ltac:(in_list) E4) as P4.
    rewrite E1, E2, E3, E4, E5, E6, E7, E8.
    destruct (swot_mdx_cases h row (JsDate.iso_date t) (timeStr_of h (Some t)) latest
                v1 v2 v3 v4 v5 v6 v7 v8) as [[[mdx ->] _] | [_ Hbad]];
      [by eexists | tauto].
Qed.

(** X14: When the date is valid and all eight columns parse, a category column
    that holds anything but an array of printable items (an object, a
    number, a string, [null], or an array with a [null] item) ends the
    build of the page with a TypeError. *)
Theorem unprintable_category_is_type_error
    (h : jsHost) (row : SwotRow.t) (latest : bool) (field : option string) (v : json) :
  is_Some (Date_parse h (SwotRow.created_at row)) ->
  (forall f, f ∈ swot_fields row -> exists x, parse_field h f = Ok x) ->
  field ∈ category_fields row ->
  parse_field h field = Ok v ->
  ~ printable_list v ->
  swot_page h row latest = Throw TypeError.
Proof.
  unfold swot_page, swot_fields, category_fields.
  intros [t Ht] Hparse Hin Hv Hbad. rewrite Ht, dateStr_of_valid.
  cbv [mbind result_bind].
  destruct (Hparse (SwotRow.strengths_json row)) as [v1 E1]; [in_list |].
  destruct (Hparse (SwotRow.weaknesses_json row)) as [v2 E2]; [in_list |].
  destruct (Hparse (SwotRow.opportunities_json row)) as [v3 E3]; [in_list |].
  destruct (Hparse (SwotRow.threats_json row)) as [v4 E4]; [in_list |].
  destruct (Hparse (SwotRow.strategic_so_json row)) as [v5 E5]; [in_list |].
  destruct (Hparse (SwotRow.strategic_wo_json row)) as [v6 E6]; [in_list |].
  destruct (Hparse (SwotRow.strategic_st_json row)) as [v7 E7]; [in_list |].
  destruct (Hparse (SwotRow.strategic_wt_json row)) as [v8 E8]; [in_list |].
  rewrite E1, E2, E3, E4, E5, E6, E7, E8.
  destruct (swot_mdx_cases h row (JsDate.iso_date t) (timeStr_of h (Some t)) latest
              v1 v2 v3 v4 v5 v6 v7 v8) as [[_ (P1 & P2 & P3 & P4)] | [-> _]];
    [| done].
  exfalso. apply Hbad. field_cases Hin; congruence.
Qed.

Lemma unprintable_category_is_type_error_witness :
  swot_page Sample2.host_obj Sample2.analysis8_object true = Throw TypeError.
Proof.
  apply (unprintable_category_is_type_error Sample2.host_obj Sample2.analysis8_object
           true (Some "{}") (JObj [])).
  - by eexists.
  - intros f Hf. unfold swot_fields in Hf. field_cases Hf; by eexists.
  - left.
  - reflexivity.
  - intros (l & Heq & _). discriminate Heq.
Defined.

(** X15: A comparison gets a page exactly when its creation time is a
    valid date and its items column parses, whatever JSON value it parses
    to: unlike the category columns of an analysis, the value need not be
    an array, and the rank plays no part. *)
Theorem comparison_page_iff (h : jsHost) (row : CompRow.t) (latest : bool) :
  (exists p, comp_page h row latest = Ok p)
  <-> is_Some (Date_parse h (CompRow.created_at row))
      /\ exists v, parse_field h (CompRow.items_json row) = Ok v.
Proof.
  unfold comp_page. cbv [mbind result_bind]. split.
  - intros [p Hp].
    destruct (Date_parse h (CompRow.created_at row)) as [t|]; [| done].
    rewrite dateStr_of_valid in Hp.
    destruct (parse_field h (CompRow.items_json row)) as [v| |]; [| done..].
    split; by eexists.
  - intros [[t ->] [v ->]]. rewrite dateStr_of_valid. by eexists.
Qed.

Lemma comparison_page_iff_witness :
  exists p, comp_page Sample2.host_obj Sample2.comparison9_object true = Ok p.
Proof.
  apply (proj2 (comparison_page_iff Sample2.host_obj Sample2.comparison9_object true)).
  split; [by eexists | exists (JObj []); reflexivity].
Defined.

End PageSuccess.

(** ** The shape of a run *)

Section RunShape.
Import Gen Obs Shape.

Lemma pass_only_ret {A} (a : A) : pass_only (mret a : M A).
Proof. intros w. exists []. by rewrite app_nil_r. Qed.

Lemma pass_only_lift {A} (r : result A) : pass_only (lift r).
Proof. intros w. exists []. by rewrite app_nil_r. Qed.

Lemma pass_only_bind {A B} (m : M A) (f : A -> M B) :
  pass_only m -> (forall a, pass_only (f a)) -> pass_only (m ≫= f).
Proof.
  intros Hm Hf w. destruct (Hm w) as (e1 & He1 & Hp1).
  unfold mbind, M_bind. destruct (m w) as [[a|c|e] w1]; simpl in *.
  - destruct (Hf a w1) as (e2 & He2 & Hp2). exists (e1 ++ e2).
    rewrite He2, He1, app_assoc, forallb_app, Hp1, Hp2. done.
  - by exists e1.
  - by exists e1.
Qed.

Lemma pass_only_console_log line : pass_only (console_log line).
Proof. intros w. by exists [Log line]. Qed.

Lemma pass_only_writeFileSync dir name content :
  pass_only (writeFileSync dir name content).
Proof.
  intros w. exists [WriteFile dir name content]. simpl.
  by rewrite trace_set_files.
Qed.

Lemma pass_only_unlinkSync dir name : pass_only (unlinkSync dir name).
Proof.
  intros w. unfold unlinkSync. destruct (files dir w !! name); simpl.
  - exists [Unlink dir name]. by rewrite trace_set_files.
  - exists []. by rewrite app_nil_r.
Qed.

Lemma pass_only_readdirSync dir : pass_only (readdirSync dir).
Proof. intros w. exists []. by rewrite app_nil_r. Qed.

Lemma pass_only_forEach {A} (f : A -> nat -> M unit) (l : list A) (k : nat) :
  (forall x i, pass_only (f x i)) -> pass_only (forEach f l k).
Proof.
  intros Hf. revert k. induction l as [|x l IH]; intros k; simpl.
  - apply pass_only_ret.
  - apply pass_only_bind; [apply Hf | intros _; apply IH].
Qed.

Lemma pass_only_cleanup_each dir validIds fs removed :
  pass_only (cleanup_each dir validIds fs removed).
Proof.
  revert removed. induction fs as [|f fs IH]; intros removed; simpl.
  - apply pass_only_ret.
  - destruct (fileId f) as [n|]; [| apply IH].
    destruct (negb _); [| apply IH].
    apply pass_only_bind; [apply pass_only_unlinkSync | intros _].
    apply pass_only_bind; [apply pass_only_console_log | intros _; apply IH].
Qed.

Lemma pass_only_cleanupOldFiles dir validIds : pass_only (cleanupOldFiles dir validIds).
Proof.
  unfold cleanupOldFiles.
  apply pass_only_bind; [apply pass_only_readdirSync | intros names].
  apply pass_only_cleanup_each.
Qed.

Ltac pass_only_steps :=
  repeat first
    [ apply pass_only_console_log
    | apply pass_only_writeFileSync
    | apply pass_only_lift
    | apply pass_only_ret
    | apply pass_only_cleanupOldFiles
    | apply pass_only_bind; [| intros ?] ].

Lemma pass_only_emit_swot h row index : pass_only (emit_swot h row index).
Proof. unfold emit_swot. pass_only_steps. Qed.

Lemma pass_only_emit_comp h row index : pass_only (emit_comp h row index).
Proof. unfold emit_comp. pass_only_steps. Qed.

Lemma pass_only_swot_pass h db : pass_only (swot_pass h db).
Proof.
  unfold swot_pass. pass_only_steps.
  - apply pass_only_forEach. intros. apply pass_only_emit_swot.
  - destruct (0 <? _)%nat; pass_only_steps.
Qed.

Lemma pass_only_comp_pass h db : pass_only (comp_pass h db).
Proof.
  unfold comp_pass. pass_only_steps.
  - apply pass_only_forEach. intros. apply pass_only_emit_comp.
  - destruct (0 <? _)%nat; pass_only_steps.
Qed.

Lemma closes_app (a b : list event) : closes (a ++ b) = (closes a + closes b)%nat.
Proof. unfold closes. by rewrite omap_app, length_app. Qed.

Lemma closes_pass_events (evs : list event) :
  forallb pass_event evs = true -> closes evs = 0%nat.
Proof.
  unfold closes. induction evs as [|e evs IH]; simpl; [done |].
  intros [He Hevs]%andb_true_iff. destruct e; try done; by apply IH.
Qed.

Lemma main_trace
    (h : jsHost) (args : list string) (w : world) (db : database) :
  stores w !! path_resolve h (dbPathArg args) = Some db ->
  exists body,
    trace (main h args w).2
    = trace w ++ prologue h args ++ body
      ++ match (main h args w).1 with Ok _ => epilogue | _ => [] end
    /\ forallb pass_event body = true.
Proof.
  intros Hdb.
  cbv [main mbind M_bind console_log console_error existsSync process_exit
       Database mkdirSync db_close].
  cbn [record stores]. rewrite Hdb.
  rewrite (bool_decide_eq_true_2 (is_Some (Some db))) by eauto.
  cbv [negb mret M_ret]. cbn [record stores]. rewrite Hdb.
  match goal with
  | |- context [swot_pass h db ?w0] =>
      destruct (pass_only_swot_pass h db w0) as (e1 & He1 & Hp1);
      cbn [trace record] in He1;
      destruct (swot_pass h db w0) as [[[]|c|e] w1]
  end; cbn [fst snd] in *.
  - destruct (pass_only_comp_pass h db w1) as (e2 & He2 & Hp2).
    destruct (comp_pass h db w1) as [[[]|c|e] w2]; cbn [fst snd trace record] in *;
      exists (e1 ++ e2); rewrite forallb_app, Hp1, Hp2; (split; [| done]);
      rewrite He2, He1; unfold prologue, epilogue;
      rewrite <- ?app_assoc; simpl; by rewrite ?app_nil_r.
  - exists e1. split; [| done]. rewrite He1. unfold prologue.
    rewrite <- ?app_assoc. simpl. by rewrite ?app_nil_r.
  - exists e1. split; [| done]. rewrite He1. unfold prologue.
    rewrite <- ?app_assoc. simpl. by rewrite ?app_nil_r.
Qed.

(** X16: The trace of a run over an existing store: the five opening events
    (two progress lines, the store opened, the two directories made), then
    only progress lines, page writes and deletions, and, exactly when the
    run completes, the store closed and the two closing lines. *)
Theorem run_trace_shape
    (h : jsHost) (args : list string) (w : world) (db : database) :
  stores w !! path_resolve h (dbPathArg args) = Some db ->
  exists body,
    trace (main h args w).2
    = trace w ++ prologue h args ++ body
      ++ match (main h args w).1 with Ok _ => epilogue | _ => [] end
    /\ forallb pass_event body = true.
Proof. apply main_trace. Qed.

Lemma run_trace_shape_witness :
  exists body,
    trace (main Sample.host Sample.args (Sample.world_with Sample.store_broken ∅)).2
    = [] ++ prologue Sample.host Sample.args ++ body ++ []
    /\ forallb pass_event body = true.
Proof.
  destruct (run_trace_shape Sample.host Sample.args
              (Sample.world_with Sample.store_broken ∅) Sample.store_broken eq_refl)
    as (body & Htrace & Hbody).
  assert (H1 : (main Sample.host Sample.args
                  (Sample.world_with Sample.store_broken ∅)).1 = Throw SyntaxError)
    by (vm_compute; reflexivity).
  rewrite H1 in Htrace.
  exists body. split; [exact Htrace | exact Hbody].
Defined.

(** X17: The store is closed exactly when the run completes: a run that ends
    with an exception leaves the store it opened unclosed. *)
Theorem store_closed_iff_run_completes
    (h : jsHost) (args : list string) (w : world) (db : database) :
  stores w !! path_resolve h (dbPathArg args) = Some db ->
  closes (trace (main h args w).2)
  = (closes (trace w) + match (main h args w).1 with Ok _ => 1 | _ => 0 end)%nat
  /\ opens (trace (main h args w).2) = opens (trace w) ++ [path_resolve h (dbPathArg args)].
Proof.
  intros Hdb. split.
  - destruct (main_trace h args w db Hdb) as (body & -> & Hbody).
    rewrite !closes_app, (closes_pass_events body Hbody).
    destruct (main h args w).1; simpl; unfold closes; simpl; lia.
  - destruct (main_spec h args w db Hdb) as (w' & Hrun & _ & _ & _ & _ & Hop & _).
    by rewrite Hrun.
Qed.

Lemma store_closed_iff_run_completes_witness :
  let w0 := Sample.world_with Sample.store_broken ∅ in
  (main Sample.host Sample.args w0).1 = Throw SyntaxError
  /\ closes (trace (main Sample.host Sample.args w0).2) = 0%nat
  /\ opens (trace (main Sample.host Sample.args w0).2) = ["/data/swot.db"].
Proof.
  intros w0.
  assert (H1 : (main Sample.host Sample.args w0).1 = Throw SyntaxError)
    by (vm_compute; reflexivity).
  split; [exact H1 |].
  destruct (store_closed_iff_run_completes Sample.host Sample.args w0
              Sample.store_broken eq_refl) as [Hc Ho].
  split; [| exact Ho]. rewrite Hc, H1. reflexivity.
Defined.

(** X18: A failure among the comparisons does not undo the analyses: their
    pages stay written and their directory reconciled.  The comparisons
    written before the failure stay too, and no stale comparison page is
    removed. *)
Theorem failed_comparisons_keep_the_analyses
    (h : jsHost) (args : list string) (w : world) (db : database) :
  stores w !! path_resolve h (dbPathArg args) = Some db ->
  outcome (pages (swot_page h) (swotRows db) 0) = Ok tt ->
  outcome (pages (comp_page h) (compRows db) 0) <> Ok tt ->
  exists w',
    main h args w = (outcome (pages (comp_page h) (compRows db) 0), w')
    /\ swot_files w'
       = reconcile (SwotRow.id <$> swotRows db)
           (write_all (ok_prefix (pages (swot_page h) (swotRows db) 0)) (swot_files w))
    /\ comp_files w'
       = write_all (ok_prefix (pages (comp_page h) (compRows db) 0)) (comp_files w).
Proof.
  intros Hdb Hps Hqs.
  destruct (main_spec h args w db Hdb) as (w' & Hrun & _ & Hs & Hc & _).
  unfold run_result, after_pass in *. rewrite Hps in *.
  exists w'. split_and!; [done | done |].
  rewrite Hc. by destruct (outcome (pages (comp_page h) (compRows db) 0)) as [[]| |].
Qed.

Lemma failed_comparisons_keep_the_analyses_witness :
  exists w',
    main Sample.host Sample.args
      (Sample.world_with
         {| swotRows := [Sample.analysis7]; compRows := [Sample.comparison2_broken] |}
         Sample.leftover)
    = (Throw SyntaxError, w')
    /\ swot_files w' !! "2024-03-01-7.mdx"
       = snd <$> head (ok_prefix (pages (swot_page Sample.host) [Sample.analysis7] 0)).
Proof.
  destruct (failed_comparisons_keep_the_analyses Sample.host Sample.args
              (Sample.world_with
                 {| swotRows := [Sample.analysis7];
                    compRows := [Sample.comparison2_broken] |} Sample.leftover)
              {| swotRows := [Sample.analysis7]; compRows := [Sample.comparison2_broken] |}
              eq_refl)
    as (w' & Hrun & Hs & _).
  - vm_compute. reflexivity.
  - vm_compute. discriminate.
  - exists w'. split; [exact Hrun |]. rewrite Hs, lookup_reconcile.
    vm_compute. reflexivity.
Defined.

End RunShape.

(** ** More on the proxy *)

Section Credentials.
Import Server.

Lemma split_head_cases (c : ascii) (s : string) :
  exists a rest,
    Js.split c s = a :: rest
    /\ Js.has_char c a = false
    /\ ((rest = [] /\ s = a) \/ (exists s', s = a +:+ String c s' /\ rest = Js.split c s')).
Proof.
  induction s as [|x s (a & rest & Hs & Ha & Hcases)]; simpl.
  - exists "", []. split_and!; [done | done | by left].
  - destruct (Ascii.eqb x c) eqn:Hxc.
    + apply Ascii.eqb_eq in Hxc as ->.
      exists "", (Js.split c s). split_and!; [done | done |]. right. by exists s.
    + rewrite Hs. exists (String x a), rest. split_and!; [done | |].
      * simpl. by rewrite Hxc, Ha.
      * destruct Hcases as [[-> ->] | (s' & -> & ->)]; [by left |].
        right. by exists s'.
Qed.

(** X19: The decoded credentials the proxy accepts are exactly the configured
    pair joined by a colon, or that pair followed by a colon and anything;
    and only when neither the configured user nor the configured password
    holds a colon. *)
Theorem accepted_credentials (env : process_env) (credentials : string) :
  credentials_ok env credentials = true
  <-> Js.has_char ":" (USER env) = false
      /\ Js.has_char ":" (PASSWORD env) = false
      /\ (credentials = USER env +:+ ":" +:+ PASSWORD env
          \/ exists extra,
               credentials = USER env +:+ ":" +:+ PASSWORD env +:+ ":" +:+ extra).
Proof.
  rewrite credentials_ok_iff. split.
  - intros [Hu Hp].
    destruct (split_head_cases ":" credentials) as (a & rest & Hs & Ha & Hcases).
    rewrite Hs in Hu, Hp. simpl in Hu, Hp. injection Hu as ->.
    destruct Hcases as [[-> _] | (s' & -> & ->)]; [done |].
    destruct (split_head_cases ":" s') as (b & rest' & Hs' & Hb & Hcases').
    rewrite Hs' in Hp. simpl in Hp. injection Hp as ->.
    split_and!; [done | done |].
    destruct Hcases' as [[_ ->] | (s'' & -> & _)]; [by left |].
    right. by exists s''.
  - intros (Hu & Hp & [-> | [extra ->]]).
    + change (USER env +:+ ":" +:+ PASSWORD env)
        with (USER env +:+ String ":" (PASSWORD env)).
      by rewrite (split_at_first ":" _ _ Hu), (split_no_sep ":" _ Hp).
    + by apply credentials_ok_iff, credentials_ok_trailing.
Qed.

Lemma accepted_credentials_witness :
  credentials_ok {| SWOT_USER := Some "ops"; SWOT_PASSWORD := None |} "ops:swot2024" = true.
Proof.
  apply (accepted_credentials {| SWOT_USER := Some "ops"; SWOT_PASSWORD := None |}
           "ops:swot2024").
  split_and!; [reflexivity | reflexivity | by left].
Defined.

(** X20: Requests and upgrades are decided alike: either both are forwarded,
    on a Basic header whose decoded credentials pass the check, or the
    request gets the 401 challenge and the upgrade has its socket destroyed
    without any response being written. *)
Theorem both_paths_decide_alike
    (decode : string -> string) (env : process_env) (req : request) :
  (handler decode env req = [ProxyWeb]
   /\ upgrade decode env req = [ProxyWs]
   /\ exists auth, authorization req = Some auth
                   /\ Js.startsWith auth "Basic " = true
                   /\ credentials_ok env (decode (slice_from 6 auth)) = true)
  \/ ((exists body, handler decode env req = challenge body)
      /\ upgrade decode env req = [SocketDestroy]).
Proof.
  unfold handler, upgrade. destruct (authorization req) as [auth|].
  - destruct (Js.startsWith auth "Basic ") eqn:Hb; cbn [negb].
    + destruct (credentials_ok env (decode (slice_from 6 auth))) eqn:Hc; cbn [negb].
      * left. split_and!; [done | done |]. by exists auth.
      * right. split; [eexists; reflexivity | done].
    + right. split; [eexists; reflexivity | done].
  - right. split; [eexists; reflexivity | done].
Qed.

End Credentials.

Section Banner.
Import Gen Server Startup.







End Banner.

(** ** The comparison timeline *)

Section TimelineFacts.
Import Gen Timeline.

Lemma has_type_of_type ty i :
  i <> JNull -> has_type ty i = Ok (of_type ty i).
Proof.
  intros Hi. unfold has_type, of_type, change_type.
  destruct i as [| b | shown | s | l | members]; try done.
  simpl. by destruct (own_property "change_type" members) as [[]|].
Qed.

Lemma filter_type_ok ty l :
  JNull ∉ l -> filter_type ty l = Ok (List.filter (of_type ty) l).
Proof.
  induction l as [|i l IH]; simpl; [done |].
  intros [Hi Hl]%not_elem_of_cons.
  rewrite has_type_of_type by done. simpl. rewrite (IH Hl). simpl.
  by destruct (of_type ty i).
Qed.

Lemma filter_type_null ty l :
  JNull ∈ l -> filter_type ty l = Throw TypeError.
Proof.
  induction l as [|i l IH]; simpl.
  - by intros ?%elem_of_nil.
  - intros Hin. destruct (is_null i) eqn:Hi; [by destruct i |].
    assert (Hne : i <> JNull) by (by intros ->).
    rewrite has_type_of_type by done. simpl.
    apply elem_of_cons in Hin as [? | Hin]; [done |]. by rewrite (IH Hin).
Qed.

Lemma null_in_or_not (l : list json) : JNull ∈ l \/ JNull ∉ l.
Proof.
  induction l as [|i l [IH | IH]].
  - right. by intros ?%elem_of_nil.
  - left. by right.
  - destruct (is_null i) eqn:Hi.
    + left. destruct i; try done. left.
    + right. intros [<- | ?]%elem_of_cons; done.
Qed.

Lemma keyed_items prefix l : (keyed prefix l).*2 = l.
Proof.
  unfold keyed. rewrite fmap_imap.
  induction l as [|i l IH] using rev_ind; [done |].
  rewrite imap_app, IH. simpl. done.
Qed.

Lemma keyed_keys prefix l : (keyed prefix l).*1 = key prefix <$> seq 0 (length l).
Proof.
  unfold keyed. rewrite fmap_imap.
  induction l as [|i l IH] using rev_ind; [done |].
  rewrite imap_app, IH, length_app, seq_app, fmap_app. simpl.
  by rewrite Nat.add_0_r.
Qed.

Lemma shown_groups (l : list json) :
  List.filter (of_type "improved") l ++ List.filter (of_type "new") l
  ++ List.filter (of_type "worsened") l ++ List.filter (of_type "lost") l
  ≡ₚ List.filter shown l.
Proof.
  induction l as [|i l IH]; simpl; [done |].
  unfold shown, of_type. destruct (change_type i) as [s|]; [| exact IH].
  destruct (String.eqb s "improved") eqn:E1.
  { apply String.eqb_eq in E1 as ->. simpl. by rewrite IH. }
  destruct (String.eqb s "new") eqn:E2.
  { apply String.eqb_eq in E2 as ->. simpl.
    rewrite <- Permutation_middle. by rewrite IH. }
  destruct (String.eqb s "worsened") eqn:E3.
  { apply String.eqb_eq in E3 as ->. simpl.
    rewrite (app_assoc (List.filter _ l) (List.filter _ l) (i :: _)).
    rewrite <- Permutation_middle. rewrite <- app_assoc. by rewrite IH. }
  destruct (String.eqb s "lost") eqn:E4.
  { apply String.eqb_eq in E4 as ->. simpl.
    rewrite !app_assoc. rewrite <- Permutation_middle.
    rewrite <- !app_assoc. by rewrite IH. }
  simpl. exact IH.
Qed.

Lemma timeline_of_array (l : list json) (summary : option string) :
  JNull ∉ l ->
  ComparisonTimeline (Some (JArr l)) summary
  = Ok {| summary_card :=
            match summary with
            | Some text => if String.eqb text "" then None else Some text
            | None => None
            end;
          counters :=
            Some {| improved := length (List.filter (of_type "improved") l);
                    new := length (List.filter (of_type "new") l);
                    worsened := length (List.filter (of_type "worsened") l);
                    lost := length (List.filter (of_type "lost") l) |};
          entries :=
            keyed "imp-" (List.filter (of_type "improved") l)
            ++ keyed "new-" (List.filter (of_type "new") l)
            ++ keyed "wor-" (List.filter (of_type "worsened") l)
            ++ keyed "lost-" (List.filter (of_type "lost") l) |}.
Proof.
  intros Hl. unfold ComparisonTimeline, ComparisonStats, group. simpl.
  by rewrite !filter_type_ok by done.
Qed.

(** X23: Whenever the component builds its tree for an array of change
    items, its entries are exactly the items whose kind is one of improved,
    new, worsened and lost: first the improved ones, then the new, the
    worsened and the lost, each group in the order of the array.  Items of
    any other kind, or of none, get no entry, and the four counters are the
    sizes of the four groups. *)
Theorem timeline_shows_the_four_kinds_grouped
    (l : list json) (summary : option string) (v : view) :
  ComparisonTimeline (Some (JArr l)) summary = Ok v ->
  (entries v).*2
  = List.filter (of_type "improved") l ++ List.filter (of_type "new") l
    ++ List.filter (of_type "worsened") l ++ List.filter (of_type "lost") l
  /\ (entries v).*2 ≡ₚ List.filter shown l
  /\ counters v
     = Some {| improved := length (List.filter (of_type "improved") l);
               new := length (List.filter (of_type "new") l);
               worsened := length (List.filter (of_type "worsened") l);
               lost := length (List.filter (of_type "lost") l) |}.
Proof.
  intros Hv. destruct (null_in_or_not l) as [Hin | Hl].
  { unfold ComparisonTimeline, group in Hv. by rewrite !filter_type_null in Hv. }
  rewrite (timeline_of_array l summary Hl) in Hv. injection Hv as <-. simpl.
  rewrite !fmap_app, !keyed_items. split_and!; [done | | done].
  apply shown_groups.
Qed.

Lemma timeline_shows_the_four_kinds_grouped_witness :
  exists v,
    ComparisonTimeline (Some (JArr Sample2.items5)) None = Ok v
    /\ (entries v).*2
       = [ Sample2.item "improved" "b"; Sample2.item "improved" "d";
           Sample2.item "lost" "a" ].
Proof.
  eexists. split; [vm_compute; reflexivity |].
  refine (eq_trans (proj1 (timeline_shows_the_four_kinds_grouped Sample2.items5 None
                             _ _)) _).
  - vm_compute. reflexivity.
  - reflexivity.
Defined.

Lemma append_inj_l (p a b : string) : p +:+ a = p +:+ b -> a = b.
Proof. induction p as [|x p IH]; simpl; [done |]. intros [= H]. by apply IH. Qed.

Lemma key_inj prefix : Inj (=) (=) (key prefix).
Proof.
  intros i j H%append_inj_l.
  apply (f_equal Js.parseInt) in H.
  rewrite !parseInt_string_of_Z in H by lia. lia.
Qed.

Lemma keyed_NoDup prefix l : NoDup (keyed prefix l).*1.
Proof.
  rewrite keyed_keys. apply NoDup_fmap_2; [apply key_inj | apply NoDup_seq].
Qed.

Lemma keyed_key_head prefix l k :
  k ∈ (keyed prefix l).*1 -> exists rest, k = prefix +:+ rest.
Proof.
  rewrite keyed_keys. intros (i & -> & _)%list_elem_of_fmap. by eexists.
Qed.

(** X24: Whenever the timeline renders, no two of its entries carry the same
    React key. *)
Theorem timeline_keys_are_distinct
    (items : option json) (summary : option string) (v : view) :
  ComparisonTimeline items summary = Ok v ->
  NoDup (entries v).*1.
Proof.
  unfold ComparisonTimeline. cbv [mbind result_bind].
  destruct (group "improved" items) as [g1| |]; [| done..].
  destruct (group "new" items) as [g2| |]; [| done..].
  destruct (group "worsened" items) as [g3| |]; [| done..].
  destruct (group "lost" items) as [g4| |]; [| done..].
  destruct (ComparisonStats items) as [st| |]; [| done..].
  intros [= <-]. simpl. rewrite !fmap_app.
  repeat (apply NoDup_app; split_and!; [apply keyed_NoDup | | ]);
    try apply keyed_NoDup.
  all: intros k [r1 ->]%keyed_key_head Hin;
    repeat (apply elem_of_app in Hin as [Hin | Hin]);
    apply keyed_key_head in Hin as [r2 Hr2]; discriminate Hr2.
Qed.

Lemma timeline_keys_are_distinct_witness :
  exists v, ComparisonTimeline (Some (JArr Sample2.items5)) (Some "better") = Ok v
            /\ (entries v).*1 = ["imp-0"; "imp-1"; "lost-0"]
            /\ NoDup (entries v).*1.
Proof.
  eexists. split; [vm_compute; reflexivity |]. split; [reflexivity |].
  apply (timeline_keys_are_distinct (Some (JArr Sample2.items5)) (Some "better")).
  vm_compute. reflexivity.
Defined.

(** X25: The component throws a TypeError while it groups the items unless
    [items] is undefined, [null], or an array without a [null] element. *)
Theorem timeline_type_error_unless_renderable
    (items : option json) (summary : option string) :
  ~ renderable items ->
  ComparisonTimeline items summary = Throw TypeError.
Proof.
  intros Hbad. destruct items as [[| b | shown | s | l | members]|]; simpl in Hbad;
    try done; try tauto.
  destruct (null_in_or_not l) as [Hin | Hnot]; [| done].
  unfold ComparisonTimeline, group. by rewrite !filter_type_null.
Qed.

Lemma timeline_type_error_unless_renderable_witness :
  ComparisonTimeline (Some (JArr [Sample2.item "new" "a"; JNull])) None = Throw TypeError
  /\ ComparisonTimeline (Some (JStr "[]")) None = Throw TypeError.
Proof.
  split.
  - apply (timeline_type_error_unless_renderable
             (Some (JArr [Sample2.item "new" "a"; JNull])) None).
    simpl. intros H. apply H. right. left.
  - apply (timeline_type_error_unless_renderable (Some (JStr "[]")) None).
    simpl. tauto.
Defined.

(** X26: The counters add up to the number of entries shown. *)
Theorem counters_add_up_to_entries
    (items : option json) (summary : option string) (v : view) (st : stats) :
  ComparisonTimeline items summary = Ok v ->
  counters v = Some st ->
  (improved st + new st + worsened st + lost st)%nat = length (entries v).
Proof.
  unfold ComparisonTimeline, ComparisonStats, group.
  destruct items as [[| b | shown | s | l | members]|]; cbv [mbind result_bind]; simpl;
    try done; try (by intros [= <-]).
  destruct (filter_type "improved" l) as [g1| |]; [| done..].
  destruct (filter_type "new" l) as [g2| |]; [| done..].
  destruct (filter_type "worsened" l) as [g3| |]; [| done..].
  destruct (filter_type "lost" l) as [g4| |]; [| done..].
  intros [= <-]. simpl. intros [= <-]. simpl.
  rewrite !length_app. unfold keyed. rewrite !length_imap. lia.
Qed.

Lemma counters_add_up_to_entries_witness :
  exists v st, ComparisonTimeline (Some (JArr Sample2.items5)) None = Ok v
               /\ counters v = Some st
               /\ (improved st + new st + worsened st + lost st)%nat = 3%nat.
Proof.
  eexists _, _. split; [vm_compute; reflexivity |]. split; [reflexivity |].
  refine (eq_trans (counters_add_up_to_entries (Some (JArr Sample2.items5)) None
                      _ _ _ _) _).
  - vm_compute. reflexivity.
  - reflexivity.
  - reflexivity.
Defined.

End TimelineFacts.
